(** * avito-monitor: the API client and the price-watch bot, embedded in Rocq

    The development follows the three Python modules of the repository:

    - [Config]    config.py, the constants the other two modules import;
    - [Py]        the fragment of Python the code relies on: JSON values,
                  truthiness, insertion-ordered dicts, the [str] methods used
                  by the message handler, [int()] and [float()];
    - [Eff]       the effects: exceptions, the observable events, the outside
                  world (HTTP server, token endpoint, clock) and the
                  state-and-exception monad in which the coroutines run;
    - [AvitoAPI]  avito_api.py, class [AvitoAPI];
    - [Bot]       bot.py, class [AvitoBot] and the module-level registry
                  [user_items].

    Conventions.
    - A Python [float] is a binary64 number: the kernel's primitive [float].
    - A Python [str] is a [string] whose characters are code points below 256.
    - A Python [dict] is an association list in insertion order, without
      duplicate keys.
    - Every coroutine runs to its end before the next one starts: [await] is
      sequencing in the monad.  Interleavings of two handlers at an [await]
      are outside this model.
    - f-strings sent to the chat or given to an exception are kept as
      structured values ([message], [pyexn]) that hold the interpolated data.
    - A call of the Telegram API ([reply_text], [send_message]) is recorded
      as an event and returns.
    - bot.py names [Optional] in annotations without importing it; the
      module is read as if [typing.Optional] were imported. *)

From Stdlib Require Import ZArith List String Ascii Bool Arith Lia.
From Stdlib Require Import Floats.
From Equations Require Import Equations.
Import ListNotations.


(* ===================================================================== *)
(** ** config.py *)
(* ===================================================================== *)

Module Config.

Definition AVITO_API_BASE_URL : string := "https://api.avito.ru".
Definition AVITO_AUTH_URL : string := AVITO_API_BASE_URL ++ "/token".

Definition REQUEST_TIMEOUT : Z := 30.
Definition MAX_RETRIES : nat := 3.
Definition RETRY_DELAY : Z := 5.

Definition CHECK_INTERVAL : Z := 300.
Definition MAX_ITEMS_PER_USER : nat := 10.
Definition PRICE_CHANGE_THRESHOLD : Z := 5.

Definition CACHE_TTL : Z := 600.
Definition MAX_CACHE_ITEMS : Z := 1000.

End Config.

(* ===================================================================== *)
(** ** The Python fragment *)
(* ===================================================================== *)

Module Py.

(** *** Insertion-ordered dictionaries *)

Section Dict.
Variables K V : Type.
Variable eqb : K -> K -> bool.

Definition dict := list (K * V).

(** [d.get(k)] / [k in d] *)
Fixpoint dict_get (k : K) (d : dict) : option V :=
  match d with
  | [] => None
  | (k', v) :: r => if eqb k k' then Some v else dict_get k r
  end.

Definition dict_mem (k : K) (d : dict) : bool :=
  match dict_get k d with Some _ => true | None => false end.

(** [d[k] = v]: an existing key keeps its position, a new one goes last. *)
Fixpoint dict_set (k : K) (v : V) (d : dict) : dict :=
  match d with
  | [] => [(k, v)]
  | (k', v') :: r =>
      if eqb k k' then (k', v) :: r else (k', v') :: dict_set k v r
  end.

Definition dict_remove (k : K) (d : dict) : dict :=
  filter (fun e => negb (eqb k (fst e))) d.

(** [del d[k]]: [None] stands for the [KeyError] of a missing key. *)
Definition dict_del (k : K) (d : dict) : option dict :=
  if dict_mem k d then Some (dict_remove k d) else None.

Definition dict_keys (d : dict) : list K := map fst d.

End Dict.

Arguments dict_get {K V} eqb k d.
Arguments dict_mem {K V} eqb k d.
Arguments dict_set {K V} eqb k v d.
Arguments dict_remove {K V} eqb k d.
Arguments dict_del {K V} eqb k d.
Arguments dict_keys {K V} d.

(** *** JSON values, as [json.loads] builds them *)

#[warnings="-register-all"]
Inductive json : Type :=
| JNull
| JBool (b : bool)
| JInt (z : Z)
| JFloat (f : float)
| JStr (s : string)
| JArr (l : list json)
| JObj (kv : list (string * json)).

(** Truth value of an object in a condition ([if x:], [not x]). *)
Definition truthy (j : json) : bool :=
  match j with
  | JNull => false
  | JBool b => b
  | JInt z => negb (z =? 0)%Z
  | JFloat f => negb (f =? 0)%float
  | JStr s => negb (String.eqb s "")
  | JArr l => match l with [] => false | _ => true end
  | JObj kv => match kv with [] => false | _ => true end
  end.

(** *** Floats *)

(** [float(n)] for an [int]: the nearest binary64, ties to even; the
    result is [infinity] exactly when Python raises [OverflowError]. *)
Definition float_of_Z (z : Z) : float :=
  SF2Prim (binary_normalize prec emax z 0 false).

(** *** Strings *)

Definition code (c : ascii) : N := N_of_ascii c.

(** U+0030..U+0039 *)
Definition is_decimal_char (c : ascii) : bool :=
  ((48 <=? code c) && (code c <=? 57))%N.

(** [c.isdigit()]: the decimal digits and, below 256, the superscripts
    U+00B2, U+00B3 and U+00B9. *)
Definition is_digit_char (c : ascii) : bool :=
  is_decimal_char c
  || (code c =? 178)%N || (code c =? 179)%N || (code c =? 185)%N.

(** [c.isspace()] below 256. *)
Definition is_space_char (c : ascii) : bool :=
  ((9 <=? code c) && (code c <=? 13))%N
  || ((28 <=? code c) && (code c <=? 32))%N
  || (code c =? 133)%N || (code c =? 160)%N.

Fixpoint all_chars (p : ascii -> bool) (s : string) : bool :=
  match s with
  | EmptyString => true
  | String c r => p c && all_chars p r
  end.

(** [s.isdigit()] *)
Definition isdigit (s : string) : bool :=
  match s with
  | EmptyString => false
  | _ => all_chars is_digit_char s
  end.

(** ["|" in s] *)
Fixpoint contains_char (x : ascii) (s : string) : bool :=
  match s with
  | EmptyString => false
  | String c r => Ascii.eqb c x || contains_char x r
  end.

Definition newline : ascii := ascii_of_N 10.

(** [re.match(r'^\d+$', s)]: one or more decimal digits up to the end of
    the string, or up to a newline that ends the string. *)
Fixpoint digits_then_end (s : string) : bool :=
  match s with
  | EmptyString => true
  | String c r =>
      if is_decimal_char c then digits_then_end r
      else Ascii.eqb c newline && String.eqb r ""
  end.

Definition re_match_digits (s : string) : bool :=
  match s with
  | EmptyString => false
  | String c _ => is_decimal_char c && digits_then_end s
  end.

(** [s.split(sep)] for a one-character separator. *)
Fixpoint split (sep : ascii) (s : string) : list string :=
  match s with
  | EmptyString => [EmptyString]
  | String c r =>
      if Ascii.eqb c sep then EmptyString :: split sep r
      else match split sep r with
           | [] => [String c EmptyString]
           | w :: ws => String c w :: ws
           end
  end.

Fixpoint lstrip (s : string) : string :=
  match s with
  | EmptyString => EmptyString
  | String c r => if is_space_char c then lstrip r else s
  end.

Fixpoint rstrip (s : string) : string :=
  match s with
  | EmptyString => EmptyString
  | String c r =>
      match rstrip r with
      | EmptyString => if is_space_char c then EmptyString else String c EmptyString
      | r' => String c r'
      end
  end.

(** [s.strip()] *)
Definition strip (s : string) : string := rstrip (lstrip s).

Definition lower_char (c : ascii) : ascii :=
  if ((65 <=? code c) && (code c <=? 90))%N
     || ((192 <=? code c) && (code c <=? 222) && negb (code c =? 215))%N
  then ascii_of_N (code c + 32)
  else c.

(** [s.lower()] *)
Fixpoint lower (s : string) : string :=
  match s with
  | EmptyString => EmptyString
  | String c r => String (lower_char c) (lower r)
  end.

(** The digits of an [int()] literal after the sign: decimal digits, with
    single underscores allowed between two digits.  [after_digit] tells
    whether the previous character was a digit. *)
Fixpoint int_digits (acc : Z) (after_digit : bool) (s : string) : option Z :=
  match s with
  | EmptyString => if after_digit then Some acc else None
  | String c r =>
      if is_decimal_char c
      then int_digits (10 * acc + (Z.of_N (code c) - 48)) true r
      else if Ascii.eqb c "_" && after_digit
           then match r with
                | String c' _ =>
                    if is_decimal_char c' then int_digits acc false r else None
                | EmptyString => None
                end
           else None
  end.

(** [int(s)]: [None] stands for [ValueError]. *)
Definition py_int (s : string) : option Z :=
  match strip s with
  | String "+" r => int_digits 0 false r
  | String "-" r => option_map Z.opp (int_digits 0 false r)
  | r => int_digits 0 false r
  end.

End Py.

(* ===================================================================== *)
(** ** Effects *)
(* ===================================================================== *)

Module Eff.
Import Py.

(** *** Exceptions *)

(** The exceptions the two modules raise or meet.  The three plain
    [Exception(...)] of avito_api.py keep the data of their message. *)
Inductive pyexn : Type :=
| ClientError (detail : string)
    (** [aiohttp.ClientError] and its subclasses, among them
        [ContentTypeError], which [response.json()] raises on a body that
        is not declared as JSON *)
| RetriesExceeded (endpoint : string)
    (** [Exception(f"... {endpoint}")] of [_make_request], first line *)
| ApiError (error_data : json)
    (** [Exception(f"API error: {error_data}")] *)
| RefreshFailed
    (** [Exception("Failed to refresh token")] *)
| TimeoutError
    (** [asyncio.TimeoutError], raised when the total timeout of the
        session runs out; it is no [aiohttp.ClientError] *)
| KeyError (key : json)
| IndexError
| TypeError
| ValueError
| AttributeError
| OverflowError
| ZeroDivisionError.

Definition is_client_error (e : pyexn) : bool :=
  match e with ClientError _ => true | _ => false end.

Inductive result (A : Type) : Type :=
| Ok (a : A)
| Raise (e : pyexn).
Arguments Ok {A} a.
Arguments Raise {A} e.

(** *** What the HTTP layer hands back *)

(** Outcome of [await response.json()].  aiohttp looks at the Content-Type
    before it decodes: on a type other than JSON it raises
    [ContentTypeError], a [ClientResponseError] and so a [ClientError]; on
    a malformed body the decoder raises [JSONDecodeError]. *)
Inductive json_outcome : Type :=
| Decoded (j : json)
| ContentTypeError          (** a [ClientError] *)
| JSONDecodeError.          (** a [ValueError] *)

Record response : Type := mkResponse {
  status : Z;
  body : json_outcome
}.

(** Outcome of one [session.request(...)] / [session.post(...)] exchange,
    up to and including the reading of the body. *)
Inductive http_outcome : Type :=
| TransportFailure (detail : string)   (** an [aiohttp.ClientError] *)
| TimedOut                             (** [asyncio.TimeoutError] *)
| Response (r : response).

Inductive header_value : Type :=
| Lit (s : string)
| Bearer (token : json).               (** [f'Bearer {token}'] *)

Definition headers := dict string header_value.
Definition params := dict string json.

(** *** Messages of the bot, one constructor per f-string *)

Inductive direction : Type :=
| Increased      (** "выросла" *)
| Decreased.     (** "снизилась" *)

Inductive message : Type :=
| MsgStart
| MsgHelp
| MsgSearchHelp
| MsgNoItems
| MsgList (items : list (string * float))
| MsgChooseRemoval (items : list (string * float))
| MsgRemoved (item_id : string)
| MsgBadIndex
| MsgRemoveError
| MsgSearchFormatError
| MsgLimit (limit : nat)
| MsgAdded (price : float) (minutes : Z)
| MsgNotFound
| MsgAddError
| MsgNothingFound
| MsgSearchResults (found : list (json * float * json * json))
| MsgSearchError
| MsgUnavailable (item_id : string)
| MsgPriceChanged (item_id : string) (title : json) (dir : direction)
                  (abs_change last_price current_price : float).

Inductive log_record : Type :=
| LogRequestError (url : string) (e : pyexn)
| LogRemoveError (e : pyexn)
| LogSearchQueryError (e : pyexn)
| LogAddError (e : pyexn)
| LogSearchError (e : pyexn)
| LogCheckError (item_id : string) (e : pyexn).

(** *** Observable events, in the order they happen *)

Inductive event : Type :=
| HttpRequest (method url : string) (ps : option params) (data : option json)
              (hs : headers)
| TokenPost (url : string) (data : params)
| Sleep (seconds : Z)
| LogError (r : log_record)
| ReplyText (m : message)
| SendMessage (chat_id : Z) (m : message).

(** *** The world outside the program *)

(** The responses are chosen by the world from the history so far (its
    length [n]) and from what is sent. *)
Record World : Type := mkWorld {
  http : nat -> string -> string -> option params -> option json -> headers
         -> http_outcome;
  auth : nat -> string -> params -> http_outcome;
  now : nat -> Z;
  (** [float(s)] for a [str], [None] for [ValueError] *)
  float_of_str : string -> option float
}.

(** *** Program state *)

Record ClientSession : Type := mkSession {
  session_headers : headers;
  closed : bool
}.

(** The fields of an [AvitoAPI] instance.  [token_expires_at] keeps
    [datetime.now()] and the seconds added to it. *)
Record api_state : Type := mkApi {
  base_url : string;
  access_token : json;
  client_id : json;
  client_secret : json;
  token_expires_at : option (Z * json);
  _session : option ClientSession
}.

Definition registry := dict Z (dict string float).

Record state : Type := mkState {
  api : api_state;
  user_items : registry;
  trace : list event
}.

(** *** The monad *)

Definition M (A : Type) : Type := state -> result A * state.

Definition ret {A} (a : A) : M A := fun s => (Ok a, s).

Definition raise {A} (e : pyexn) : M A := fun s => (Raise e, s).

Definition bind {A B} (m : M A) (k : A -> M B) : M B :=
  fun s => match m s with
           | (Ok a, s') => k a s'
           | (Raise e, s') => (Raise e, s')
           end.

(** [try: body  except <class> as e: handler e]; an exception outside the
    class goes through. *)
Definition try_except {A} (catches : pyexn -> bool)
           (body : M A) (handler : pyexn -> M A) : M A :=
  fun s => match body s with
           | (Ok a, s') => (Ok a, s')
           | (Raise e, s') => if catches e then handler e s' else (Raise e, s')
           end.

Definition any_exception (e : pyexn) : bool := true.

Definition get_api : M api_state := fun s => (Ok (api s), s).
Definition put_api (a : api_state) : M unit :=
  fun s => (Ok tt, mkState a (user_items s) (trace s)).
Definition get_user_items : M registry := fun s => (Ok (user_items s), s).
Definition put_user_items (u : registry) : M unit :=
  fun s => (Ok tt, mkState (api s) u (trace s)).
Definition emit (e : event) : M unit :=
  fun s => (Ok tt, mkState (api s) (user_items s) (trace s ++ [e])%list).
(** the number of events so far, the argument of the world's answers *)
Definition history : M nat := fun s => (Ok (List.length (trace s)), s).

(** A computation without effect: only its value or its exception. *)
Definition lift {A} (r : result A) : M A := fun s => (r, s).

Definition or_raise {A} (e : pyexn) (o : option A) : result A :=
  match o with Some a => Ok a | None => Raise e end.

Fixpoint for_each {A} (l : list A) (body : A -> M unit) : M unit :=
  match l with
  | [] => ret tt
  | x :: r => bind (body x) (fun _ => for_each r body)
  end.

End Eff.

Declare Scope py_scope.
Delimit Scope py_scope with py.
Notation "x <- m ;; k" := (Eff.bind m (fun x => k))
  (at level 61, m at next level, right associativity) : py_scope.
Notation "m ;;; k" := (Eff.bind m (fun _ => k))
  (at level 61, right associativity) : py_scope.

(* ===================================================================== *)
(** ** avito_api.py *)
(* ===================================================================== *)

Module AvitoAPI.
Import Py Eff Config.
Local Open Scope string_scope.
Local Open Scope py_scope.

(** [x[key]] on a decoded JSON value *)
Definition subscript (x : json) (key : string) : result json :=
  match x with
  | JObj kv => or_raise (KeyError (JStr key)) (dict_get String.eqb key kv)
  | _ => Raise TypeError
  end.

(** [x.get(key, default)] *)
Definition json_get (x : json) (key : string) (default : json) : result json :=
  match x with
  | JObj kv => Ok (match dict_get String.eqb key kv with
                   | Some v => v
                   | None => default
                   end)
  | _ => Raise AttributeError
  end.

(** [await response.json()] *)
Definition response_json (r : response) : result json :=
  match body r with
  | Decoded j => Ok j
  | ContentTypeError => Raise (ClientError "ContentTypeError")
  | JSONDecodeError => Raise ValueError
  end.

(** [await asyncio.sleep(seconds)] *)
Definition sleep (seconds : Z) : M unit := emit (Sleep seconds).

(** [logger.error(...)]; the [logger.debug] of [_make_request] is below
    the configured level and leaves no record. *)
Definition log_error (r : log_record) : M unit := emit (LogError r).

(** [timedelta(seconds=x)]: the argument when it is accepted.  The range
    is that of [timedelta.min] .. [timedelta.max]. *)
Definition timedelta_seconds (x : json) : result json :=
  match x with
  | JBool _ => Ok x
  | JInt z =>
      if ((-999999999 * 86400 <=? z) && (z <? 1000000000 * 86400))%Z
      then Ok x else Raise OverflowError
  | JFloat f =>
      if is_nan f then Raise ValueError
      else if ((float_of_Z (-999999999 * 86400) <=? f)
               && (f <? float_of_Z (1000000000 * 86400)))%float
           then Ok x else Raise OverflowError
  | _ => Raise TypeError
  end.

(** [AvitoAPI.__init__], from the three environment variables
    ([os.getenv] gives a [str] or [None]) *)
Definition init (env_access_token env_client_id env_client_secret : json)
  : api_state :=
  mkApi AVITO_API_BASE_URL env_access_token env_client_id env_client_secret
        None None.

(** The headers of a new session: the token is read here, once. *)
Definition _get_headers : M headers :=
  a <- get_api ;;
  let hs := [("Content-Type"%string, Lit "application/json");
             ("Accept"%string, Lit "application/json")] in
  ret (if truthy (access_token a)
       then dict_set String.eqb "Authorization" (Bearer (access_token a)) hs
       else hs).

(** [self._session = aiohttp.ClientSession(headers=self._get_headers(),
    timeout=...)] *)
Definition new_session : M ClientSession :=
  hs <- _get_headers ;;
  a <- get_api ;;
  let s := mkSession hs false in
  put_api (mkApi (base_url a) (access_token a) (client_id a)
                 (client_secret a) (token_expires_at a) (Some s)) ;;;
  ret s.

Definition get_session : M ClientSession :=
  a <- get_api ;;
  match _session a with
  | None => new_session
  | Some s => if closed s then new_session else ret s
  end.

Section WithWorld.
Variable w : World.

(** [session.request(method, url, params=params, json=data)] with the
    default headers of the session, up to the reading of the body *)
Definition request (session : ClientSession) (method url : string)
           (ps : option params) (data : option json) : M response :=
  n <- history ;;
  emit (HttpRequest method url ps data (session_headers session)) ;;;
  match http w n method url ps data (session_headers session) with
  | TransportFailure d => raise (ClientError d)
  | TimedOut => raise TimeoutError
  | Response r => ret r
  end.

(** [refresh_token]: the exchange runs on a session of its own; the
    session of [get_session] is not touched. *)
Definition refresh_token : M unit :=
  a <- get_api ;;
  let data := [("client_id"%string, client_id a);
               ("client_secret"%string, client_secret a);
               ("grant_type"%string, JStr "client_credentials")] in
  n <- history ;;
  emit (TokenPost AVITO_AUTH_URL data) ;;;
  match auth w n AVITO_AUTH_URL data with
  | TransportFailure d => raise (ClientError d)
  | TimedOut => raise TimeoutError
  | Response r =>
      if (status r =? 200)%Z then
        token_data <- lift (response_json r) ;;
        token <- lift (subscript token_data "access_token") ;;
        put_api (mkApi (base_url a) token (client_id a) (client_secret a)
                       (token_expires_at a) (_session a)) ;;;
        expires_in <- lift (json_get token_data "expires_in" (JInt 3600)) ;;
        delta <- lift (timedelta_seconds expires_in) ;;
        put_api (mkApi (base_url a) token (client_id a) (client_secret a)
                       (Some (now w n, delta)) (_session a))
      else raise RefreshFailed
  end.

(** [_make_request].  The recursion is on [retry_count], which grows up to
    [MAX_RETRIES]: the measure is what is left of it.  The [try] statement
    encloses the two recursive calls of its body, as in the source. *)
Equations? _make_request (method endpoint : string) (ps : option params)
           (data : option json) (retry_count : nat) : M json
  by wf (MAX_RETRIES - retry_count) lt :=
_make_request method endpoint ps data retry_count
  with le_lt_dec MAX_RETRIES retry_count := {
  | left _ => raise (RetriesExceeded endpoint)
  | right _ =>
      session <- get_session ;;
      a <- get_api ;;
      let url := (base_url a ++ endpoint)%string in
      try_except is_client_error
        (response <- request session method url ps data ;;
         if (status response =? 401)%Z then
           refresh_token ;;;
           _make_request method endpoint ps data (retry_count + 1)
         else if (500 <=? status response)%Z then
           sleep RETRY_DELAY ;;;
           _make_request method endpoint ps data (retry_count + 1)
         else if (400 <=? status response)%Z then
           error_data <- lift (response_json response) ;;
           raise (ApiError error_data)
         else
           lift (response_json response))
        (fun e =>
           log_error (LogRequestError url e) ;;;
           sleep RETRY_DELAY ;;;
           _make_request method endpoint ps data (retry_count + 1)) }.
Proof.
  all: change (MAX_RETRIES - (retry_count + 1) < MAX_RETRIES - retry_count);
    lia.
Qed.


(** The defaults of the signature of [search_items]. *)
Definition default_sort_by : string := "date".
Definition default_page : Z := 1.
Definition default_per_page : Z := 50.

(** [if x: params[key] = x] *)
Definition set_if (cond : bool) (key : string) (v : json) (ps : params)
  : params :=
  if cond then dict_set String.eqb key v ps else ps.

(** Truth value of an [Optional] argument, and its value in the dict. *)
Definition is_some_true {A} (p : A -> bool) (o : option A) : bool :=
  match o with Some a => p a | None => false end.

Definition of_option {A} (f : A -> json) (o : option A) : json :=
  match o with Some a => f a | None => JNull end.

(** The [params] dict that [search_items] builds.  [None] is [JNull]
    for the two ids, which the bot fills with decoded JSON. *)
Definition search_params (category_id location_id : json)
           (search_query : option string) (price_from price_to : option Z)
           (sort_by : string) (page per_page : Z) : params :=
  let ps := [("page", JInt page); ("per_page", JInt per_page);
             ("sort_by", JStr sort_by)] in
  let ps := set_if (truthy category_id) "category_id" category_id ps in
  let ps := set_if (truthy location_id) "location_id" location_id ps in
  let ps := set_if (is_some_true (fun q => negb (String.eqb q "")) search_query)
                   "query" (of_option JStr search_query) ps in
  let ps := set_if (is_some_true (fun z => negb (z =? 0)%Z) price_from)
                   "price_from" (of_option JInt price_from) ps in
  let ps := set_if (is_some_true (fun z => negb (z =? 0)%Z) price_to)
                   "price_to" (of_option JInt price_to) ps in
  ps.

Definition search_items (category_id location_id : json)
           (search_query : option string) (price_from price_to : option Z)
           (sort_by : string) (page per_page : Z) : M json :=
  _make_request "GET" "/items"
    (Some (search_params category_id location_id search_query
                         price_from price_to sort_by page per_page))
    None 0.

Definition get_item_details (item_id : string) : M json :=
  _make_request "GET" ("/items/" ++ item_id) None None 0.

Definition get_categories : M json :=
  _make_request "GET" "/categories" None None 0.

Definition get_locations (query : string) : M json :=
  _make_request "GET" "/locations" (Some [("query", JStr query)]) None 0.

Definition get_item_stats (item_id : string) : M json :=
  _make_request "GET" ("/items/" ++ item_id ++ "/stats") None None 0.

End WithWorld.

Definition close : M unit :=
  a <- get_api ;;
  match _session a with
  | Some s =>
      if negb (closed s)
      then put_api (mkApi (base_url a) (access_token a) (client_id a)
                          (client_secret a) (token_expires_at a)
                          (Some (mkSession (session_headers s) true)))
      else ret tt
  | None => ret tt
  end.

End AvitoAPI.

(* ===================================================================== *)
(** ** bot.py *)
(* ===================================================================== *)

Module Bot.
Import Py Eff Config AvitoAPI.
Local Open Scope string_scope.
Local Open Scope py_scope.

(** [await update.message.reply_text(...)] *)
Definition reply_text (m : message) : M unit := emit (ReplyText m).

(** [await context.bot.send_message(chat_id=..., text=...)] *)
Definition send_message (chat_id : Z) (m : message) : M unit :=
  emit (SendMessage chat_id m).

(** [user_items[user_id]] *)
Definition items_of (user_id : Z) : M (dict string float) :=
  u <- get_user_items ;;
  lift (or_raise (KeyError (JInt user_id)) (dict_get Z.eqb user_id u)).

(** [del d[item_id]] on the dict object [d] that [user_items] holds for
    [user_id] *)
Definition del_item (user_id : Z) (item_id : string) : M unit :=
  d <- items_of user_id ;;
  d' <- lift (or_raise (KeyError (JStr item_id)) (dict_del String.eqb item_id d)) ;;
  u <- get_user_items ;;
  put_user_items (dict_set Z.eqb user_id d' u).

(** [d[item_id] = price] on the same object *)
Definition set_item (user_id : Z) (item_id : string) (price : float) : M unit :=
  d <- items_of user_id ;;
  u <- get_user_items ;;
  put_user_items (dict_set Z.eqb user_id (dict_set String.eqb item_id price d) u).

(** [user_id not in user_items or not user_items[user_id]] *)
Definition has_no_items (user_id : Z) (u : registry) : bool :=
  match dict_get Z.eqb user_id u with
  | None => true
  | Some [] => true
  | Some (_ :: _) => false
  end.

(** The handlers of the commands /start, /help, /search, /list, /remove *)
Definition start : M unit := reply_text MsgStart.
Definition help_command : M unit := reply_text MsgHelp.
Definition search_command : M unit := reply_text MsgSearchHelp.

Definition list_items (user_id : Z) : M unit :=
  u <- get_user_items ;;
  if has_no_items user_id u then reply_text MsgNoItems
  else
    items <- items_of user_id ;;
    reply_text (MsgList items).

Definition remove_item (user_id : Z) : M unit :=
  u <- get_user_items ;;
  if has_no_items user_id u then reply_text MsgNoItems
  else
    items <- items_of user_id ;;
    reply_text (MsgChooseRemoval items).

(** Iteration over a decoded JSON value: the elements of a list, the keys
    of a dict, the characters of a string. *)
Fixpoint chars (s : string) : list json :=
  match s with
  | EmptyString => []
  | String c r => JStr (String c EmptyString) :: chars r
  end.

Definition iter (x : json) : result (list json) :=
  match x with
  | JArr l => Ok l
  | JObj kv => Ok (map (fun p => JStr (fst p)) kv)
  | JStr s => Ok (chars s)
  | _ => Raise TypeError
  end.

(** [x[:5]] *)
Definition slice5 (x : json) : result (list json) :=
  match x with
  | JArr l => Ok (firstn 5 l)
  | JStr s => Ok (firstn 5 (chars s))
  | _ => Raise TypeError
  end.

(** [x.lower()] *)
Definition lower_of (x : json) : result string :=
  match x with
  | JStr s => Ok (lower s)
  | _ => Raise AttributeError
  end.

(** [next((e['id'] for e in entries if e['name'].lower() == name.lower()),
    None)] over the elements already obtained from the iterable *)
Fixpoint first_id (entries : list json) (name : string) : result json :=
  match entries with
  | [] => Ok JNull
  | e :: r =>
      match subscript e "name" with
      | Raise x => Raise x
      | Ok n =>
          match lower_of n with
          | Raise x => Raise x
          | Ok l => if String.eqb l (lower name) then subscript e "id"
                    else first_id r name
          end
      end
  end.

Section WithWorld.
Variable w : World.

(** [float(x)] *)
Definition py_float (x : json) : result float :=
  match x with
  | JBool b => Ok (if b then 1%float else 0%float)
  | JInt z =>
      let f := float_of_Z z in
      if is_infinity f then Raise OverflowError else Ok f
  | JFloat f => Ok f
  | JStr s => or_raise ValueError (float_of_str w s)
  | _ => Raise TypeError
  end.

(** [float(item.get('price', 0))] *)
Definition price_of (item : json) : result float :=
  match json_get item "price" (JInt 0) with
  | Ok p => py_float p
  | Raise e => Raise e
  end.

(** [a / b] on floats *)
Definition float_div (a b : float) : result float :=
  if (b =? 0)%float then Raise ZeroDivisionError else Ok (a / b)%float.

(** The body of the [for item in results['items'][:5]] loop: one entry
    of the result message. *)
Definition search_entry (item : json) : M (json * float * json * json) :=
  price <- lift (price_of item) ;;
  title <- lift (subscript item "title") ;;
  location <- lift (json_get item "location" (JStr "Не указано")) ;;
  id <- lift (subscript item "id") ;;
  ret (title, price, location, id).

Fixpoint search_entries (items : list json)
  : M (list (json * float * json * json)) :=
  match items with
  | [] => ret []
  | item :: r =>
      e <- search_entry item ;;
      es <- search_entries r ;;
      ret (e :: es)
  end.

(** [AvitoBot.search_items] *)
Definition search_items (query : string) (category location : option string)
           (price_from price_to : option Z) : M unit :=
  try_except any_exception
    (category_id <-
       (match category with
        | Some c =>
            if negb (String.eqb c "") then
              categories <- get_categories w ;;
              entries <- lift (iter categories) ;;
              lift (first_id entries c)
            else ret JNull
        | None => ret JNull
        end) ;;
     location_id <-
       (match location with
        | Some l =>
            if negb (String.eqb l "") then
              locations <- get_locations w l ;;
              entries <- lift (iter locations) ;;
              lift (first_id entries l)
            else ret JNull
        | None => ret JNull
        end) ;;
     results <- AvitoAPI.search_items w category_id location_id (Some query)
                  price_from price_to
                  default_sort_by default_page default_per_page ;;
     found <- lift (json_get results "items" JNull) ;;
     if negb (truthy found) then reply_text MsgNothingFound
     else
       first <- lift (slice5 found) ;;
       entries <- search_entries first ;;
       reply_text (MsgSearchResults entries))
    (fun e =>
       log_error (LogSearchError e) ;;;
       reply_text MsgSearchError).

(** [int(params[i]) if len(params) > i else None] *)
Definition int_param (ps : list string) (i : nat) : M (option Z) :=
  match nth_error ps i with
  | Some p => z <- lift (or_raise ValueError (py_int p)) ;; ret (Some z)
  | None => ret None
  end.

(** The branch of [handle_message] under [if text.isdigit():], inside
    [if user_id in user_items and user_items[user_id]:]. *)
Definition remove_by_number (user_id : Z) (text : string) : M unit :=
  try_except any_exception
    (n <- lift (or_raise ValueError (py_int text)) ;;
     let index := (n - 1)%Z in
     items <- items_of user_id ;;
     if ((0 <=? index) && (index <? Z.of_nat (List.length items)))%Z then
       entry <- lift (or_raise IndexError (nth_error items (Z.to_nat index))) ;;
       let item_id := fst entry in
       del_item user_id item_id ;;;
       reply_text (MsgRemoved item_id)
     else reply_text MsgBadIndex)
    (fun e =>
       log_error (LogRemoveError e) ;;;
       reply_text MsgRemoveError).

(** The branch under [if "|" in text:]. *)
Definition search_by_text (text : string) : M unit :=
  let ps := map strip (split "|" text) in
  try_except any_exception
    (search_query <- lift (or_raise IndexError (nth_error ps 0)) ;;
     let category := nth_error ps 1 in
     let location := nth_error ps 2 in
     price_from <- int_param ps 3 ;;
     price_to <- int_param ps 4 ;;
     search_items search_query category location price_from price_to)
    (fun e =>
       log_error (LogSearchQueryError e) ;;;
       reply_text MsgSearchFormatError).

(** The [try] statement of the branch that adds an item. *)
Definition fetch_and_add (user_id : Z) (text : string) : M unit :=
  try_except any_exception
    (item_details <- get_item_details w text ;;
     if truthy item_details then
       price <- lift (price_of item_details) ;;
       set_item user_id text price ;;;
       reply_text (MsgAdded price (CHECK_INTERVAL / 60))
     else reply_text MsgNotFound)
    (fun e =>
       log_error (LogAddError e) ;;;
       reply_text MsgAddError).

(** The branch under [if re.match(r'^\d+$', text):]. *)
Definition add_item (user_id : Z) (text : string) : M unit :=
  u <- get_user_items ;;
  (if negb (dict_mem Z.eqb user_id u)
   then put_user_items (dict_set Z.eqb user_id [] u)
   else ret tt) ;;;
  items <- items_of user_id ;;
  if (MAX_ITEMS_PER_USER <=? List.length items)%nat then
    reply_text (MsgLimit MAX_ITEMS_PER_USER)
  else fetch_and_add user_id text.

(** [handle_message]: the first two branches end in [return]. *)
Definition handle_message (user_id : Z) (text : string) : M unit :=
  if isdigit text then
    u <- get_user_items ;;
    if negb (has_no_items user_id u) then remove_by_number user_id text
    else ret tt
  else if contains_char "|" text then search_by_text text
  else if re_match_digits text then add_item user_id text
  else ret tt.

(** Lines 234-248 of [check_prices]: what is done with the price once it
    is read. *)
Definition compare_price (user_id : Z) (item_id : string) (last_price : float)
           (item_details : json) (current_price : float) : M unit :=
  if negb (current_price =? last_price)%float then
    q <- lift (float_div (current_price - last_price)%float last_price) ;;
    let price_change := (q * float_of_Z 100)%float in
    if (float_of_Z PRICE_CHANGE_THRESHOLD <=? abs price_change)%float then
      let dir := if (last_price <? current_price)%float
                 then Increased else Decreased in
      title <- lift (json_get item_details "title" (JStr "Не указано")) ;;
      send_message user_id
        (MsgPriceChanged item_id title dir (abs price_change)
                         last_price current_price) ;;;
      set_item user_id item_id current_price
    else ret tt
  else ret tt.

(** The [try] block of the inner loop, after the fetch. *)
Definition check_details (user_id : Z) (item_id : string) (last_price : float)
           (item_details : json) : M unit :=
  if negb (truthy item_details) then
    del_item user_id item_id ;;;
    send_message user_id (MsgUnavailable item_id)
  else
    current_price <- lift (price_of item_details) ;;
    compare_price user_id item_id last_price item_details current_price.

(** The [except Exception as e:] of the inner loop. *)
Definition check_failed (item_id : string) (e : pyexn) : M unit :=
  log_error (LogCheckError item_id e).

(** The body of the inner loop of [check_prices], for one entry
    [(item_id, last_price)] of the copy of the dict of [user_id]. *)
Definition check_item (user_id : Z) (item_id : string) (last_price : float)
  : M unit :=
  try_except any_exception
    (item_details <- get_item_details w item_id ;;
     check_details user_id item_id last_price item_details)
    (check_failed item_id).

(** [for user_id, items in user_items.items():
       for item_id, last_price in items.copy().items(): ...]
    The copy is taken when the outer loop reaches the user, whose key comes
    from the dict itself: the lookup finds it. *)
Definition check_user (user_id : Z) : M unit :=
  items <- items_of user_id ;;
  for_each items (fun e => check_item user_id (fst e) (snd e)).

Definition check_prices : M unit :=
  u <- get_user_items ;;
  for_each (dict_keys u) check_user.

(** *** The application: what the dispatcher and the job queue run *)

Inductive update : Type :=
| CmdStart
| CmdHelp
| CmdSearch
| CmdList (user_id : Z)
| CmdRemove (user_id : Z)
| Text (user_id : Z) (text : string)
| Job.                                (** one run of [check_prices] *)

Definition dispatch (u : update) : M unit :=
  match u with
  | CmdStart => start
  | CmdHelp => help_command
  | CmdSearch => search_command
  | CmdList user_id => list_items user_id
  | CmdRemove user_id => remove_item user_id
  | Text user_id text => handle_message user_id text
  | Job => check_prices
  end.

(** An exception that leaves a handler is logged by the framework; the
    state it reached stays. *)
Fixpoint run (us : list update) (s : state) : state :=
  match us with
  | [] => s
  | u :: r => run r (snd (dispatch u s))
  end.

End WithWorld.

(** The state when [main] starts: an [AvitoAPI] built from the
    environment, and the empty module-level [user_items]. *)
Definition initial (env_access_token env_client_id env_client_secret : json)
  : state :=
  mkState (init env_access_token env_client_id env_client_secret) [] [].

End Bot.

(* ===================================================================== *)
(** ** Vocabulary of the properties *)
(* ===================================================================== *)

Import Py Eff Config AvitoAPI Bot.
Local Open Scope string_scope.
Local Open Scope py_scope.

(** The event is a request sent through the session: one attempt. *)
Definition is_attempt (e : event) : bool :=
  match e with HttpRequest _ _ _ _ _ => true | _ => false end.

(** [attempt_count]: the attempts among the events. *)
Definition attempts (evs : list event) : nat :=
  List.length (filter is_attempt evs).

(** What one call of [_make_request] may add to the trace: requests with
    its own method, url, parameters and body, token exchanges, sleeps of
    [RETRY_DELAY] and the log of a failed request. *)
Definition request_event (method url : string) (ps : option params)
           (data : option json) (e : event) : Prop :=
  match e with
  | HttpRequest m u p d _ => m = method /\ u = url /\ p = ps /\ d = data
  | TokenPost u _ => u = AVITO_AUTH_URL
  | Sleep z => z = RETRY_DELAY
  | LogError (LogRequestError u _) => u = url
  | _ => False
  end.

(** Case analysis on the innermost scrutinee of a run recorded in [H]. *)
Ltac destruct_run H :=
  match type of H with
  | context [match ?x with _ => _ end] =>
      lazymatch x with
      | context [match _ with _ => _ end] => fail
      | _ => destruct x eqn:?
      end
  end.

(** Unfolds the monad in the run recorded in [H]. *)
Ltac unfold_run H :=
  cbv beta iota zeta delta
      [bind ret raise lift emit sleep log_error history get_api put_api
       get_user_items put_user_items try_except request] in H;
  cbn [api user_items trace fst snd] in H.

(** The three conditions that send [_make_request] to its next attempt. *)
Definition retryable (o : http_outcome) : bool :=
  match o with
  | TransportFailure _ => true
  | TimedOut => false
  | Response r => (status r =? 401)%Z || (500 <=? status r)%Z
  end.

(** A refresh that succeeded, or failed with an [aiohttp.ClientError]. *)
Definition recoverable (r : result unit) : bool :=
  match r with
  | Ok _ => true
  | Raise e => is_client_error e
  end.

(** [Registry]: the price stored for [(user_id, item_id)]. *)
Definition stored_price (user_id : Z) (item_id : string) (s : state)
  : option float :=
  match dict_get Z.eqb user_id (user_items s) with
  | Some d => dict_get String.eqb item_id d
  | None => None
  end.

(** The message of [/list] or [/remove] shows [item_id]. *)
Definition lists (item_id : string) (m : message) : bool :=
  match m with
  | MsgList items | MsgChooseRemoval items => dict_mem String.eqb item_id items
  | _ => false
  end.

(** The state with one more event. *)
Definition add_event (e : event) (s : state) : state :=
  mkState (api s) (user_items s) (trace s ++ [e])%list.

(** [len(user_items[user_id])], 0 for a user without entry. *)
Definition count_of (user_id : Z) (u : registry) : nat :=
  match dict_get Z.eqb user_id u with
  | Some d => List.length d
  | None => 0
  end.

(** The state after [if user_id not in user_items: user_items[user_id] = {}]. *)
Definition with_user (user_id : Z) (s : state) : state :=
  if dict_mem Z.eqb user_id (user_items s) then s
  else mkState (api s) (dict_set Z.eqb user_id [] (user_items s)) (trace s).

(** The texts that [handle_message] takes to its last branch, the one that
    adds an item. *)
Definition reaches_add (text : string) : bool :=
  negb (isdigit text) && negb (contains_char "|" text) && re_match_digits text.

(** The event is no request, or a request with these query parameters. *)
Definition sends (ps : params) (e : event) : Prop :=
  match e with
  | HttpRequest _ _ p _ _ => p = Some ps
  | _ => True
  end.

(** No dict of the registry holds a key twice. *)
Definition well_formed (u : registry) : Prop :=
  Forall (fun e => NoDup (dict_keys (snd e))) u.

(** Well-formed, and each user holds at most [c user] items. *)
Definition within (c : Z -> nat) (u : registry) : Prop :=
  well_formed u /\ forall user, count_of user u <= c user.

(** The computation keeps a property of the registry, however it ends. *)
Definition keeps {A : Type} (P : registry -> Prop) (m : M A) : Prop :=
  forall s, P (user_items s) -> P (user_items (snd (m s))).

(** The update is a text of [user] that reaches the branch adding an item. *)
Definition adds_for (user : Z) (upd : update) : bool :=
  match upd with
  | Text user_id text => Z.eqb user_id user && reaches_add text
  | _ => false
  end.

(** The event is no request, or a request with these headers. *)
Definition carries (hs : headers) (e : event) : Prop :=
  match e with
  | HttpRequest _ _ _ _ h => h = hs
  | _ => True
  end.

(** *** Scenarios: concrete worlds and states *)

Definition json_response (code : Z) (j : json) : http_outcome :=
  Response (mkResponse code (Decoded j)).

(** Every request meets the same outcome; the token endpoint is out of
    reach. *)
Definition constant_world (o : http_outcome) : World :=
  mkWorld (fun _ _ _ _ _ _ => o)
          (fun _ _ _ => TransportFailure "unreachable")
          (fun _ => 0%Z)
          (fun _ => None).

(** The request carries [Authorization: Bearer token]. *)
Definition has_bearer (token : string) (hs : headers) : bool :=
  match dict_get String.eqb "Authorization" hs with
  | Some (Bearer (JStr t)) => String.eqb t token
  | _ => false
  end.

(** A server that accepts the token "fresh" and answers 401 to anything
    else, with a token endpoint that issues "fresh". *)
Definition token_world : World :=
  mkWorld (fun _ _ _ _ _ hs =>
             if has_bearer "fresh" hs
             then json_response 200 (JObj [("price", JInt 100)])
             else json_response 401 (JObj []))
          (fun _ _ _ =>
             json_response 200 (JObj [("access_token", JStr "fresh");
                                      ("expires_in", JInt 3600)]))
          (fun _ => 0%Z)
          (fun _ => None).

(** The listing does not exist and the server says so with a page that is
    not JSON. *)
Definition not_found_world : World :=
  constant_world (Response (mkResponse 404 ContentTypeError)).

(** A listing at the given price. *)
Definition priced_world (price : Z) : World :=
  constant_world (json_response 200 (JObj [("title", JStr "lamp");
                                           ("price", JInt price)])).

(** A listing without price. *)
Definition unpriced_world : World :=
  constant_world (json_response 200 (JObj [("title", JStr "lamp")])).

(** The listing is gone: an empty object. *)
Definition empty_world : World :=
  constant_world (json_response 200 (JObj [])).

(** Every request meets a 503. *)
Definition failing_world : World :=
  constant_world (json_response 503 (JObj [])).

(** The application at its start, with a token from the environment. *)
Definition started : state := initial (JStr "stale") (JStr "id") (JStr "secret").

(** User 7 tracks item "42" at the given price. *)
Definition tracking (price : float) : state :=
  mkState (api started) [(7%Z, [("42", price)])] [].

(** The headers of a session created without token, with the token of
    the environment, with the token of [token_world]. *)
Definition plain_headers : headers :=
  [("Content-Type", Lit "application/json");
   ("Accept", Lit "application/json")].

Definition stale_headers : headers :=
  (plain_headers ++ [("Authorization", Bearer (JStr "stale"))])%list.

(** ["12\n"]: digits and the newline that [$] lets through. *)
Definition digits_newline : string := "12" ++ String newline "".


(** The request of [get_item_details] and the exchange of
    [refresh_token], as they appear in the trace. *)
Definition item_url (item_id : string) : string :=
  "https://api.avito.ru/items/" ++ item_id.

Definition item_request (item_id : string) (hs : headers) : event :=
  HttpRequest "GET" (item_url item_id) None None hs.

Definition token_post : event :=
  TokenPost "https://api.avito.ru/token"
            [("client_id", JStr "id"); ("client_secret", JStr "secret");
             ("grant_type", JStr "client_credentials")].

Definition fresh_headers : headers :=
  (plain_headers ++ [("Authorization", Bearer (JStr "fresh"))])%list.

(** The state in which the detail of [item_id] comes back. *)
Definition fetched (w : World) (item_id : string) (s : state) : state :=
  snd (get_item_details w item_id s).

(** The first request meets a listing without price, the later ones the
    same listing at 100. *)
Definition repriced_world : World :=
  mkWorld (fun n _ _ _ _ _ =>
             if (n =? 0)%nat
             then json_response 200 (JObj [("title", JStr "lamp")])
             else json_response 200 (JObj [("title", JStr "lamp");
                                           ("price", JInt 100)]))
          (fun _ _ _ => TransportFailure "unreachable")
          (fun _ => 0%Z)
          (fun _ => None).

(** *** Vocabulary of the further properties *)

(** The JSON body that [refresh_token] posts. *)
Definition credentials (a : api_state) : params :=
  [("client_id", client_id a); ("client_secret", client_secret a);
   ("grant_type", JStr "client_credentials")].

(** The instance with [access_token] and [token_expires_at] replaced. *)
Definition with_token (token : json) (expires_at : option (Z * json))
           (a : api_state) : api_state :=
  mkApi (base_url a) token (client_id a) (client_secret a) expires_at
        (_session a).

(** [int], [float] and [bool] values: what [timedelta(seconds=...)] takes. *)
Definition is_number (j : json) : bool :=
  match j with
  | JBool _ | JInt _ | JFloat _ => true
  | _ => false
  end.

(** The event is an exchange with the token endpoint. *)
Definition is_token_post (e : event) : bool :=
  match e with TokenPost _ _ => true | _ => false end.

(** The computation, run from [s], leaves the registry alone and sends
    between one and [MAX_RETRIES] requests, all of them [method] requests
    to [base_url + endpoint] with the parameters [ps] and the body [data];
    what else it adds to the trace belongs to the retry machinery. *)
Definition polls (method endpoint : string) (ps : option params)
           (data : option json) (m : M json) (s : state) : Prop :=
  user_items (snd (m s)) = user_items s /\
  exists evs,
    trace (snd (m s)) = (trace s ++ evs)%list /\
    Forall (request_event method (base_url (api s) ++ endpoint) ps data) evs /\
    1 <= attempts evs <= MAX_RETRIES.

(** The headers [_get_headers] builds for a token. *)
Definition token_headers (token : json) : headers :=
  if truthy token
  then (plain_headers ++ [("Authorization", Bearer token)])%list
  else plain_headers.

(** Replies to the chat of the update, and messages sent to a chat. *)
Definition is_reply (e : event) : bool :=
  match e with ReplyText _ => true | _ => false end.

Definition is_notice (e : event) : bool :=
  match e with SendMessage _ _ => true | _ => false end.

Definition count (p : event -> bool) (evs : list event) : nat :=
  List.length (filter p evs).

(** The computation adds to the trace no event that [p] selects. *)
Definition quiet {A : Type} (p : event -> bool) (m : M A) : Prop :=
  forall s,
  exists evs,
    trace (snd (m s)) = (trace s ++ evs)%list /\
    Forall (fun e => p e = false) evs.

(** The computation replies once if it returns and not at all if it
    raises, and sends no message to a chat. *)
Definition replies_when_done {A : Type} (m : M A) : Prop :=
  forall s,
  exists evs,
    trace (snd (m s)) = (trace s ++ evs)%list /\
    Forall (fun e => is_notice e = false) evs /\
    count is_reply evs = match fst (m s) with Ok _ => 1 | Raise _ => 0 end.

(** The computation returns, having replied exactly once. *)
Definition answers (m : M unit) : Prop :=
  forall s,
    fst (m s) = Ok tt /\
    exists evs,
      trace (snd (m s)) = (trace s ++ evs)%list /\
      Forall (fun e => is_notice e = false) evs /\
      count is_reply evs = 1.

(** The texts that [handle_message] lets pass without doing anything: a
    number from a user without items, and a text that is no number, holds
    no "|" and is no item id. *)
Definition ignored (user_id : Z) (text : string) (u : registry) : bool :=
  if isdigit text then has_no_items user_id u
  else negb (contains_char "|" text) && negb (re_match_digits text).

Definition expected_replies (upd : update) (u : registry) : nat :=
  match upd with
  | Job => 0
  | Text user_id text => if ignored user_id text u then 0 else 1
  | _ => 1
  end.

(** What a poll cycle over the users [users] may add to the trace: no
    reply, and messages only to the chats of these users. *)
Definition cycle_event (users : list Z) (e : event) : Prop :=
  match e with
  | ReplyText _ => False
  | SendMessage chat_id _ => In chat_id users
  | _ => True
  end.

(** The number of tracked items, over all users. *)
Definition tracked (u : registry) : nat :=
  list_sum (map (fun e => List.length (snd e)) u).

(** The registry holds each user once. *)
Definition unique_users (u : registry) : Prop := NoDup (dict_keys u).

(** ["|".join(fields)] *)
Fixpoint join_bar (fields : list string) : string :=
  match fields with
  | [] => ""
  | [f] => f
  | f :: r => f ++ String "|" (join_bar r)
  end.

(** The price read from the field at position [i]: [Some None] when the
    text has no such field, [None] when [int] refuses the field. *)
Definition price_field (fields : list string) (i : nat) : option (option Z) :=
  match nth_error fields i with
  | None => Some None
  | Some f => option_map Some (py_int (strip f))
  end.

(** The entry is an object whose ['name'] is a string other than [name],
    letter case apart. *)
Definition named_otherwise (name : string) (e : json) : Prop :=
  exists n, subscript e "name" = Ok (JStr n) /\ lower n <> lower name.

(** The seconds spent in [asyncio.sleep] over the events. *)
Fixpoint slept (evs : list event) : Z :=
  match evs with
  | [] => 0
  | Sleep seconds :: r => seconds + slept r
  | _ :: r => slept r
  end.

(** The dict of a user, empty for a user without entry. *)
Definition items_or_empty (user_id : Z) (u : registry) : dict string float :=
  match dict_get Z.eqb user_id u with
  | Some d => d
  | None => []
  end.

(** *** Further scenarios *)

(** A server that answers 401 to every request, with a token endpoint that
    refuses the credentials. *)
Definition refusing_world : World :=
  mkWorld (fun _ _ _ _ _ _ => json_response 401 (JObj []))
          (fun _ _ _ => json_response 403 (JObj []))
          (fun _ => 0%Z)
          (fun _ => None).

(** The listing number [n] of the catalog, and the entry the reply to a
    search shows for it. *)
Definition lamp (n : Z) : json :=
  JObj [("id", JInt n); ("title", JStr "lamp"); ("price", JInt 100)].

Definition shown (n : Z) : json * float * json * json :=
  (JStr "lamp", 100%float, JStr "Не указано", JInt n).

Definition catalog : list json :=
  [JObj [("id", JInt 1); ("name", JStr "Cars")];
   JObj [("id", JInt 2); ("name", JStr "Lamps")]].

(** A server with two categories and six listings. *)
Definition catalog_world : World :=
  mkWorld (fun _ _ url _ _ _ =>
             if String.eqb url "https://api.avito.ru/categories"
             then json_response 200 (JArr catalog)
             else json_response 200
                    (JObj [("items", JArr (map lamp [1; 2; 3; 4; 5; 6]%Z))]))
          (fun _ _ _ => TransportFailure "unreachable")
          (fun _ => 0%Z)
          (fun _ => None).

(** The session of the application at its start, and the state once it is
    open. *)
Definition first_session : ClientSession := mkSession stale_headers false.

Definition opened : state := snd (get_session started).

(** The search request of the query "lamp", with these further
    parameters. *)
Definition lamp_search (more : params) (hs : headers) : event :=
  HttpRequest "GET" "https://api.avito.ru/items"
    (Some ([("page", JInt 1); ("per_page", JInt 50); ("sort_by", JStr "date")]
           ++ more ++ [("query", JStr "lamp")])%list)
    None hs.

(** The state after the categories have been fetched, and after the
    search of "lamp". *)
Definition listed : state := snd (get_categories catalog_world started).

Definition searched : state :=
  snd (AvitoAPI.search_items catalog_world JNull JNull (Some "lamp") None None
                             default_sort_by default_page default_per_page
                             started).

(* ===================================================================== *)
(** ** Properties *)
(* ===================================================================== *)

(** *** Dictionaries *)

Section DictFacts.
Variables K V : Type.
Variable eqb : K -> K -> bool.
Hypothesis eqb_eq : forall a b, eqb a b = true <-> a = b.

Lemma eqb_refl_true (a : K) : eqb a a = true.
Proof. apply eqb_eq. reflexivity. Qed.

Lemma eqb_neq (a b : K) : a <> b -> eqb a b = false.
Proof.
  intros Hn. destruct (eqb a b) eqn:E; [|reflexivity].
  apply eqb_eq in E. contradiction.
Qed.

Lemma dict_get_in (k : K) (v : V) (d : dict K V) :
  dict_get eqb k d = Some v -> In (k, v) d.
Proof.
  induction d as [|[k' v'] r IH]; simpl; [discriminate|].
  destruct (eqb k k') eqn:E.
  - intros [= ->]. apply eqb_eq in E. subst. now left.
  - intros H. right. now apply IH.
Qed.

Lemma dict_mem_keys (k : K) (d : dict K V) :
  dict_mem eqb k d = true <-> In k (dict_keys d).
Proof.
  unfold dict_mem. induction d as [|[k' v'] r IH]; simpl.
  - split; [discriminate | tauto].
  - destruct (eqb k k') eqn:E.
    + apply eqb_eq in E. subst. split; auto.
    + split.
      * intros H. right. now apply IH.
      * intros [H|H]; [subst; rewrite eqb_refl_true in E; discriminate|].
        now apply IH.
Qed.

Lemma dict_set_length_le (k : K) (v : V) (d : dict K V) :
  List.length (dict_set eqb k v d) <= S (List.length d).
Proof.
  induction d as [|[k' v'] r IH]; simpl; [lia|].
  destruct (eqb k k'); simpl; lia.
Qed.

Lemma dict_set_length_mem (k : K) (v : V) (d : dict K V) :
  dict_mem eqb k d = true ->
  List.length (dict_set eqb k v d) = List.length d.
Proof.
  unfold dict_mem. induction d as [|[k' v'] r IH]; simpl; [discriminate|].
  destruct (eqb k k'); simpl; [reflexivity|].
  intros H. now rewrite IH.
Qed.

Lemma dict_set_keys_mem (k : K) (v : V) (d : dict K V) :
  dict_mem eqb k d = true -> dict_keys (dict_set eqb k v d) = dict_keys d.
Proof.
  unfold dict_mem. induction d as [|[k' v'] r IH]; simpl; [discriminate|].
  destruct (eqb k k'); simpl; [reflexivity|].
  intros H. now rewrite IH.
Qed.

Lemma dict_set_keys_new (k : K) (v : V) (d : dict K V) :
  dict_mem eqb k d = false ->
  dict_keys (dict_set eqb k v d) = (dict_keys d ++ [k])%list.
Proof.
  unfold dict_mem. induction d as [|[k' v'] r IH]; simpl; [reflexivity|].
  destruct (eqb k k'); simpl; [discriminate|].
  intros H. now rewrite IH.
Qed.

Lemma dict_get_set_same (k : K) (v : V) (d : dict K V) :
  dict_get eqb k (dict_set eqb k v d) = Some v.
Proof.
  induction d as [|[k' v'] r IH]; simpl.
  - now rewrite eqb_refl_true.
  - destruct (eqb k k') eqn:E; simpl; rewrite E; auto.
Qed.

Lemma dict_get_set_other (k k0 : K) (v : V) (d : dict K V) :
  k0 <> k -> dict_get eqb k0 (dict_set eqb k v d) = dict_get eqb k0 d.
Proof.
  intros Hn. induction d as [|[k' v'] r IH]; simpl.
  - now rewrite (eqb_neq _ _ Hn).
  - destruct (eqb k k') eqn:E; simpl.
    + apply eqb_eq in E. subst k'. now rewrite (eqb_neq _ _ Hn).
    + now rewrite IH.
Qed.

Lemma dict_set_forall (P : K * V -> Prop) (k : K) (v : V) (d : dict K V) :
  Forall P d -> (forall k', eqb k k' = true -> P (k', v)) -> P (k, v) ->
  Forall P (dict_set eqb k v d).
Proof.
  intros Hd Hk Hkv. induction Hd as [|[k' v'] r Hx Hr IH]; simpl.
  - now constructor.
  - destruct (eqb k k') eqn:E; constructor; auto.
Qed.

Lemma dict_remove_length (k : K) (d : dict K V) :
  List.length (dict_remove eqb k d) <= List.length d.
Proof. apply filter_length_le. Qed.

Lemma dict_remove_keys (k k0 : K) (d : dict K V) :
  In k0 (dict_keys (dict_remove eqb k d)) <-> In k0 (dict_keys d) /\ k0 <> k.
Proof.
  unfold dict_remove, dict_keys. rewrite !in_map_iff. split.
  - intros [[a b] [<- Hin]]. apply filter_In in Hin as [Hin Hne]. simpl in *.
    split; [exists (a, b); auto|].
    intros ->. rewrite eqb_refl_true in Hne. discriminate.
  - intros [[[a b] [<- Hin]] Hne]. exists (a, b). split; [reflexivity|].
    apply filter_In. split; [assumption|]. simpl in *.
    rewrite eqb_neq; auto.
Qed.

Lemma dict_get_remove_same (k : K) (d : dict K V) :
  dict_get eqb k (dict_remove eqb k d) = None.
Proof.
  unfold dict_remove. induction d as [|[k' v'] r IH]; simpl; [reflexivity|].
  destruct (eqb k k') eqn:E; simpl; [assumption|].
  now rewrite E.
Qed.


Lemma dict_remove_nodup (k : K) (d : dict K V) :
  NoDup (dict_keys d) -> NoDup (dict_keys (dict_remove eqb k d)).
Proof.
  unfold dict_keys, dict_remove. induction d as [|[k' v'] r IH]; simpl; [auto|].
  intros Hnd. inversion Hnd as [|? ? Hni Hr]; subst.
  destruct (eqb k k'); simpl; [|constructor]; auto.
  intros Hin. apply Hni. apply in_map_iff in Hin as [x [Hx Hin]].
  apply filter_In in Hin as [Hin _]. apply in_map_iff. eauto.
Qed.

Lemma dict_set_nodup (k : K) (v : V) (d : dict K V) :
  NoDup (dict_keys d) -> NoDup (dict_keys (dict_set eqb k v d)).
Proof.
  intros Hnd. destruct (dict_mem eqb k d) eqn:E.
  - now rewrite dict_set_keys_mem.
  - rewrite dict_set_keys_new by assumption.
    apply NoDup_app; [assumption | repeat constructor; auto |].
    intros x Hx [<-|[]]. apply dict_mem_keys in Hx. congruence.
Qed.

End DictFacts.

(** *** The request executor *)

Lemma make_request_eq (w : World) (method endpoint : string)
      (ps : option params) (data : option json) (retry_count : nat) :
  _make_request w method endpoint ps data retry_count =
  if (MAX_RETRIES <=? retry_count)%nat then raise (RetriesExceeded endpoint)
  else
    (session <- get_session ;;
     a <- get_api ;;
     let url := (base_url a ++ endpoint)%string in
     try_except is_client_error
       (response <- request w session method url ps data ;;
        if (status response =? 401)%Z then
          refresh_token w ;;;
          _make_request w method endpoint ps data (retry_count + 1)
        else if (500 <=? status response)%Z then
          sleep RETRY_DELAY ;;;
          _make_request w method endpoint ps data (retry_count + 1)
        else if (400 <=? status response)%Z then
          error_data <- lift (response_json response) ;;
          raise (ApiError error_data)
        else
          lift (response_json response))
       (fun e =>
          log_error (LogRequestError url e) ;;;
          sleep RETRY_DELAY ;;;
          _make_request w method endpoint ps data (retry_count + 1))).
Proof.
  rewrite _make_request_equation_1.
  destruct (le_lt_dec MAX_RETRIES retry_count) as [H|H];
    destruct (Nat.leb_spec MAX_RETRIES retry_count); try lia.
  - reflexivity.
  - rewrite _make_request_clause_1_equation_2. reflexivity.
Qed.

Lemma get_session_run (s : state) :
  exists session a',
    get_session s = (Ok session, mkState a' (user_items s) (trace s)) /\
    base_url a' = base_url (api s) /\
    access_token a' = access_token (api s) /\
    _session a' = Some session.
Proof.
  unfold get_session, new_session, _get_headers, bind, get_api, put_api, ret.
  destruct s as [a u t]; simpl.
  destruct a as [b tok ci cs ex [[hs [|]]|]]; simpl; eauto 10.
Qed.

Lemma refresh_token_run (w : World) (s : state) :
  exists r a' data,
    refresh_token w s
    = (r, mkState a' (user_items s)
                  (trace s ++ [TokenPost AVITO_AUTH_URL data])%list) /\
    base_url a' = base_url (api s) /\
    _session a' = _session (api s).
Proof.
  unfold refresh_token, bind, get_api, history, emit, put_api, lift, raise.
  destruct s as [a u t]; simpl.
  destruct (auth w _ _ _) as [x| |r]; simpl; [eauto 10 | eauto 10 |].
  destruct (status r =? 200)%Z; simpl; [|eauto 10].
  destruct (response_json r) as [token_data|x]; simpl; [|eauto 10].
  destruct (subscript token_data "access_token") as [token|x]; simpl; [|eauto 10].
  destruct (json_get token_data "expires_in" (JInt 3600)) as [ex|x]; simpl;
    [|eexists _, _, _; split; [reflexivity|split; reflexivity]].
  destruct (timedelta_seconds ex) as [delta|x]; simpl;
    eexists _, _, _; (split; [reflexivity|split; reflexivity]).
Qed.

Lemma attempts_app (a b : list event) :
  attempts (a ++ b) = attempts a + attempts b.
Proof. unfold attempts. now rewrite filter_app, length_app. Qed.

Section Executor.
Variable w : World.
Variables method endpoint : string.
Variable ps : option params.
Variable data : option json.

Lemma make_request_frame :
  forall k retry_count s r s',
    MAX_RETRIES - retry_count <= k ->
    _make_request w method endpoint ps data retry_count s = (r, s') ->
    user_items s' = user_items s /\
    base_url (api s') = base_url (api s) /\
    (exists evs,
        trace s' = (trace s ++ evs)%list /\
        Forall (request_event method (base_url (api s) ++ endpoint) ps data) evs /\
        attempts evs <= MAX_RETRIES - retry_count /\
        (retry_count < MAX_RETRIES ->
         exists hs rest,
           evs = HttpRequest method (base_url (api s) ++ endpoint) ps data hs
                 :: rest)) /\
    (forall x, r <> Raise (ClientError x)).
Proof.
  induction k as [|k IH]; intros rc s r s' Hk H; rewrite make_request_eq in H;
    destruct (Nat.leb_spec MAX_RETRIES rc) as [Hle|Hlt]; try lia.
  1,2: injection H as <- <-; repeat split; try discriminate;
       exists []; rewrite app_nil_r; repeat split;
       [constructor | cbn; lia | lia].
  assert (Hrec : forall s1, exists r2 s2 evs,
             _make_request w method endpoint ps data (rc + 1) s1 = (r2, s2) /\
             user_items s2 = user_items s1 /\
             base_url (api s2) = base_url (api s1) /\
             trace s2 = (trace s1 ++ evs)%list /\
             Forall (request_event method (base_url (api s1) ++ endpoint) ps data) evs /\
             attempts evs <= MAX_RETRIES - (rc + 1) /\
             (forall x, r2 <> Raise (ClientError x))).
  { intros s1.
    destruct (_make_request w method endpoint ps data (rc + 1) s1) as [r2 s2] eqn:E.
    destruct (IH (rc + 1) s1 r2 s2 ltac:(lia) E)
      as (? & ? & (evs & ? & ? & ? & _) & ?).
    exists r2, s2, evs. auto 10. }
  clear IH.
  unfold bind at 1 in H.
  destruct (get_session_run s) as (session & a' & E & Hb & _ & _).
  rewrite E in H. clear E.
  unfold_run H.
  repeat first
    [ match type of H with
      | context [refresh_token w ?s1] =>
          let E := fresh "E" in
          destruct (refresh_token_run w s1) as (? & ? & ? & E & ? & ?);
          rewrite E in H; clear E
      | context [_make_request w method endpoint ps data (rc + 1) ?s1] =>
          let E := fresh "E" in
          destruct (Hrec s1) as (? & ? & ? & E & ? & ? & ? & ? & ? & ?);
          rewrite E in H; clear E
      end
    | progress cbn [is_client_error api user_items trace fst snd] in H
    | destruct_run H ];
    cbn [api user_items trace fst snd] in *.
  all: injection H as <- <-.
  all: cbn [api user_items trace] in *.
  all: repeat match goal with
              | Hx : base_url _ = base_url _ |- _ => rewrite Hx in *; clear Hx
              end.
  all: try match goal with
           | Hc : is_client_error ?e = true,
             Hn : forall x, Raise ?e <> Raise (ClientError x) |- _ =>
               destruct e; try discriminate; exfalso; eapply Hn; reflexivity
           end.
  all: split; [congruence|]; split; [congruence|].
  all: split; [|try congruence].
  all: try (intros ? [= ->]; cbn in *; discriminate).
  all: repeat match goal with
              | Ht : trace _ = _ |- _ => rewrite Ht; clear Ht
              end.
  all: rewrite <- ?app_assoc; eexists; (split; [reflexivity|]).
  all: cbn [app]; split; [|split];
    [ repeat (constructor; [cbn; auto|]); auto
    | unfold attempts in *; cbn [filter is_attempt List.length]; lia
    | intros _; eexists _, _; reflexivity ].
Qed.

End Executor.

Section Exhaustion.
Variable w : World.
Variables method endpoint : string.
Variable ps : option params.
Variable data : option json.
Hypothesis every_outcome_retryable :
  forall n m u p d h, retryable (http w n m u p d h) = true.
Hypothesis every_refresh_recoverable :
  forall s, recoverable (fst (refresh_token w s)) = true.

Lemma retryable_chain_exhausts :
  forall k retry_count s,
    MAX_RETRIES - retry_count = k ->
    exists s' evs,
      _make_request w method endpoint ps data retry_count s
      = (Raise (RetriesExceeded endpoint), s') /\
      trace s' = (trace s ++ evs)%list /\
      attempts evs = k.
Proof.
  induction k as [|k IH]; intros rc s Hk; rewrite make_request_eq;
    destruct (Nat.leb_spec MAX_RETRIES rc) as [Hle|Hlt]; try lia.
  - exists s, []. rewrite app_nil_r. auto.
  - assert (Hrec : forall s1, exists s2 evs,
               _make_request w method endpoint ps data (rc + 1) s1
               = (Raise (RetriesExceeded endpoint), s2) /\
               trace s2 = (trace s1 ++ evs)%list /\ attempts evs = k)
      by (intros s1; apply IH; lia).
    clear IH.
    match goal with
    | |- exists _ _, ?run = _ /\ _ => destruct run as [r s'] eqn:H
    end.
    unfold bind at 1 in H.
    destruct (get_session_run s) as (session & a' & E & Hb & _ & _).
    rewrite E in H. clear E.
    unfold_run H.
    pose proof (every_outcome_retryable (List.length (trace s)) method
                  (base_url a' ++ endpoint) ps data (session_headers session))
      as Hr.
    destruct (http w _ _ _ _ _ _) as [x| |resp]; cbn [retryable] in Hr;
      [|discriminate|].
    + cbn [is_client_error] in H.
      match type of H with
      | context [_make_request w method endpoint ps data (rc + 1) ?s1] =>
          destruct (Hrec s1) as (s2 & evs & E & Ht & Ha)
      end.
      rewrite E in H. injection H as <- <-.
      cbn [trace] in Ht. rewrite <- !app_assoc in Ht.
      eexists _, _. split; [reflexivity|]. split; [exact Ht|].
      unfold attempts in *. cbn. lia.
    + destruct (status resp =? 401)%Z eqn:E401.
      * match type of H with
        | context [refresh_token w ?s1] =>
            pose proof (every_refresh_recoverable s1) as Hrf;
            destruct (refresh_token_run w s1) as (rr & a2 & dt & E & _ & _)
        end.
        rewrite E in H, Hrf. cbn [fst recoverable] in Hrf.
        destruct rr as [[]|e].
        -- match type of H with
           | context [_make_request w method endpoint ps data (rc + 1) ?s1] =>
               destruct (Hrec s1) as (s2 & evs & E2 & Ht & Ha)
           end.
           rewrite E2 in H. cbn [is_client_error] in H. injection H as <- <-.
           cbn [trace] in Ht. rewrite <- !app_assoc in Ht.
           eexists _, _. split; [reflexivity|]. split; [exact Ht|].
           unfold attempts in *. cbn. lia.
        -- cbn [recoverable] in Hrf. rewrite Hrf in H.
           match type of H with
           | context [_make_request w method endpoint ps data (rc + 1) ?s1] =>
               destruct (Hrec s1) as (s2 & evs & E2 & Ht & Ha)
           end.
           rewrite E2 in H. injection H as <- <-.
           cbn [trace] in Ht. rewrite <- !app_assoc in Ht.
           eexists _, _. split; [reflexivity|]. split; [exact Ht|].
           unfold attempts in *. cbn. lia.
      * cbn [orb] in Hr. rewrite Hr in H.
        match type of H with
        | context [_make_request w method endpoint ps data (rc + 1) ?s1] =>
            destruct (Hrec s1) as (s2 & evs & E2 & Ht & Ha)
        end.
        rewrite E2 in H. cbn [is_client_error] in H. injection H as <- <-.
        cbn [trace] in Ht. rewrite <- !app_assoc in Ht.
        eexists _, _. split; [reflexivity|]. split; [exact Ht|].
        unfold attempts in *. cbn. lia.
Qed.

End Exhaustion.

(** C1.  One call of [_make_request] sends at most
    [MAX_RETRIES - retry_count] requests, hence at most [MAX_RETRIES = 3]
    for a chain started at 0, whatever the world answers; it always returns
    (the function is total).  At [retry_count >= MAX_RETRIES] it raises the
    exception that names the endpoint without sending anything.  When every
    answer is one of the retryable conditions (transport failure, 401 with a
    refresh that did not fail fatally, 5xx) the chain ends, after exactly
    [MAX_RETRIES - retry_count] requests, in that exception. *)
Theorem retry_chain_bounded :
  forall (w : World) (method endpoint : string) (ps : option params)
         (data : option json),
    MAX_RETRIES = 3 /\
    (forall retry_count s,
        exists evs,
          trace (snd (_make_request w method endpoint ps data retry_count s))
          = (trace s ++ evs)%list /\
          attempts evs <= MAX_RETRIES - retry_count) /\
    (forall retry_count s,
        MAX_RETRIES <= retry_count ->
        _make_request w method endpoint ps data retry_count s
        = (Raise (RetriesExceeded endpoint), s)) /\
    ((forall n m u p d h, retryable (http w n m u p d h) = true) ->
     (forall s, recoverable (fst (refresh_token w s)) = true) ->
     forall retry_count s,
     exists s' evs,
       _make_request w method endpoint ps data retry_count s
       = (Raise (RetriesExceeded endpoint), s') /\
       trace s' = (trace s ++ evs)%list /\
       attempts evs = MAX_RETRIES - retry_count).
Proof.
  intros w method endpoint ps data.
  split; [reflexivity|]. split; [|split].
  - intros rc s.
    destruct (_make_request w method endpoint ps data rc s) as [r s'] eqn:E.
    destruct (make_request_frame w method endpoint ps data _ rc s r s' (le_n _) E)
      as (_ & _ & (evs & Ht & _ & Ha & _) & _).
    exists evs. auto.
  - intros rc s Hle. rewrite make_request_eq.
    destruct (Nat.leb_spec MAX_RETRIES rc); [reflexivity | lia].
  - intros Hh Hr rc s.
    eapply retryable_chain_exhausts; eauto.
Qed.

(** *** The poll loop *)

Lemma string_eqb_eq (a b : string) : String.eqb a b = true <-> a = b.
Proof. apply String.eqb_eq. Qed.

Lemma z_eqb_eq (a b : Z) : Z.eqb a b = true <-> a = b.
Proof. apply Z.eqb_eq. Qed.

Lemma get_item_details_frame (w : World) (item_id : string) (s s1 : state)
      (r : result json) :
  get_item_details w item_id s = (r, s1) ->
  user_items s1 = user_items s /\
  exists evs, trace s1 = (trace s ++ evs)%list /\ attempts evs <= MAX_RETRIES.
Proof.
  unfold get_item_details. intros H.
  destruct (make_request_frame w _ _ _ _ _ 0 s _ _ (le_n _) H)
    as (Hu & _ & (evs & Ht & _ & Ha & _) & _).
  split; [assumption|]. exists evs. split; [assumption|].
  rewrite Nat.sub_0_r in Ha. exact Ha.
Qed.

Lemma check_item_fetched (w : World) (user_id : Z) (item_id : string)
      (last_price : float) (s s1 : state) (item_details : json) :
  get_item_details w item_id s = (Ok item_details, s1) ->
  check_item w user_id item_id last_price s
  = try_except any_exception
      (check_details w user_id item_id last_price item_details)
      (check_failed item_id) s1.
Proof.
  intros H. unfold check_item, try_except, bind. rewrite H. reflexivity.
Qed.

(** A float that is not zero differs from any zero. *)
Lemma differs_from_zero (current last : float) :
  (last =? 0)%float = true -> (current =? 0)%float = false ->
  (current =? last)%float = false.
Proof.
  rewrite !eqb_spec.
  replace (Prim2SF 0) with (S754_zero false) by reflexivity.
  destruct (Prim2SF current) as [sc| sc | |sc mc ec],
           (Prim2SF last) as [sl| sl | |sl ml el];
    unfold SFeqb, SFcompare; try destruct sc; try destruct sl;
    cbn; congruence.
Qed.

(** C9.  When the stored price is zero and the price read from the detail
    is not, [check_item] reaches the division, which raises
    [ZeroDivisionError]: the handler logs it, no message is sent and the
    registry is left as it was.  Nothing in the loop skips the item or
    treats the change as unbounded. *)
Theorem zero_last_price_divides_by_zero :
  forall (w : World) (user_id : Z) (item_id : string)
         (last_price current_price : float) (s s1 : state)
         (item_details : json),
    get_item_details w item_id s = (Ok item_details, s1) ->
    truthy item_details = true ->
    price_of w item_details = Ok current_price ->
    (last_price =? 0)%float = true ->
    (current_price =? 0)%float = false ->
    float_div (current_price - last_price) last_price = Raise ZeroDivisionError
    /\ check_item w user_id item_id last_price s
       = (Ok tt, add_event (LogError (LogCheckError item_id ZeroDivisionError)) s1).
Proof.
  intros w user_id item_id last cur s s1 details Hfetch Htruthy Hprice Hl Hc.
  split.
  - unfold float_div. now rewrite Hl.
  - rewrite (check_item_fetched w user_id item_id last s s1 details Hfetch).
    unfold try_except, check_details, compare_price, bind, lift.
    rewrite Htruthy, Hprice. cbn [negb].
    rewrite (differs_from_zero cur last Hl Hc). cbn [negb].
    unfold float_div. rewrite Hl. reflexivity.
Qed.

Lemma priced_details_truthy (w : World) (item_details : json) (price : float) :
  price_of w item_details = Ok price -> (price =? 0)%float = false ->
  truthy item_details = true.
Proof.
  unfold price_of, json_get.
  destruct item_details as [| | | | |l|kv]; try discriminate.
  destruct kv as [|e kv]; [|reflexivity].
  cbn. intros [= <-]. discriminate.
Qed.

Lemma stored_price_frame (user_id : Z) (item_id : string) (s s1 : state) :
  user_items s1 = user_items s ->
  stored_price user_id item_id s1 = stored_price user_id item_id s.
Proof. unfold stored_price. now intros ->. Qed.

(** The arithmetic of the two examples, in binary64. *)
Lemma change_100_106 :
  negb (106 =? 100)%float = true /\
  (exists q, float_div (106 - 100) 100 = Ok q /\
             abs (q * float_of_Z 100) = 6%float) /\
  (float_of_Z PRICE_CHANGE_THRESHOLD <=? 6)%float = true /\
  (100 <? 106)%float = true.
Proof.
  split; [reflexivity|]. split; [|split; reflexivity].
  eexists. split; [vm_compute; reflexivity | vm_compute; reflexivity].
Qed.

Lemma change_100_103 :
  negb (103 =? 100)%float = true /\
  (exists q, float_div (103 - 100) 100 = Ok q /\
             abs (q * float_of_Z 100) = 3%float) /\
  (float_of_Z PRICE_CHANGE_THRESHOLD <=? 3)%float = false.
Proof.
  split; [reflexivity|]. split; [|reflexivity].
  eexists. split; [vm_compute; reflexivity | vm_compute; reflexivity].
Qed.

(** C3.  With the threshold at 5 and 100 stored for the item: a detail
    whose price reads 106 makes [check_item] send the price-change message
    (direction "increased", change 6.0, from 100 to 106) and store 106; a
    detail whose price reads 103 makes it send nothing and leaves 100 in
    the registry.  In general a change whose absolute percentage is below
    the threshold ends the pass right after the fetch: nothing is sent and
    nothing is stored. *)
Theorem price_change_notification :
  forall (w : World) (user_id : Z) (item_id : string) (s s1 : state)
         (item_details : json),
    stored_price user_id item_id s = Some 100%float ->
    get_item_details w item_id s = (Ok item_details, s1) ->
    PRICE_CHANGE_THRESHOLD = 5%Z /\
    (price_of w item_details = Ok 106%float ->
     exists s2 title,
       check_item w user_id item_id 100 s = (Ok tt, s2) /\
       trace s2
       = (trace s1 ++ [SendMessage user_id
                         (MsgPriceChanged item_id title Increased 6 100 106)])%list /\
       stored_price user_id item_id s2 = Some 106%float) /\
    (price_of w item_details = Ok 103%float ->
     check_item w user_id item_id 100 s = (Ok tt, s1) /\
     stored_price user_id item_id s1 = Some 100%float) /\
    (forall last_price current_price q,
        truthy item_details = true ->
        price_of w item_details = Ok current_price ->
        float_div (current_price - last_price) last_price = Ok q ->
        (float_of_Z PRICE_CHANGE_THRESHOLD <=? abs (q * float_of_Z 100))%float
        = false ->
        check_item w user_id item_id last_price s = (Ok tt, s1) /\
        user_items s1 = user_items s).
Proof.
  intros w user_id item_id s s1 details Hstored Hfetch.
  destruct (get_item_details_frame w item_id s s1 _ Hfetch) as (Hu & _).
  split; [reflexivity|]. split; [|split]; [intros Hprice|intros Hprice|].
  - rewrite (check_item_fetched w user_id item_id 100 s s1 details Hfetch).
    unfold try_except, check_details, compare_price, bind, lift.
    rewrite (priced_details_truthy w details 106 Hprice eq_refl), Hprice.
    destruct change_100_106 as (-> & (q & -> & ->) & -> & ->).
    cbn [negb].
    destruct details as [| | | | |l|kv]; try discriminate Hprice.
    cbn [json_get].
    unfold send_message, set_item, items_of, bind, emit, get_user_items,
      put_user_items, lift.
    cbn [user_items api trace]. rewrite Hu.
    unfold stored_price in Hstored.
    destruct (dict_get Z.eqb user_id (user_items s)) as [d|] eqn:Hd;
      [|discriminate].
    cbn [or_raise]. eexists _, _. split; [reflexivity|].
    split; [reflexivity|].
    unfold stored_price. cbn [user_items].
    rewrite (dict_get_set_same _ _ _ z_eqb_eq).
    apply (dict_get_set_same _ _ _ string_eqb_eq).
  - rewrite (check_item_fetched w user_id item_id 100 s s1 details Hfetch).
    unfold try_except, check_details, compare_price, bind, lift.
    rewrite (priced_details_truthy w details 103 Hprice eq_refl), Hprice.
    destruct change_100_103 as (-> & (q & -> & ->) & ->).
    cbn [negb]. split; [reflexivity|].
    now rewrite (stored_price_frame user_id item_id s s1 Hu).
  - intros last cur q Htruthy Hprice Hq Hbelow.
    rewrite (check_item_fetched w user_id item_id last s s1 details Hfetch).
    unfold try_except, check_details, compare_price, bind, lift.
    rewrite Htruthy, Hprice. cbn [negb]. rewrite Hq, Hbelow.
    split; [|exact Hu].
    destruct (negb (cur =? last)%float); reflexivity.
Qed.

(** C7.  When the detail fetched for a tracked [(user_id, item_id)] is
    empty (falsy), [check_item] deletes the entry, sends that user the
    removal message, and the item is gone from the registry and from what
    [/list] shows the user. *)
Theorem unavailable_item_is_removed :
  forall (w : World) (user_id : Z) (item_id : string) (last_price : float)
         (s s1 : state) (item_details : json),
    stored_price user_id item_id s = Some last_price ->
    get_item_details w item_id s = (Ok item_details, s1) ->
    truthy item_details = false ->
    exists s2,
      check_item w user_id item_id last_price s = (Ok tt, s2) /\
      trace s2
      = (trace s1 ++ [SendMessage user_id (MsgUnavailable item_id)])%list /\
      stored_price user_id item_id s2 = None /\
      exists m,
        list_items user_id s2 = (Ok tt, add_event (ReplyText m) s2) /\
        lists item_id m = false.
Proof.
  intros w user_id item_id last s s1 details Hstored Hfetch Hfalsy.
  destruct (get_item_details_frame w item_id s s1 _ Hfetch) as (Hu & _).
  rewrite (check_item_fetched w user_id item_id last s s1 details Hfetch).
  unfold stored_price in Hstored.
  destruct (dict_get Z.eqb user_id (user_items s)) as [d|] eqn:Hd;
    [|discriminate].
  assert (Hmem : dict_mem String.eqb item_id d = true)
    by (unfold dict_mem; now rewrite Hstored).
  unfold try_except, check_details, bind, lift.
  rewrite Hfalsy. cbn [negb].
  unfold del_item, send_message, items_of, bind, emit, get_user_items,
    put_user_items, lift, dict_del.
  cbn [user_items api trace]. rewrite Hu, Hd. cbn [or_raise].
  rewrite Hmem. cbn [or_raise user_items api trace].
  eexists. split; [reflexivity|]. split; [reflexivity|].
  assert (Hgone : dict_get String.eqb item_id (dict_remove String.eqb item_id d)
                  = None)
    by apply dict_get_remove_same.
  split.
  - unfold stored_price. cbn [user_items].
    now rewrite (dict_get_set_same _ _ _ z_eqb_eq).
  - unfold list_items, has_no_items, items_of, reply_text, bind, emit,
      get_user_items, lift.
    cbn [user_items api trace].
    rewrite (dict_get_set_same _ _ _ z_eqb_eq).
    destruct (dict_remove String.eqb item_id d) as [|e r] eqn:Hr.
    + exists MsgNoItems. split; reflexivity.
    + exists (MsgList (e :: r)). cbn [user_items api trace].
      rewrite (dict_get_set_same _ _ _ z_eqb_eq). split; [reflexivity|].
      unfold lists, dict_mem. now rewrite Hgone.
Qed.

(** *** The message handler *)

Lemma handle_message_add (w : World) (user_id : Z) (text : string) :
  reaches_add text = true ->
  handle_message w user_id text = add_item w user_id text.
Proof.
  unfold reaches_add, handle_message. intros H.
  apply andb_true_iff in H as [H Hre]. apply andb_true_iff in H as [Hd Hb].
  apply negb_true_iff in Hd, Hb. now rewrite Hd, Hb, Hre.
Qed.

Lemma add_item_below_capacity (w : World) (user_id : Z) (text : string)
      (s : state) :
  count_of user_id (user_items s) < MAX_ITEMS_PER_USER ->
  exists d,
    dict_get Z.eqb user_id (user_items (with_user user_id s)) = Some d /\
    List.length d = count_of user_id (user_items s) /\
    add_item w user_id text s
    = fetch_and_add w user_id text (with_user user_id s).
Proof.
  intros Hlt. unfold count_of in *.
  unfold with_user, add_item, items_of, bind, get_user_items, put_user_items,
    lift, ret, dict_mem.
  destruct (dict_get Z.eqb user_id (user_items s)) as [d|] eqn:Hd.
  - exists d. split; [assumption|]. split; [reflexivity|].
    cbn [negb]. rewrite Hd. cbn [or_raise].
    destruct (Nat.leb_spec MAX_ITEMS_PER_USER (List.length d)); [lia|].
    reflexivity.
  - exists []. cbn [negb user_items].
    rewrite (dict_get_set_same _ _ _ z_eqb_eq).
    split; [reflexivity|]. split; [reflexivity|]. reflexivity.
Qed.

Lemma stored_price_with_user (user_id : Z) (item_id : string) (s : state) :
  stored_price user_id item_id (with_user user_id s)
  = stored_price user_id item_id s.
Proof.
  unfold with_user, stored_price, dict_mem.
  destruct (dict_get Z.eqb user_id (user_items s)) as [d|] eqn:Hd.
  - now rewrite Hd.
  - cbn [user_items]. now rewrite (dict_get_set_same _ _ _ z_eqb_eq).
Qed.

(** The add branch, for a user below the limit and a detail that is
    found: the price read is stored under the text, the answer shows it,
    and what the user tracked before stays. *)
Lemma add_stores_price (w : World) (user_id : Z) (text : string)
      (s s1 : state) (item_details : json) (price : float) :
  reaches_add text = true ->
  count_of user_id (user_items s) < MAX_ITEMS_PER_USER ->
  get_item_details w text (with_user user_id s) = (Ok item_details, s1) ->
  truthy item_details = true ->
  price_of w item_details = Ok price ->
  exists s2,
    handle_message w user_id text s = (Ok tt, s2) /\
    trace s2 = (trace s1 ++ [ReplyText (MsgAdded price 5)])%list /\
    stored_price user_id text s2 = Some price /\
    forall item,
      item <> text ->
      stored_price user_id item s2 = stored_price user_id item s.
Proof.
  intros Hadd Hlt Hfetch Htruthy Hprice.
  rewrite (handle_message_add w user_id text Hadd).
  destruct (add_item_below_capacity w user_id text s Hlt)
    as (d & Hd & _ & ->).
  destruct (get_item_details_frame w text _ s1 _ Hfetch) as (Hu & _).
  unfold fetch_and_add, try_except, bind at 1. rewrite Hfetch, Htruthy.
  unfold bind at 1, lift at 1. rewrite Hprice.
  unfold set_item, reply_text, items_of, bind, emit, get_user_items,
    put_user_items, lift.
  cbn [user_items api trace]. rewrite Hu, Hd. cbn [or_raise].
  eexists. split; [reflexivity|]. split; [reflexivity|].
  unfold stored_price at 1 2. cbn [user_items].
  rewrite (dict_get_set_same _ _ _ z_eqb_eq). split.
  - apply (dict_get_set_same _ _ _ string_eqb_eq).
  - intros item Hne.
    rewrite (dict_get_set_other _ _ _ string_eqb_eq _ _ _ _ Hne).
    rewrite <- (stored_price_with_user user_id item s).
    unfold stored_price. now rewrite Hd.
Qed.

(** C10.  For a detail that is a non-empty object without a ['price']
    key, the price read is 0.0: the add branch of [handle_message] stores
    0.0 for the new item, and [check_item] goes on with [compare_price] at
    a current price of 0.0. *)
Theorem missing_price_defaults_to_zero :
  forall (w : World) (kv : list (string * json)),
    kv <> [] ->
    dict_get String.eqb "price" kv = None ->
    price_of w (JObj kv) = Ok 0%float /\
    (forall user_id text s s1,
        reaches_add text = true ->
        count_of user_id (user_items s) < MAX_ITEMS_PER_USER ->
        get_item_details w text (with_user user_id s) = (Ok (JObj kv), s1) ->
        exists s2,
          handle_message w user_id text s = (Ok tt, s2) /\
          stored_price user_id text s2 = Some 0%float /\
          trace s2 = (trace s1 ++ [ReplyText (MsgAdded 0 5)])%list) /\
    (forall user_id item_id last_price s s1,
        get_item_details w item_id s = (Ok (JObj kv), s1) ->
        check_item w user_id item_id last_price s
        = try_except any_exception
            (compare_price user_id item_id last_price (JObj kv) 0)
            (check_failed item_id) s1).
Proof.
  intros w kv Hne Hnone.
  assert (Hprice : price_of w (JObj kv) = Ok 0%float).
  { unfold price_of, json_get. rewrite Hnone. reflexivity. }
  assert (Htruthy : truthy (JObj kv) = true)
    by (destruct kv; [contradiction | reflexivity]).
  split; [assumption|]. split.
  - intros user_id text s s1 Hadd Hlt Hfetch.
    destruct (add_stores_price w user_id text s s1 (JObj kv) 0
                Hadd Hlt Hfetch Htruthy Hprice) as (s2 & H1 & H2 & H3 & _).
    exists s2. auto.
  - intros user_id item_id last s s1 Hfetch.
    rewrite (check_item_fetched w user_id item_id last s s1 _ Hfetch).
    unfold check_details. rewrite Htruthy. cbn [negb].
    unfold bind at 1, lift at 1. rewrite Hprice. reflexivity.
Qed.

(** *** Search *)

(** C8.  A search with only a (non-empty) query, the defaults for the
    rest: the parameters are page=1, per_page=50, sort_by="date" and the
    query, nothing else; the first event of the call is the GET of /items
    with them, and every later attempt of the call carries the same.  In
    general a field left at [None] has no key in the parameters. *)
Theorem search_with_query_only :
  forall (w : World) (query : string) (s : state),
    query <> "" ->
    let ps := [("page", JInt 1); ("per_page", JInt 50);
               ("sort_by", JStr "date"); ("query", JStr query)] in
    search_params JNull JNull (Some query) None None
                  default_sort_by default_page default_per_page = ps /\
    (exists hs rest,
        trace (snd (AvitoAPI.search_items w JNull JNull (Some query) None None
                      default_sort_by default_page default_per_page s))
        = (trace s
           ++ HttpRequest "GET" (base_url (api s) ++ "/items") (Some ps) None hs
           :: rest)%list /\
        Forall (sends ps) rest) /\
    (forall category_id location_id search_query price_from price_to
            sort_by page per_page,
        let qs := search_params category_id location_id search_query
                                price_from price_to sort_by page per_page in
        (category_id = JNull -> dict_get String.eqb "category_id" qs = None) /\
        (location_id = JNull -> dict_get String.eqb "location_id" qs = None) /\
        (search_query = None -> dict_get String.eqb "query" qs = None) /\
        (price_from = None -> dict_get String.eqb "price_from" qs = None) /\
        (price_to = None -> dict_get String.eqb "price_to" qs = None)).
Proof.
  intros w query s Hq. cbv zeta.
  set (ps := [("page", JInt 1); ("per_page", JInt 50);
              ("sort_by", JStr "date"); ("query", JStr query)]).
  assert (Hps : search_params JNull JNull (Some query) None None
                  default_sort_by default_page default_per_page = ps).
  { unfold search_params, set_if, is_some_true. cbn [truthy].
    destruct (String.eqb_spec query ""); [contradiction|]. reflexivity. }
  split; [exact Hps|]. split.
  - unfold AvitoAPI.search_items. rewrite Hps.
    match goal with
    | |- context [snd ?run] => destruct run as [r s'] eqn:E
    end.
    cbn [snd].
    destruct (make_request_frame w _ _ _ _ _ 0 s r s' (le_n _) E)
      as (_ & _ & (evs & Ht & Hall & _ & Hfirst) & _).
    destruct (Hfirst ltac:(unfold MAX_RETRIES; lia)) as (hs & rest & ->).
    exists hs, rest. split; [exact Ht|].
    inversion Hall as [|? ? _ Hrest]; subst.
    eapply Forall_impl; [|exact Hrest].
    intros [m u p d h| | | | |]; cbn; tauto.
  - intros category_id location_id search_query price_from price_to
           sort_by page per_page.
    unfold search_params, set_if.
    repeat split; intros ->; cbn [truthy is_some_true];
      repeat match goal with
             | |- context [if ?b then _ else _] => destruct b
             end; reflexivity.
Qed.

(** *** The registry under the handlers *)

Section Keeps.
Variable P : registry -> Prop.

Lemma keeps_ret {A} (a : A) : keeps P (ret a).
Proof. intros s H. exact H. Qed.

Lemma keeps_raise {A} (e : pyexn) : keeps P (@raise A e).
Proof. intros s H. exact H. Qed.

Lemma keeps_lift {A} (r : result A) : keeps P (lift r).
Proof. intros s H. exact H. Qed.

Lemma keeps_emit (e : event) : keeps P (emit e).
Proof. intros s H. exact H. Qed.

Lemma keeps_get_user_items : keeps P get_user_items.
Proof. intros s H. exact H. Qed.

Lemma keeps_bind {A B} (m : M A) (k : A -> M B) :
  keeps P m -> (forall a, keeps P (k a)) -> keeps P (bind m k).
Proof.
  intros Hm Hk s H. unfold bind. specialize (Hm s H).
  destruct (m s) as [[a|e] s1]; cbn [snd] in *; [now apply Hk | assumption].
Qed.

Lemma keeps_try {A} (c : pyexn -> bool) (body : M A) (h : pyexn -> M A) :
  keeps P body -> (forall e, keeps P (h e)) -> keeps P (try_except c body h).
Proof.
  intros Hm Hh s H. unfold try_except. specialize (Hm s H).
  destruct (body s) as [[a|e] s1]; cbn [snd] in *; [assumption|].
  destruct (c e); [now apply Hh | assumption].
Qed.

Lemma keeps_for_each {A} (l : list A) (body : A -> M unit) :
  (forall a, keeps P (body a)) -> keeps P (for_each l body).
Proof.
  intros Hb. induction l as [|a l IH]; cbn [for_each].
  - apply keeps_ret.
  - apply keeps_bind; auto.
Qed.

Lemma keeps_make_request (w : World) (method endpoint : string)
      (ps : option params) (data : option json) (retry_count : nat) :
  keeps P (_make_request w method endpoint ps data retry_count).
Proof.
  intros s H.
  destruct (_make_request w method endpoint ps data retry_count s)
    as [r s'] eqn:E.
  destruct (make_request_frame w method endpoint ps data _ retry_count s r s'
              (le_n _) E) as (Hu & _).
  cbn [snd]. now rewrite Hu.
Qed.

Lemma keeps_search_entries (w : World) (items : list json) :
  keeps P (search_entries w items).
Proof.
  induction items as [|item r IH]; cbn [search_entries].
  - apply keeps_ret.
  - apply keeps_bind.
    + unfold search_entry.
      repeat (apply keeps_bind; [apply keeps_lift|intros ?]). apply keeps_ret.
    + intros e. apply keeps_bind; [assumption|]. intros es. apply keeps_ret.
Qed.

Lemma keeps_search_items (w : World) (query : string)
      (category location : option string) (price_from price_to : option Z) :
  keeps P (Bot.search_items w query category location price_from price_to).
Proof.
  unfold Bot.search_items. apply keeps_try.
  - apply keeps_bind.
    { destruct category as [c|]; [|apply keeps_ret].
      destruct (negb (c =? "")); [|apply keeps_ret].
      apply keeps_bind; [apply keeps_make_request|]. intros ?.
      apply keeps_bind; [apply keeps_lift|]. intros ?. apply keeps_lift. }
    intros category_id. apply keeps_bind.
    { destruct location as [l|]; [|apply keeps_ret].
      destruct (negb (l =? "")); [|apply keeps_ret].
      apply keeps_bind; [apply keeps_make_request|]. intros ?.
      apply keeps_bind; [apply keeps_lift|]. intros ?. apply keeps_lift. }
    intros location_id.
    apply keeps_bind; [apply keeps_make_request|]. intros results.
    apply keeps_bind; [apply keeps_lift|]. intros found.
    destruct (negb (truthy found)); [apply keeps_emit|].
    apply keeps_bind; [apply keeps_lift|]. intros first.
    apply keeps_bind; [apply keeps_search_entries|]. intros entries.
    apply keeps_emit.
  - intros e. apply keeps_bind; [apply keeps_emit|]. intros _. apply keeps_emit.
Qed.

Lemma keeps_search_by_text (w : World) (text : string) :
  keeps P (search_by_text w text).
Proof.
  unfold search_by_text. apply keeps_try.
  - apply keeps_bind; [apply keeps_lift|]. intros q.
    assert (Hint : forall l i, keeps P (int_param l i)).
    { intros l i. unfold int_param. destruct (nth_error l i); [|apply keeps_ret].
      apply keeps_bind; [apply keeps_lift|]. intros ?. apply keeps_ret. }
    apply keeps_bind; [apply Hint|]. intros pf.
    apply keeps_bind; [apply Hint|]. intros pt.
    apply keeps_search_items.
  - intros e. apply keeps_bind; [apply keeps_emit|]. intros _. apply keeps_emit.
Qed.

End Keeps.

Lemma count_of_set (user user' : Z) (d : dict string float) (u : registry) :
  count_of user' (dict_set Z.eqb user d u)
  = if Z.eqb user' user then List.length d else count_of user' u.
Proof.
  unfold count_of. destruct (Z.eqb_spec user' user) as [->|Hne].
  - now rewrite (dict_get_set_same _ _ _ z_eqb_eq).
  - now rewrite (dict_get_set_other _ _ _ z_eqb_eq _ _ _ _ Hne).
Qed.

Lemma well_formed_set (user : Z) (d : dict string float) (u : registry) :
  well_formed u -> NoDup (dict_keys d) ->
  well_formed (dict_set Z.eqb user d u).
Proof.
  intros Hu Hd. apply dict_set_forall; auto.
Qed.

Lemma well_formed_get (user : Z) (d : dict string float) (u : registry) :
  well_formed u -> dict_get Z.eqb user u = Some d -> NoDup (dict_keys d).
Proof.
  intros Hu Hd. apply (dict_get_in _ _ _ z_eqb_eq) in Hd.
  unfold well_formed in Hu. rewrite Forall_forall in Hu.
  exact (Hu _ Hd).
Qed.

(** Replacing the dict of a user by one that is no longer keeps [within]. *)
Lemma within_set (c : Z -> nat) (user : Z) (d d' : dict string float)
      (u : registry) :
  within c u -> dict_get Z.eqb user u = Some d ->
  NoDup (dict_keys d') -> List.length d' <= List.length d ->
  within c (dict_set Z.eqb user d' u).
Proof.
  intros [Hwf Hc] Hd Hnd Hlen. split.
  - now apply well_formed_set.
  - intros user'. rewrite count_of_set.
    destruct (Z.eqb_spec user' user) as [->|]; [|apply Hc].
    specialize (Hc user). unfold count_of in Hc. rewrite Hd in Hc. lia.
Qed.

Lemma within_remove (c : Z -> nat) (user : Z) (item_id : string)
      (d : dict string float) (u : registry) :
  within c u -> dict_get Z.eqb user u = Some d ->
  within c (dict_set Z.eqb user (dict_remove String.eqb item_id d) u).
Proof.
  intros H Hd. apply (within_set c user d); auto.
  - apply dict_remove_nodup. exact (well_formed_get user d u (proj1 H) Hd).
  - apply dict_remove_length.
Qed.

Lemma within_update (c : Z -> nat) (user : Z) (item_id : string) (p : float)
      (d : dict string float) (u : registry) :
  within c u -> dict_get Z.eqb user u = Some d ->
  dict_mem String.eqb item_id d = true ->
  within c (dict_set Z.eqb user (dict_set String.eqb item_id p d) u).
Proof.
  intros H Hd Hm. apply (within_set c user d); auto.
  - apply (dict_set_nodup _ _ _ string_eqb_eq).
    exact (well_formed_get user d u (proj1 H) Hd).
  - now rewrite dict_set_length_mem.
Qed.

Lemma keeps_del_item (c : Z -> nat) (user_id : Z) (item_id : string) :
  keeps (within c) (del_item user_id item_id).
Proof.
  intros s H.
  unfold del_item, items_of, bind, get_user_items, put_user_items, lift.
  destruct (dict_get Z.eqb user_id (user_items s)) as [d|] eqn:Hd;
    cbn [or_raise snd]; [|assumption].
  destruct (dict_del String.eqb item_id d) as [d'|] eqn:Hdel;
    cbn [or_raise snd user_items]; [|assumption].
  unfold dict_del in Hdel.
  destruct (dict_mem String.eqb item_id d); [|discriminate].
  injection Hdel as <-. now apply within_remove.
Qed.

Lemma keeps_remove_by_number (c : Z -> nat) (user_id : Z) (text : string) :
  keeps (within c) (remove_by_number user_id text).
Proof.
  unfold remove_by_number. apply keeps_try.
  - apply keeps_bind; [apply keeps_lift|]. intros n.
    apply keeps_bind.
    { unfold items_of. apply keeps_bind; [apply keeps_get_user_items|].
      intros ?. apply keeps_lift. }
    intros items.
    match goal with |- keeps _ (if ?b then _ else _) => destruct b end;
      [|apply keeps_emit].
    apply keeps_bind; [apply keeps_lift|]. intros entry.
    apply keeps_bind; [apply keeps_del_item|]. intros _. apply keeps_emit.
  - intros e. apply keeps_bind; [apply keeps_emit|]. intros _. apply keeps_emit.
Qed.

(** What one pass of the inner loop of [check_prices] does to the registry:
    nothing, or the entry is deleted, or its price is rewritten. *)
Lemma check_item_registry (w : World) (user_id : Z) (item_id : string)
      (last_price : float) (s : state) :
  let u := user_items s in
  let u' := user_items (snd (check_item w user_id item_id last_price s)) in
  fst (check_item w user_id item_id last_price s) = Ok tt /\
  (u' = u \/
   (exists d,
       dict_get Z.eqb user_id u = Some d /\
       dict_mem String.eqb item_id d = true /\
       u' = dict_set Z.eqb user_id (dict_remove String.eqb item_id d) u) \/
   (exists d p,
       dict_get Z.eqb user_id u = Some d /\
       u' = dict_set Z.eqb user_id (dict_set String.eqb item_id p d) u)).
Proof.
  cbv zeta.
  destruct (check_item w user_id item_id last_price s) as [r s'] eqn:H.
  cbn [fst snd].
  unfold check_item, try_except in H. unfold bind at 1 in H.
  destruct (get_item_details w item_id s) as [rd s1] eqn:Hfetch.
  destruct (get_item_details_frame w item_id s s1 rd Hfetch) as (Hu & _).
  rewrite <- Hu. clear Hfetch Hu.
  unfold check_failed, check_details, compare_price, del_item, set_item,
    send_message, items_of, dict_del in H.
  unfold_run H.
  repeat first
    [ progress cbn [any_exception or_raise api user_items trace fst snd negb] in H
    | destruct_run H ].
  all: injection H as <- <-; cbn [user_items]; split; try reflexivity.
  all: repeat match goal with
              | Hx : or_raise _ ?o = Ok _ |- _ =>
                  destruct o eqn:?; cbn in Hx;
                  [injection Hx as ->|discriminate]
              end.
  all: try (left; reflexivity).
  all: try (right; left; eexists; repeat split; eauto; fail).
  all: try (right; right; eexists _, _; repeat split; eauto; fail).
Qed.

Lemma check_loop_within (c : Z -> nat) (w : World) (user_id : Z) :
  forall (rest : dict string float) (s : state) (d : dict string float),
    within c (user_items s) ->
    dict_get Z.eqb user_id (user_items s) = Some d ->
    NoDup (dict_keys rest) ->
    (forall k, In k (dict_keys rest) -> dict_mem String.eqb k d = true) ->
    within c (user_items
                (snd (for_each rest
                        (fun e => check_item w user_id (fst e) (snd e)) s))).
Proof.
  induction rest as [|[k lp] rest IH]; intros s d Hw Hd Hnd Hin;
    cbn [for_each fst snd]; [exact Hw|].
  unfold bind.
  pose proof (check_item_registry w user_id k lp s) as Hstep.
  cbv zeta in Hstep.
  destruct (check_item w user_id k lp s) as [r s1].
  cbn [fst snd] in Hstep. destruct Hstep as (-> & Hcases).
  inversion Hnd as [|? ? Hk Hnd']; subst.
  assert (Hhead : dict_mem String.eqb k d = true)
    by (apply Hin; now left).
  destruct Hcases as [Hu | [(d0 & Hd0 & _ & Hu) | (d0 & p & Hd0 & Hu)]].
  - apply (IH s1 d); rewrite ?Hu; auto.
    intros k' Hk'. apply Hin. now right.
  - rewrite Hd in Hd0. injection Hd0 as <-.
    apply (IH s1 (dict_remove String.eqb k d)); rewrite ?Hu; auto.
    + now apply within_remove.
    + apply (dict_get_set_same _ _ _ z_eqb_eq).
    + intros k' Hk'. apply (dict_mem_keys _ _ _ string_eqb_eq).
      apply (dict_remove_keys _ _ _ string_eqb_eq). split.
      * apply (dict_mem_keys _ _ _ string_eqb_eq). apply Hin. now right.
      * intros ->. contradiction.
  - rewrite Hd in Hd0. injection Hd0 as <-.
    apply (IH s1 (dict_set String.eqb k p d)); rewrite ?Hu; auto.
    + now apply within_update.
    + apply (dict_get_set_same _ _ _ z_eqb_eq).
    + intros k' Hk'. apply (dict_mem_keys _ _ _ string_eqb_eq).
      rewrite (dict_set_keys_mem _ _ String.eqb k p d Hhead).
      apply (dict_mem_keys _ _ _ string_eqb_eq). apply Hin. now right.
Qed.

Lemma keeps_check_user (c : Z -> nat) (w : World) (user_id : Z) :
  keeps (within c) (check_user w user_id).
Proof.
  intros s Hw. unfold check_user, items_of.
  unfold bind at 1. unfold bind at 1, get_user_items at 1, lift at 1.
  destruct (dict_get Z.eqb user_id (user_items s)) as [d|] eqn:Hd;
    cbn [or_raise snd]; [|exact Hw].
  apply (check_loop_within c w user_id d s d); auto.
  - exact (well_formed_get user_id d _ (proj1 Hw) Hd).
  - intros k. apply (dict_mem_keys _ _ _ string_eqb_eq).
Qed.

Lemma keeps_check_prices (c : Z -> nat) (w : World) :
  keeps (within c) (check_prices w).
Proof.
  unfold check_prices. apply keeps_bind; [apply keeps_get_user_items|].
  intros u. apply keeps_for_each. intros user_id. apply keeps_check_user.
Qed.

(** The branch that adds an item leaves every other user alone and gives
    [user_id] at most one more item, and only below the limit. *)
Lemma add_item_counts (w : World) (user_id : Z) (text : string) (s : state) :
  well_formed (user_items s) ->
  let u' := user_items (snd (add_item w user_id text s)) in
  well_formed u' /\
  forall user,
    count_of user u' <= count_of user (user_items s) \/
    (user = user_id /\
     count_of user (user_items s) < MAX_ITEMS_PER_USER /\
     count_of user u' <= S (count_of user (user_items s))).
Proof.
  intros Hwf. cbv zeta.
  destruct (add_item w user_id text s) as [r s'] eqn:H. cbn [snd].
  unfold add_item, fetch_and_add, try_except in H.
  unfold bind at 1, get_user_items at 1 in H.
  set (s0 := with_user user_id s).
  assert (Hs0 : well_formed (user_items s0) /\
                (forall user, count_of user (user_items s0)
                              = count_of user (user_items s)) /\
                exists d, dict_get Z.eqb user_id (user_items s0) = Some d).
  { subst s0. unfold with_user, dict_mem.
    destruct (dict_get Z.eqb user_id (user_items s)) as [d|] eqn:Hd.
    - split; [assumption|]. split; [reflexivity|]. eauto.
    - cbn [user_items]. split; [|split].
      + apply well_formed_set; [assumption | constructor].
      + intros user. rewrite count_of_set.
        destruct (Z.eqb_spec user user_id) as [->|]; [|reflexivity].
        unfold count_of. now rewrite Hd.
      + rewrite (dict_get_set_same _ _ _ z_eqb_eq). eauto. }
  destruct Hs0 as (Hwf0 & Hcount0 & d & Hd).
  assert (Hpre : (if negb (dict_mem Z.eqb user_id (user_items s))
                  then put_user_items (dict_set Z.eqb user_id [] (user_items s))
                  else ret tt) s = (Ok tt, s0)).
  { subst s0. unfold with_user.
    destruct (dict_mem Z.eqb user_id (user_items s)); reflexivity. }
  unfold bind at 1 in H. rewrite Hpre in H. clear Hpre.
  unfold bind at 1, items_of at 1 in H.
  unfold bind at 1, get_user_items at 1, lift at 1 in H.
  rewrite Hd in H. cbn [or_raise] in H.
  assert (Hlen : List.length d = count_of user_id (user_items s)).
  { rewrite <- Hcount0. unfold count_of. now rewrite Hd. }
  destruct (Nat.leb_spec MAX_ITEMS_PER_USER (List.length d)) as [Hfull|Hroom].
  { injection H as <- <-. cbn [user_items]. split; [assumption|].
    intros user. left. rewrite Hcount0. lia. }
  unfold bind at 1 in H.
  destruct (get_item_details w text s0) as [rd s1] eqn:Hfetch.
  destruct (get_item_details_frame w text s0 s1 rd Hfetch) as (Hu & _).
  clear Hfetch.
  unfold set_item, reply_text, items_of in H. unfold_run H.
  rewrite ?Hu, ?Hd in H.
  repeat first
    [ progress cbn [any_exception or_raise api user_items trace fst snd negb] in H
    | progress rewrite ?Hu, ?Hd in H
    | destruct_run H ].
  all: injection H as <- <-; cbn [user_items]; rewrite ?Hu.
  all: try (split; [assumption|]; intros user; left; rewrite Hcount0; lia).
  split.
  - apply well_formed_set; [assumption|].
    apply (dict_set_nodup _ _ _ string_eqb_eq).
    exact (well_formed_get user_id d _ Hwf0 Hd).
  - intros user. rewrite count_of_set.
    destruct (Z.eqb_spec user user_id) as [->|].
    + right. split; [reflexivity|]. split; [lia|].
      match goal with
      | |- context [dict_set String.eqb text ?p d] =>
          pose proof (dict_set_length_le _ _ String.eqb text p d)
      end.
      lia.
    + left. rewrite Hcount0. lia.
Qed.

Lemma keeps_list_items (P : registry -> Prop) (user_id : Z) :
  keeps P (list_items user_id).
Proof.
  unfold list_items. apply keeps_bind; [apply keeps_get_user_items|].
  intros u. destruct (has_no_items user_id u); [apply keeps_emit|].
  apply keeps_bind; [|intros ?; apply keeps_emit].
  unfold items_of. apply keeps_bind; [apply keeps_get_user_items|].
  intros ?. apply keeps_lift.
Qed.

Lemma keeps_remove_item (P : registry -> Prop) (user_id : Z) :
  keeps P (remove_item user_id).
Proof.
  unfold remove_item. apply keeps_bind; [apply keeps_get_user_items|].
  intros u. destruct (has_no_items user_id u); [apply keeps_emit|].
  apply keeps_bind; [|intros ?; apply keeps_emit].
  unfold items_of. apply keeps_bind; [apply keeps_get_user_items|].
  intros ?. apply keeps_lift.
Qed.

(** One update: the registry stays well-formed, and a user's count grows
    only by an add of that user, by one, from below the limit. *)
Lemma dispatch_counts (w : World) (upd : update) (s : state) :
  well_formed (user_items s) ->
  let u' := user_items (snd (dispatch w upd s)) in
  well_formed u' /\
  forall user,
    count_of user u' <= count_of user (user_items s) \/
    (adds_for user upd = true /\
     count_of user (user_items s) < MAX_ITEMS_PER_USER /\
     count_of user u' <= S (count_of user (user_items s))).
Proof.
  intros Hwf. cbv zeta.
  assert (Hkeeps :
            (forall c, keeps (within c) (dispatch w upd)) ->
            well_formed (user_items (snd (dispatch w upd s))) /\
            forall user,
              count_of user (user_items (snd (dispatch w upd s)))
              <= count_of user (user_items s)).
  { intros Hk.
    apply (Hk (fun user => count_of user (user_items s)) s).
    split; [assumption | intros; lia]. }
  assert (Hdone :
            (forall c, keeps (within c) (dispatch w upd)) ->
            well_formed (user_items (snd (dispatch w upd s))) /\
            forall user,
              count_of user (user_items (snd (dispatch w upd s)))
              <= count_of user (user_items s) \/
              (adds_for user upd = true /\
               count_of user (user_items s) < MAX_ITEMS_PER_USER /\
               count_of user (user_items (snd (dispatch w upd s)))
               <= S (count_of user (user_items s)))).
  { intros Hk. destruct (Hkeeps Hk) as [H1 H2]. split; auto. }
  clear Hkeeps.
  destruct upd as [| | |user_id|user_id|user_id text|]; cbn [dispatch] in *.
  - apply Hdone. intros c. apply keeps_emit.
  - apply Hdone. intros c. apply keeps_emit.
  - apply Hdone. intros c. apply keeps_emit.
  - apply Hdone. intros c. apply keeps_list_items.
  - apply Hdone. intros c. apply keeps_remove_item.
  - unfold handle_message in *.
    destruct (isdigit text) eqn:Hdig.
    { apply Hdone. intros c. apply keeps_bind; [apply keeps_get_user_items|].
      intros u. destruct (negb (has_no_items user_id u));
        [apply keeps_remove_by_number | apply keeps_ret]. }
    destruct (contains_char "|" text) eqn:Hbar.
    { apply Hdone. intros c. apply keeps_search_by_text. }
    destruct (re_match_digits text) eqn:Hre.
    2: { apply Hdone. intros c. apply keeps_ret. }
    destruct (add_item_counts w user_id text s Hwf) as [H1 H2].
    split; [assumption|]. intros user.
    destruct (H2 user) as [Hle | (-> & Hlt & Hle)]; [now left | right].
    split; [|split; assumption].
    cbn [adds_for]. unfold reaches_add.
    now rewrite Z.eqb_refl, Hdig, Hbar, Hre.
  - apply Hdone. intros c. apply keeps_check_prices.
Qed.



(** *** The session keeps the headers it was created with *)

Lemma get_session_open (s : state) (session : ClientSession) :
  _session (api s) = Some session -> closed session = false ->
  get_session s = (Ok session, s).
Proof.
  unfold get_session, bind, get_api, ret. intros -> ->. reflexivity.
Qed.

(** Once a session is open, every request of a chain carries the headers
    of that session, whatever [refresh_token] stores in [access_token]. *)
Lemma session_headers_frozen (w : World) (method endpoint : string)
      (ps : option params) (data : option json) (session : ClientSession) :
  forall k retry_count s r s',
    MAX_RETRIES - retry_count <= k ->
    _session (api s) = Some session -> closed session = false ->
    _make_request w method endpoint ps data retry_count s = (r, s') ->
    _session (api s') = Some session /\
    exists evs,
      trace s' = (trace s ++ evs)%list /\
      Forall (carries (session_headers session)) evs.
Proof.
  induction k as [|k IH]; intros rc s r s' Hk Hs Hopen H;
    rewrite make_request_eq in H;
    destruct (Nat.leb_spec MAX_RETRIES rc) as [Hle|Hlt]; try lia.
  1,2: injection H as <- <-; split; [assumption|];
       exists []; rewrite app_nil_r; split; [reflexivity|constructor].
  assert (Hrec : forall s1,
             _session (api s1) = Some session ->
             exists r2 s2 evs,
               _make_request w method endpoint ps data (rc + 1) s1 = (r2, s2) /\
               _session (api s2) = Some session /\
               trace s2 = (trace s1 ++ evs)%list /\
               Forall (carries (session_headers session)) evs).
  { intros s1 Hs1.
    destruct (_make_request w method endpoint ps data (rc + 1) s1)
      as [r2 s2] eqn:E.
    destruct (IH (rc + 1) s1 r2 s2 ltac:(lia) Hs1 Hopen E)
      as (? & evs & ? & ?).
    exists r2, s2, evs. auto. }
  clear IH.
  unfold bind at 1 in H. rewrite (get_session_open s session Hs Hopen) in H.
  unfold_run H.
  repeat first
    [ match type of H with
      | context [refresh_token w ?s1] =>
          let E := fresh "E" in
          let Hs1 := fresh "Hs" in
          destruct (refresh_token_run w s1) as (? & ? & ? & E & _ & Hs1);
          rewrite E in H; clear E; cbn [api] in Hs1; rewrite Hs in Hs1
      | context [_make_request w method endpoint ps data (rc + 1) ?s1] =>
          let E := fresh "E" in
          destruct (Hrec s1 ltac:(cbn [api]; assumption))
            as (? & ? & ? & E & ? & ? & ?);
          rewrite E in H; clear E
      end
    | progress cbn [is_client_error api user_items trace fst snd] in H
    | destruct_run H ];
    cbn [api user_items trace fst snd] in *.
  all: injection H as <- <-.
  all: cbn [api user_items trace] in *.
  all: split; [assumption|].
  all: repeat match goal with
              | Ht : trace _ = _ |- _ => rewrite Ht; clear Ht
              end.
  all: rewrite <- ?app_assoc; eexists; (split; [reflexivity|]).
  all: cbn [app]; repeat (constructor; [cbn; auto|]); auto.
  all: apply Forall_app; split; auto; repeat (constructor; [cbn; auto|]); auto.
Qed.

(** *** Where the code departs from its specification *)

(** C2.  At the failing input (a server that accepts only the token the
    refresh yields): each 401 is followed by exactly one refresh, and
    [access_token] becomes "fresh", but the session keeps the headers it was
    created with, so every later attempt sends "stale" again and the chain
    ends in the exception of the exhausted retries.  The same request with
    the refreshed token in its headers would have been answered 200. *)
Theorem refreshed_token_is_not_sent :
  exists s',
    get_item_details token_world "1" started
    = (Raise (RetriesExceeded "/items/1"), s') /\
    access_token (api s') = JStr "fresh" /\
    trace s' = [item_request "1" stale_headers; token_post;
                item_request "1" stale_headers; token_post;
                item_request "1" stale_headers; token_post] /\
    http token_world 0 "GET" (item_url "1") None None fresh_headers
    = json_response 200 (JObj [("price", JInt 100)]).
Proof.
  eexists. split; [vm_compute; reflexivity|].
  split; [reflexivity|]. split; reflexivity.
Qed.

(** C6.  At the failing input (a 404 whose body is not JSON):
    [response.json()] raises [ContentTypeError], an [aiohttp.ClientError],
    inside the [try] of [_make_request]; the handler of transport failures
    takes it, sleeps [RETRY_DELAY] and retries, three times in all. *)
Theorem non_json_client_error_is_retried :
  let failure :=
    LogError (LogRequestError (item_url "1") (ClientError "ContentTypeError")) in
  exists s',
    get_item_details not_found_world "1" started
    = (Raise (RetriesExceeded "/items/1"), s') /\
    trace s' = [item_request "1" stale_headers; failure; Sleep RETRY_DELAY;
                item_request "1" stale_headers; failure; Sleep RETRY_DELAY;
                item_request "1" stale_headers; failure; Sleep RETRY_DELAY].
Proof.
  eexists. split; [vm_compute; reflexivity | reflexivity].
Qed.

(** The answers by status, for every world.  After a 5xx the next call of
    the chain starts from a state whose last event is the sleep of
    [RETRY_DELAY].  A 4xx other than 401 whose body decodes ends the chain
    at once with the decoded body, the request being the only event.  A 4xx
    other than 401 whose body is not declared as JSON is logged and, after
    the same sleep, retried. *)
Lemma status_classes (w : World) (method endpoint : string)
      (ps : option params) (data : option json) (retry_count : nat)
      (s : state) :
  retry_count < MAX_RETRIES ->
  exists session a',
    get_session s = (Ok session, mkState a' (user_items s) (trace s)) /\
    let url := base_url (api s) ++ endpoint in
    let sent :=
      add_event (HttpRequest method url ps data (session_headers session))
                (mkState a' (user_items s) (trace s)) in
    forall r,
      http w (List.length (trace s)) method url ps data (session_headers session)
      = Response r ->
      (500 <= status r ->
       _make_request w method endpoint ps data retry_count s
       = _make_request w method endpoint ps data (retry_count + 1)
           (add_event (Sleep RETRY_DELAY) sent))%Z /\
      (400 <= status r < 500 -> status r <> 401 ->
       forall error_data, body r = Decoded error_data ->
       _make_request w method endpoint ps data retry_count s
       = (Raise (ApiError error_data), sent))%Z /\
      (400 <= status r < 500 -> status r <> 401 ->
       body r = ContentTypeError ->
       _make_request w method endpoint ps data retry_count s
       = _make_request w method endpoint ps data (retry_count + 1)
           (add_event (Sleep RETRY_DELAY)
              (add_event (LogError (LogRequestError url
                                      (ClientError "ContentTypeError")))
                         sent)))%Z.
Proof.
  intros Hlt.
  destruct (get_session_run s) as (session & a' & E & Hb & _ & _).
  exists session, a'. split; [exact E|]. cbv zeta. intros r Hr.
  destruct (_make_request w method endpoint ps data retry_count s)
    as [r0 s0] eqn:H.
  rewrite make_request_eq in H.
  destruct (Nat.leb_spec MAX_RETRIES retry_count); [lia|].
  unfold bind at 1 in H. rewrite E in H. unfold_run H.
  rewrite Hb, Hr in H.
  split; [|split].
  - intros H500.
    assert (H401 : (status r =? 401)%Z = false) by lia.
    assert (H5 : (500 <=? status r)%Z = true) by lia.
    rewrite H401, H5 in H. unfold add_event. cbn [api user_items trace] in *.
    destruct (_make_request w method endpoint ps data (retry_count + 1) _)
      as [r2 s2] eqn:E2.
    destruct r2 as [j|e]; [now rewrite H|].
    destruct (make_request_frame w method endpoint ps data _ _ _ _ _
                (le_n _) E2) as (_ & _ & _ & Hnc).
    destruct e; try (now rewrite <- H). exfalso. eapply Hnc. reflexivity.
  - intros [H400 H500] Hne j Hbody.
    assert (H401 : (status r =? 401)%Z = false) by lia.
    assert (H5 : (500 <=? status r)%Z = false) by lia.
    assert (H4 : (400 <=? status r)%Z = true) by lia.
    rewrite H401, H5, H4 in H.
    unfold response_json in H. rewrite Hbody in H. cbn in H.
    now rewrite <- H.
  - intros [H400 H500] Hne Hbody.
    assert (H401 : (status r =? 401)%Z = false) by lia.
    assert (H5 : (500 <=? status r)%Z = false) by lia.
    assert (H4 : (400 <=? status r)%Z = true) by lia.
    rewrite H401, H5, H4 in H.
    unfold response_json in H. rewrite Hbody in H.
    cbn [is_client_error] in H. unfold add_event.
    cbn [api user_items trace] in *. now rewrite <- H.
Qed.

Lemma decimal_text_isdigit (text : string) :
  text <> "" -> all_chars is_decimal_char text = true -> isdigit text = true.
Proof.
  intros Hne Hall.
  assert (Hdigits : all_chars is_digit_char text = true).
  { clear Hne. induction text as [|c r IH]; cbn [all_chars] in *;
      [reflexivity|].
    apply andb_true_iff in Hall as [Hc Hr].
    rewrite (IH Hr). unfold is_digit_char. rewrite Hc. reflexivity. }
  destruct text; [contradiction | exact Hdigits].
Qed.

(** A text that [isdigit] accepts is answered by the first branch of
    [handle_message], which returns before the branch that adds. *)
Lemma digits_are_intercepted (w : World) (user_id : Z) (text : string)
      (s : state) :
  isdigit text = true ->
  reaches_add text = false /\
  handle_message w user_id text s
  = if has_no_items user_id (user_items s) then (Ok tt, s)
    else remove_by_number user_id text s.
Proof.
  intros H. unfold reaches_add, handle_message. rewrite H. split; [reflexivity|].
  unfold bind, get_user_items.
  destruct (has_no_items user_id (user_items s)); reflexivity.
Qed.

(** The removal by number deletes at most one entry of the user. *)
Lemma remove_by_number_registry (user_id : Z) (text : string) (s : state) :
  let u := user_items s in
  let u' := user_items (snd (remove_by_number user_id text s)) in
  u' = u \/
  exists d item_id,
    dict_get Z.eqb user_id u = Some d /\
    u' = dict_set Z.eqb user_id (dict_remove String.eqb item_id d) u.
Proof.
  cbv zeta.
  destruct (remove_by_number user_id text s) as [r s'] eqn:H. cbn [snd].
  unfold remove_by_number, del_item, reply_text, items_of, dict_del in H.
  unfold_run H.
  repeat first
    [ progress cbn [any_exception or_raise api user_items trace fst snd negb] in H
    | destruct_run H ].
  all: injection H as <- <-; cbn [user_items].
  all: repeat match goal with
              | Hx : or_raise _ ?o = Ok _ |- _ =>
                  destruct o eqn:?; cbn in Hx;
                  [injection Hx as ->|discriminate]
              end.
  all: try (left; reflexivity).
  all: right; eexists _, _; split; [first [eassumption | reflexivity] |];
    reflexivity.
Qed.

(** The slip beside C5: from a user without items a bare number is
    dropped by the [return] that ends the first branch; nothing is fetched,
    answered or stored. *)
Example numeric_message_from_new_user_is_dropped :
  isdigit "12345" = true /\
  re_match_digits "12345" = true /\
  handle_message (priced_world 100) 7 "12345" started = (Ok tt, started).
Proof. repeat split; vm_compute; reflexivity. Qed.



(** *** Instances *)

(** C1 at a server that answers 503 to everything. *)
Lemma retry_chain_bounded_witness :
  exists s' evs,
    _make_request failing_world "GET" "/items/1" None None 0 started
    = (Raise (RetriesExceeded "/items/1"), s') /\
    trace s' = (trace started ++ evs)%list /\
    attempts evs = MAX_RETRIES - 0.
Proof.
  destruct (retry_chain_bounded failing_world "GET" "/items/1" None None)
    as (_ & _ & _ & H).
  apply H.
  - intros n m u p d h. reflexivity.
  - intros s. reflexivity.
Defined.

(** C3 for user 7 and item "42", at a listing priced 106 and at one
    priced 103. *)
Lemma price_change_notification_witness :
  (exists s2 title,
      check_item (priced_world 106) 7 "42" 100 (tracking 100) = (Ok tt, s2) /\
      trace s2
      = (trace (fetched (priced_world 106) "42" (tracking 100))
         ++ [SendMessage 7 (MsgPriceChanged "42" title Increased 6 100 106)])%list /\
      stored_price 7 "42" s2 = Some 106%float) /\
  (check_item (priced_world 103) 7 "42" 100 (tracking 100)
   = (Ok tt, fetched (priced_world 103) "42" (tracking 100)) /\
   stored_price 7 "42" (fetched (priced_world 103) "42" (tracking 100))
   = Some 100%float).
Proof.
  split.
  - destruct (price_change_notification (priced_world 106) 7 "42"
                (tracking 100) (fetched (priced_world 106) "42" (tracking 100))
                (JObj [("title", JStr "lamp"); ("price", JInt 106)]))
      as (_ & H & _).
    + reflexivity.
    + vm_compute. reflexivity.
    + apply H. vm_compute. reflexivity.
  - destruct (price_change_notification (priced_world 103) 7 "42"
                (tracking 100) (fetched (priced_world 103) "42" (tracking 100))
                (JObj [("title", JStr "lamp"); ("price", JInt 103)]))
      as (_ & _ & H & _).
    + reflexivity.
    + vm_compute. reflexivity.
    + apply H. vm_compute. reflexivity.
Defined.

(** C7 at a server that answers with an empty object. *)
Lemma unavailable_item_is_removed_witness :
  exists s2,
    check_item empty_world 7 "42" 100 (tracking 100) = (Ok tt, s2) /\
    trace s2
    = (trace (fetched empty_world "42" (tracking 100))
       ++ [SendMessage 7 (MsgUnavailable "42")])%list /\
    stored_price 7 "42" s2 = None /\
    exists m,
      list_items 7 s2 = (Ok tt, add_event (ReplyText m) s2) /\
      lists "42" m = false.
Proof.
  apply (unavailable_item_is_removed empty_world 7 "42" 100 (tracking 100)
           (fetched empty_world "42" (tracking 100)) (JObj [])).
  - reflexivity.
  - vm_compute. reflexivity.
  - reflexivity.
Defined.

(** C8 for the query "lamp". *)
Lemma search_with_query_only_witness :
  search_params JNull JNull (Some "lamp") None None
                default_sort_by default_page default_per_page
  = [("page", JInt 1); ("per_page", JInt 50); ("sort_by", JStr "date");
     ("query", JStr "lamp")].
Proof.
  destruct (search_with_query_only (priced_world 100) "lamp" started) as (H & _).
  - discriminate.
  - exact H.
Defined.

(** C9 for an item stored at 0.0 whose listing is priced 100. *)
Lemma zero_last_price_divides_by_zero_witness :
  float_div (100 - 0) 0 = Raise ZeroDivisionError /\
  check_item (priced_world 100) 7 "42" 0 (tracking 0)
  = (Ok tt, add_event (LogError (LogCheckError "42" ZeroDivisionError))
                      (fetched (priced_world 100) "42" (tracking 0))).
Proof.
  apply (zero_last_price_divides_by_zero (priced_world 100) 7 "42" 0 100
           (tracking 0) (fetched (priced_world 100) "42" (tracking 0))
           (JObj [("title", JStr "lamp"); ("price", JInt 100)])).
  - vm_compute. reflexivity.
  - reflexivity.
  - vm_compute. reflexivity.
  - reflexivity.
  - reflexivity.
Defined.

(** C10 at a listing that has a title and no price. *)
Lemma missing_price_defaults_to_zero_witness :
  price_of unpriced_world (JObj [("title", JStr "lamp")]) = Ok 0%float /\
  (exists s2,
      handle_message unpriced_world 7 digits_newline started = (Ok tt, s2) /\
      stored_price 7 digits_newline s2 = Some 0%float /\
      trace s2
      = (trace (fetched unpriced_world digits_newline (with_user 7 started))
         ++ [ReplyText (MsgAdded 0 5)])%list) /\
  check_item unpriced_world 7 "42" 100 (tracking 100)
  = try_except any_exception
      (compare_price 7 "42" 100 (JObj [("title", JStr "lamp")]) 0)
      (check_failed "42") (fetched unpriced_world "42" (tracking 100)).
Proof.
  destruct (missing_price_defaults_to_zero unpriced_world
              [("title", JStr "lamp")]) as (Hprice & Hadd & Hpoll).
  - discriminate.
  - reflexivity.
  - split; [exact Hprice|]. split.
    + apply Hadd.
      * reflexivity.
      * cbn. unfold MAX_ITEMS_PER_USER. lia.
      * vm_compute. reflexivity.
    + apply Hpoll. vm_compute. reflexivity.
Defined.



(** *** Whole runs of the application *)

(** One poll cycle over the registry of the example of C3. *)
Example poll_cycle_at_106 :
  run (priced_world 106) [Job] (tracking 100)
  = mkState (api (fetched (priced_world 106) "42" (tracking 100)))
            [(7%Z, [("42", 106%float)])]
            [item_request "42" stale_headers;
             SendMessage 7 (MsgPriceChanged "42" (JStr "lamp") Increased
                                            6 100 106)].
Proof. vm_compute. reflexivity. Qed.

Example poll_cycle_at_103 :
  run (priced_world 103) [Job] (tracking 100)
  = mkState (api (fetched (priced_world 103) "42" (tracking 100)))
            [(7%Z, [("42", 100%float)])]
            [item_request "42" stale_headers].
Proof. vm_compute. reflexivity. Qed.

(** From the start of the application: an item added while its detail has
    no price is stored at 0.0, and the next poll cycle, the price now being
    100, ends for that item in the logged [ZeroDivisionError]. *)
Example division_by_zero_is_reachable :
  let s := run repriced_world [Text 7 digits_newline; Job] started in
  user_items s = [(7%Z, [(digits_newline, 0%float)])] /\
  trace s = [item_request digits_newline stale_headers;
             ReplyText (MsgAdded 0 5);
             item_request digits_newline stale_headers;
             LogError (LogCheckError digits_newline ZeroDivisionError)].
Proof. split; vm_compute; reflexivity. Qed.

(* ===================================================================== *)
(** ** Further properties *)
(* ===================================================================== *)

(** *** The token exchange *)

(** X1.  When the token endpoint answers 200 with an object that holds
    ['access_token'], and ['expires_in'] is absent or an integer number of
    seconds between 0 and 10^9, [refresh_token] posts the credentials once,
    stores the token and the expiry (the clock reading and the lifetime,
    3600 when absent), and leaves the session, the registry and the rest of
    the instance as they were. *)
Theorem refresh_token_stores_token_and_expiry :
  forall (w : World) (s : state) (r : response) (kv : list (string * json))
         (token : json) (lifetime : Z),
    auth w (List.length (trace s)) AVITO_AUTH_URL (credentials (api s))
    = Response r ->
    status r = 200%Z ->
    body r = Decoded (JObj kv) ->
    dict_get String.eqb "access_token" kv = Some token ->
    (dict_get String.eqb "expires_in" kv = None /\ lifetime = 3600%Z) \/
    (dict_get String.eqb "expires_in" kv = Some (JInt lifetime) /\
     (0 <= lifetime <= 10 ^ 9)%Z) ->
    refresh_token w s
    = (Ok tt,
       mkState (with_token token
                  (Some (now w (List.length (trace s)), JInt lifetime)) (api s))
               (user_items s)
               (trace s ++ [TokenPost AVITO_AUTH_URL (credentials (api s))])%list).
Proof.
  intros w s r kv token lifetime Hauth Hstatus Hbody Htoken Hexp.
  unfold credentials in *.
  unfold refresh_token, bind, get_api, history, emit, put_api, lift, raise.
  cbn [api user_items trace]. rewrite Hauth, Hstatus. cbn [Z.eqb Pos.eqb].
  unfold response_json. rewrite Hbody. cbn [subscript or_raise].
  rewrite Htoken. cbn [or_raise json_get api user_items trace].
  destruct Hexp as [[-> ->] | [-> Hrange]]; cbn [timedelta_seconds].
  - reflexivity.
  - replace ((-999999999 * 86400 <=? lifetime)%Z) with true by lia.
    replace ((lifetime <? 1000000000 * 86400)%Z) with true by lia.
    reflexivity.
Qed.

(** X2.  The ways [refresh_token] fails.  A status other than 200 raises
    the "Failed to refresh token" exception and an answer without
    ['access_token'] raises [KeyError]; in both the instance is unchanged.
    An answer whose ['expires_in'] is no number raises [TypeError] after
    the new token has been stored: the token is replaced, the expiry is
    not. *)
Theorem refresh_token_failures :
  forall (w : World) (s : state) (r : response),
    auth w (List.length (trace s)) AVITO_AUTH_URL (credentials (api s))
    = Response r ->
    let posted := add_event (TokenPost AVITO_AUTH_URL (credentials (api s))) s in
    (status r <> 200%Z -> refresh_token w s = (Raise RefreshFailed, posted)) /\
    (forall kv,
        status r = 200%Z -> body r = Decoded (JObj kv) ->
        dict_get String.eqb "access_token" kv = None ->
        refresh_token w s = (Raise (KeyError (JStr "access_token")), posted)) /\
    (forall kv token v,
        status r = 200%Z -> body r = Decoded (JObj kv) ->
        dict_get String.eqb "access_token" kv = Some token ->
        dict_get String.eqb "expires_in" kv = Some v ->
        is_number v = false ->
        refresh_token w s
        = (Raise TypeError,
           mkState (with_token token (token_expires_at (api s)) (api s))
                   (user_items s) (trace posted))).
Proof.
  intros w s r Hauth. cbv zeta. unfold credentials, add_event in *.
  split; [|split].
  - intros Hne.
    unfold refresh_token, bind, get_api, history, emit, put_api, lift, raise.
    cbn [api user_items trace]. rewrite Hauth.
    destruct (Z.eqb_spec (status r) 200); [contradiction|]. reflexivity.
  - intros kv Hstatus Hbody Hnone.
    unfold refresh_token, bind, get_api, history, emit, put_api, lift, raise.
    cbn [api user_items trace]. rewrite Hauth, Hstatus. cbn [Z.eqb Pos.eqb].
    unfold response_json. rewrite Hbody. cbn [subscript or_raise].
    rewrite Hnone. reflexivity.
  - intros kv token v Hstatus Hbody Htoken Hexp Hnum.
    unfold refresh_token, bind, get_api, history, emit, put_api, lift, raise.
    cbn [api user_items trace]. rewrite Hauth, Hstatus. cbn [Z.eqb Pos.eqb].
    unfold response_json. rewrite Hbody. cbn [subscript or_raise].
    rewrite Htoken. cbn [or_raise json_get api user_items trace].
    rewrite Hexp.
    destruct v; try discriminate Hnum; reflexivity.
Qed.

(** *** The request executor, answer by answer *)

(** X3.  Whatever the world answers, a call of [_make_request] never lets
    an [aiohttp.ClientError] out, leaves the registry and [base_url] alone,
    and adds to the trace only requests with its own method, url,
    parameters and body, token exchanges, sleeps of [RETRY_DELAY] and logs
    of failed requests to its url. *)
Theorem transport_errors_stay_inside :
  forall (w : World) (method endpoint : string) (ps : option params)
         (data : option json) (retry_count : nat) (s : state),
    let run := _make_request w method endpoint ps data retry_count s in
    (forall detail, fst run <> Raise (ClientError detail)) /\
    user_items (snd run) = user_items s /\
    base_url (api (snd run)) = base_url (api s) /\
    exists evs,
      trace (snd run) = (trace s ++ evs)%list /\
      Forall (request_event method (base_url (api s) ++ endpoint) ps data) evs.
Proof.
  intros w method endpoint ps data rc s. cbv zeta.
  destruct (_make_request w method endpoint ps data rc s) as [r s'] eqn:E.
  destruct (make_request_frame w method endpoint ps data _ rc s r s' (le_n _) E)
    as (Hu & Hb & (evs & Ht & Hall & _) & Hnc).
  cbn [fst snd]. repeat split; auto. exists evs. auto.
Qed.

(** X4.  Answers that end the chain at the first request, with no sleep,
    no log and no retry: a status below 400 with a body that decodes (the
    body is returned); the total timeout of the session ([TimeoutError],
    which is no [ClientError]); a status below 500 other than 401 whose
    body is declared as JSON and is malformed (the decoder's
    [ValueError]). *)
Theorem first_answer_ends_chain :
  forall (w : World) (method endpoint : string) (ps : option params)
         (data : option json) (retry_count : nat) (s s1 : state)
         (session : ClientSession),
    retry_count < MAX_RETRIES ->
    get_session s = (Ok session, s1) ->
    let url := base_url (api s) ++ endpoint in
    let answer :=
      http w (List.length (trace s)) method url ps data
           (session_headers session) in
    let sent :=
      add_event (HttpRequest method url ps data (session_headers session)) s1 in
    let run := _make_request w method endpoint ps data retry_count s in
    (forall r j,
        answer = Response r -> (status r < 400)%Z -> body r = Decoded j ->
        run = (Ok j, sent)) /\
    (answer = TimedOut -> run = (Raise TimeoutError, sent)) /\
    (forall r,
        answer = Response r -> (status r < 500)%Z -> status r <> 401%Z ->
        body r = JSONDecodeError ->
        run = (Raise ValueError, sent)).
Proof.
  intros w method endpoint ps data rc s s1 session Hlt E. cbv zeta.
  destruct (get_session_run s) as (session' & a' & E' & Hb & _ & _).
  rewrite E in E'. injection E' as -> ->.
  destruct (_make_request w method endpoint ps data rc s) as [r0 s0] eqn:H.
  rewrite make_request_eq in H.
  destruct (Nat.leb_spec MAX_RETRIES rc); [lia|].
  unfold bind at 1 in H. rewrite E in H. unfold_run H. rewrite Hb in H.
  unfold add_event. cbn [api user_items trace].
  split; [|split].
  - intros r j Hr Hs Hbody. rewrite Hr in H.
    assert (H401 : (status r =? 401)%Z = false) by lia.
    assert (H5 : (500 <=? status r)%Z = false) by lia.
    assert (H4 : (400 <=? status r)%Z = false) by lia.
    rewrite H401, H5, H4 in H.
    unfold response_json in H. rewrite Hbody in H. now rewrite <- H.
  - intros Hr. rewrite Hr in H. cbn [is_client_error] in H. now rewrite <- H.
  - intros r Hr Hs Hne Hbody. rewrite Hr in H.
    assert (H401 : (status r =? 401)%Z = false) by lia.
    assert (H5 : (500 <=? status r)%Z = false) by lia.
    rewrite H401, H5 in H.
    unfold response_json in H. rewrite Hbody in H.
    destruct (400 <=? status r)%Z; cbn [is_client_error] in H;
      now rewrite <- H.
Qed.

(** X5.  After a 401 the chain goes on only if the refresh does.  When the
    token endpoint answers with a status other than 200, the exception of
    [refresh_token] leaves [_make_request] at once, after one request and
    one token exchange.  When the token endpoint cannot be reached, the
    [ClientError] is logged and, after a sleep of [RETRY_DELAY], the next
    attempt starts. *)
Theorem failed_refresh_ends_chain :
  forall (w : World) (method endpoint : string) (ps : option params)
         (data : option json) (retry_count : nat) (s s1 : state)
         (session : ClientSession) (r : response),
    retry_count < MAX_RETRIES ->
    get_session s = (Ok session, s1) ->
    let url := base_url (api s) ++ endpoint in
    http w (List.length (trace s)) method url ps data (session_headers session)
    = Response r ->
    status r = 401%Z ->
    let exchanged :=
      add_event (TokenPost AVITO_AUTH_URL (credentials (api s)))
        (add_event (HttpRequest method url ps data (session_headers session))
                   s1) in
    let refresh :=
      auth w (S (List.length (trace s))) AVITO_AUTH_URL (credentials (api s)) in
    let run := _make_request w method endpoint ps data retry_count s in
    (forall r', refresh = Response r' -> status r' <> 200%Z ->
                run = (Raise RefreshFailed, exchanged)) /\
    (forall detail,
        refresh = TransportFailure detail ->
        run = _make_request w method endpoint ps data (retry_count + 1)
                (add_event (Sleep RETRY_DELAY)
                   (add_event (LogError (LogRequestError url
                                           (ClientError detail)))
                              exchanged))).
Proof.
  intros w method endpoint ps data rc s s1 session r Hlt E0.
  destruct s as [a u t].
  assert (E : exists session' a',
             get_session (mkState a u t) = (Ok session', mkState a' u t) /\
             base_url a' = base_url a /\ client_id a' = client_id a /\
             client_secret a' = client_secret a).
  { unfold get_session, new_session, _get_headers, bind, get_api, put_api, ret.
    cbn [api user_items trace].
    destruct a as [b tok ci cs ex [[hs [|]]|]]; cbn; eauto 10. }
  destruct E as (session' & a' & E & Hb & Hci & Hcs).
  rewrite E0 in E. injection E as -> ->.
  cbn [api user_items trace]. cbv zeta. intros Hr H401.
  destruct (_make_request w method endpoint ps data rc (mkState a u t))
    as [r0 s0] eqn:H.
  rewrite make_request_eq in H.
  destruct (Nat.leb_spec MAX_RETRIES rc); [lia|].
  unfold bind at 1 in H. rewrite E0 in H. unfold_run H.
  rewrite Hb, Hr, H401 in H. cbn [Z.eqb Pos.eqb] in H.
  unfold refresh_token in H. unfold_run H.
  rewrite length_app, Nat.add_comm, Hci, Hcs in H. cbn [List.length plus] in H.
  unfold credentials, add_event. cbn [api user_items trace].
  split.
  - intros r' Hr' Hne. rewrite Hr' in H.
    destruct (Z.eqb_spec (status r') 200); [contradiction|].
    cbn [is_client_error] in H. now rewrite <- H.
  - intros detail Hr'. rewrite Hr' in H. cbn [is_client_error] in H.
    rewrite <- H. reflexivity.
Qed.

(** X6.  The token is renewed on a 401 and on nothing else: against a
    server that never answers 401, a call of [_make_request] makes no
    token exchange and leaves [access_token] and [token_expires_at] as
    they were, however many attempts it takes. *)
Theorem token_is_renewed_only_on_401 :
  forall (w : World),
    (forall n m u p d h r, http w n m u p d h = Response r -> status r <> 401%Z) ->
    forall (method endpoint : string) (ps : option params) (data : option json)
           (retry_count : nat) (s : state),
      let run := _make_request w method endpoint ps data retry_count s in
      access_token (api (snd run)) = access_token (api s) /\
      token_expires_at (api (snd run)) = token_expires_at (api s) /\
      exists evs,
        trace (snd run) = (trace s ++ evs)%list /\
        Forall (fun e => is_token_post e = false) evs.
Proof.
  intros w Hno method endpoint ps data rc s. cbv zeta.
  remember (MAX_RETRIES - rc) as k eqn:Hk.
  revert rc s Hk.
  induction k as [|k IH]; intros rc s Hk; rewrite make_request_eq;
    destruct (Nat.leb_spec MAX_RETRIES rc) as [Hle|Hlt]; try lia.
  - cbn [raise snd]. repeat split. exists []. now rewrite app_nil_r.
  - assert (Hrec : forall s1,
               access_token (api (snd (_make_request w method endpoint ps data
                                         (rc + 1) s1)))
               = access_token (api s1) /\
               token_expires_at (api (snd (_make_request w method endpoint ps
                                             data (rc + 1) s1)))
               = token_expires_at (api s1) /\
               exists evs,
                 trace (snd (_make_request w method endpoint ps data
                               (rc + 1) s1))
                 = (trace s1 ++ evs)%list /\
                 Forall (fun e => is_token_post e = false) evs)
      by (intros s1; apply IH; lia).
    clear IH.
    destruct s as [a u t].
    assert (E : exists session a',
               get_session (mkState a u t) = (Ok session, mkState a' u t) /\
               access_token a' = access_token a /\
               token_expires_at a' = token_expires_at a).
    { unfold get_session, new_session, _get_headers, bind, get_api, put_api, ret.
      cbn [api user_items trace].
      destruct a as [b tok ci cs ex [[hs [|]]|]]; cbn; eauto 10. }
    destruct E as (session & a' & E & Htok & Hex).
    match goal with
    | |- context [snd ?run] => destruct run as [r s'] eqn:H
    end.
    unfold bind at 1 in H. rewrite E in H. clear E. unfold_run H.
    cbn [api user_items trace snd].
    match type of H with
    | context [http w ?n ?m ?u0 ?p ?d ?h] =>
        pose proof (Hno n m u0 p d h) as Hn;
        destruct (http w n m u0 p d h) as [x| |resp]
    end.
    + cbn [is_client_error] in H.
      match type of H with
      | context [_make_request w method endpoint ps data (rc + 1) ?s1] =>
          destruct (Hrec s1) as (H1 & H2 & evs & Ht & Hall)
      end.
      rewrite H in H1, H2, Ht. cbn [snd api trace] in H1, H2, Ht.
      rewrite H1, H2, Ht, <- !app_assoc. repeat split; auto.
      eexists. split; [reflexivity|].
      repeat (constructor; [reflexivity|]). exact Hall.
    + cbn [is_client_error] in H. injection H as <- <-.
      cbn [api trace]. repeat split; auto.
      eexists. split; [reflexivity|]. repeat constructor.
    + specialize (Hn resp eq_refl).
      destruct (Z.eqb_spec (status resp) 401) as [|_]; [contradiction|].
      destruct (500 <=? status resp)%Z.
      * match type of H with
        | context [_make_request w method endpoint ps data (rc + 1) ?s1] =>
            destruct (Hrec s1) as (H1 & H2 & evs & Ht & Hall);
            destruct (_make_request w method endpoint ps data (rc + 1) s1)
              as [r2 s2] eqn:E2
        end.
        cbn [snd api trace] in H1, H2, Ht.
        destruct (make_request_frame w method endpoint ps data _ _ _ _ _
                    (le_n _) E2) as (_ & _ & _ & Hnc).
        assert (Hs : s' = s2).
        { destruct r2 as [j|e]; [now injection H|].
          destruct e; cbn [is_client_error] in H; try (now injection H).
          exfalso. eapply Hnc. reflexivity. }
        subst s'. rewrite H1, H2, Ht, <- !app_assoc. repeat split; auto.
        eexists. split; [reflexivity|].
        repeat (constructor; [reflexivity|]). exact Hall.
      * unfold response_json in H.
        destruct (400 <=? status resp)%Z, (body resp) as [j| |];
          cbn [is_client_error] in H;
          first
            [ injection H as <- <-; cbn [api trace]; repeat split; auto;
              eexists; split; [reflexivity|]; repeat constructor
            | match type of H with
              | context [_make_request w method endpoint ps data (rc + 1) ?s1] =>
                  destruct (Hrec s1) as (H1 & H2 & evs & Ht & Hall)
              end;
              rewrite H in H1, H2, Ht; cbn [snd api trace] in H1, H2, Ht;
              rewrite H1, H2, Ht, <- !app_assoc; repeat split; auto;
              eexists; (split; [reflexivity|]);
              repeat (constructor; [reflexivity|]); exact Hall ].
Qed.

(** *** The endpoint methods and the session *)

Lemma make_request_polls (w : World) (method endpoint : string)
      (ps : option params) (data : option json) (s : state) :
  polls method endpoint ps data (_make_request w method endpoint ps data 0) s.
Proof.
  unfold polls.
  destruct (_make_request w method endpoint ps data 0 s) as [r s'] eqn:E.
  destruct (make_request_frame w method endpoint ps data _ 0 s r s' (le_n _) E)
    as (Hu & _ & (evs & Ht & Hall & Ha & Hfirst) & _).
  cbn [snd]. split; [exact Hu|]. exists evs.
  split; [exact Ht|]. split; [exact Hall|]. split; [|lia].
  destruct (Hfirst ltac:(unfold MAX_RETRIES; lia)) as (hs & rest & ->).
  unfold attempts. cbn. lia.
Qed.

(** X7.  Each of the five endpoint methods is one chain of GET requests
    without body to its own path under [base_url]: the detail and the
    statistics of an item at /items/{id} and /items/{id}/stats, the
    categories at /categories, the locations at /locations with the query
    as only parameter (also when it is empty), the search at /items with
    the parameters of [search_params].  Each sends at least one and at most
    [MAX_RETRIES] requests and none touches the registry. *)
Theorem endpoint_methods_send_get :
  forall (w : World) (s : state),
    (forall item_id,
        polls "GET" ("/items/" ++ item_id) None None
              (get_item_details w item_id) s) /\
    (forall item_id,
        polls "GET" ("/items/" ++ item_id ++ "/stats") None None
              (get_item_stats w item_id) s) /\
    polls "GET" "/categories" None None (get_categories w) s /\
    (forall query,
        polls "GET" "/locations" (Some [("query", JStr query)]) None
              (get_locations w query) s) /\
    (forall category_id location_id search_query price_from price_to
            sort_by page per_page,
        polls "GET" "/items"
              (Some (search_params category_id location_id search_query
                                   price_from price_to sort_by page per_page))
              None
              (AvitoAPI.search_items w category_id location_id search_query
                                     price_from price_to sort_by page per_page)
              s).
Proof.
  intros w s. repeat split; intros; apply make_request_polls.
Qed.

Lemma token_headers_run (s : state) :
  _get_headers s = (Ok (token_headers (access_token (api s))), s).
Proof.
  unfold _get_headers, token_headers, bind, get_api, ret, plain_headers.
  destruct (truthy (access_token (api s))); reflexivity.
Qed.

Lemma get_session_cases :
  forall (s : state),
    (exists session,
        get_session s = (Ok session, snd (get_session s)) /\
        closed session = false /\
        _session (api (snd (get_session s))) = Some session /\
        get_session (snd (get_session s)) = (Ok session, snd (get_session s))) /\
    (forall session,
        _session (api s) = Some session -> closed session = false ->
        get_session s = (Ok session, s)) /\
    ((_session (api s) = None \/
      exists session, _session (api s) = Some session /\ closed session = true) ->
     fst (get_session s)
     = Ok (mkSession (token_headers (access_token (api s))) false)).
Proof.
  intros s.
  assert (Hnew : forall s0,
             new_session s0
             = (Ok (mkSession (token_headers (access_token (api s0))) false),
                mkState (mkApi (base_url (api s0)) (access_token (api s0))
                               (client_id (api s0)) (client_secret (api s0))
                               (token_expires_at (api s0))
                               (Some (mkSession
                                        (token_headers (access_token (api s0)))
                                        false)))
                        (user_items s0) (trace s0))).
  { intros s0. unfold new_session, bind at 1. rewrite token_headers_run.
    reflexivity. }
  split; [|split].
  - destruct (_session (api s)) as [[hs [|]]|] eqn:Hs.
    + assert (E : get_session s = new_session s)
        by (unfold get_session, bind, get_api; now rewrite Hs).
      rewrite E, Hnew. cbn [snd]. eexists.
      repeat (split; [reflexivity|]). now apply get_session_open.
    + rewrite (get_session_open s _ Hs eq_refl). cbn [snd]. eexists.
      split; [reflexivity|]. split; [reflexivity|]. split; [exact Hs|].
      now apply get_session_open.
    + assert (E : get_session s = new_session s)
        by (unfold get_session, bind, get_api; now rewrite Hs).
      rewrite E, Hnew. cbn [snd]. eexists.
      repeat (split; [reflexivity|]). now apply get_session_open.
  - apply get_session_open.
  - intros [Hs | (session & Hs & Hc)];
      unfold get_session, bind at 1, get_api at 1; rewrite Hs;
      rewrite ?Hc, Hnew; reflexivity.
Qed.

(** X8.  [get_session] hands out an open session and keeps it: the next
    call returns the same session and changes nothing.  A session that is
    missing or closed is replaced by a new one whose headers are built from
    the token of that moment: Content-Type and Accept, and Authorization
    exactly when the token is truthy (not [None], not empty). *)
Theorem session_is_reused_until_closed :
  forall (s : state),
    (exists session,
        get_session s = (Ok session, snd (get_session s)) /\
        closed session = false /\
        _session (api (snd (get_session s))) = Some session /\
        get_session (snd (get_session s)) = (Ok session, snd (get_session s))) /\
    (forall session,
        _session (api s) = Some session -> closed session = false ->
        get_session s = (Ok session, s)) /\
    ((_session (api s) = None \/
      exists session, _session (api s) = Some session /\ closed session = true) ->
     fst (get_session s)
     = Ok (mkSession (token_headers (access_token (api s))) false)).
Proof. exact get_session_cases. Qed.

Lemma make_request_on_session (w : World) (method endpoint : string)
      (ps : option params) (data : option json) (retry_count : nat)
      (s : state) :
  retry_count < MAX_RETRIES ->
  _make_request w method endpoint ps data retry_count s
  = _make_request w method endpoint ps data retry_count (snd (get_session s)).
Proof.
  intros Hlt. rewrite (make_request_eq w method endpoint ps data retry_count).
  destruct (Nat.leb_spec MAX_RETRIES retry_count); [lia|].
  destruct (get_session_cases s)
    as ((session & E1 & _ & _ & E2) & _).
  match goal with
  | |- bind get_session ?cont s = _ => generalize cont
  end.
  intros k.
  unfold bind. destruct (get_session s) as [r s1]. cbn [snd] in *.
  injection E1 as ->. now rewrite E2.
Qed.

(** X9.  [close] closes the session if one is open and touches nothing
    else; a second [close] does nothing.  After it, the next call of
    [_make_request] opens a session with the headers of the token stored at
    that moment, and every request of that call carries them: closing the
    session is what makes a renewed token reach the server. *)
Theorem close_makes_next_call_read_token :
  forall (w : World) (method endpoint : string) (ps : option params)
         (data : option json) (retry_count : nat) (s : state),
    let s1 := snd (close s) in
    fst (close s) = Ok tt /\
    close s1 = (Ok tt, s1) /\
    user_items s1 = user_items s /\ trace s1 = trace s /\
    access_token (api s1) = access_token (api s) /\
    token_expires_at (api s1) = token_expires_at (api s) /\
    (forall session, _session (api s1) = Some session -> closed session = true) /\
    exists evs,
      trace (snd (_make_request w method endpoint ps data retry_count s1))
      = (trace s ++ evs)%list /\
      Forall (carries (token_headers (access_token (api s)))) evs.
Proof.
  intros w method endpoint ps data rc s. cbv zeta.
  assert (Hclose : fst (close s) = Ok tt /\
                   close (snd (close s)) = (Ok tt, snd (close s)) /\
                   user_items (snd (close s)) = user_items s /\
                   trace (snd (close s)) = trace s /\
                   access_token (api (snd (close s))) = access_token (api s) /\
                   token_expires_at (api (snd (close s)))
                   = token_expires_at (api s) /\
                   (_session (api (snd (close s))) = None \/
                    exists session,
                      _session (api (snd (close s))) = Some session /\
                      closed session = true)).
  { destruct s as [a u t]. unfold close, bind, get_api, put_api, ret.
    cbn [api user_items trace].
    destruct a as [b tok ci cs ex [[hs [|]]|]]; cbn; repeat split; eauto. }
  destruct Hclose as (H1 & H2 & H3 & H4 & H5 & H6 & H7).
  repeat (split; [assumption|]).
  split.
  { intros session Hs. destruct H7 as [H7 | (session' & H7 & Hc)];
      rewrite H7 in Hs; [discriminate|]. now injection Hs as <-. }
  set (s1 := snd (close s)) in *.
  destruct (Nat.leb_spec MAX_RETRIES rc) as [Hle|Hlt].
  { rewrite make_request_eq.
    destruct (Nat.leb_spec MAX_RETRIES rc); [|lia].
    cbn [raise snd]. exists []. rewrite app_nil_r. split; [auto|constructor]. }
  rewrite (make_request_on_session w method endpoint ps data rc s1 Hlt).
  destruct (get_session_cases s1)
    as ((session & E1 & Hopen & Hs & _) & _ & Hnew).
  specialize (Hnew H7). rewrite E1 in Hnew. cbn [fst] in Hnew.
  injection Hnew as Hnew.
  destruct (get_session_run s1) as (session' & a' & E & _).
  rewrite E1 in E. injection E as _ E.
  destruct (_make_request w method endpoint ps data rc (snd (get_session s1)))
    as [r s'] eqn:Hrun.
  destruct (session_headers_frozen w method endpoint ps data session _ rc _ r s'
              (le_n _) Hs Hopen Hrun) as (_ & evs & Ht & Hall).
  exists evs. cbn [snd]. rewrite Ht, E. cbn [trace]. rewrite H4.
  split; [reflexivity|].
  rewrite Hnew in Hall. cbn [session_headers] in Hall. now rewrite <- H5.
Qed.

(** *** What the handlers say *)

Lemma count_app (p : event -> bool) (a b : list event) :
  count p (a ++ b) = count p a + count p b.
Proof. unfold count. now rewrite filter_app, length_app. Qed.

Lemma count_none (p : event -> bool) (evs : list event) :
  Forall (fun e => p e = false) evs -> count p evs = 0.
Proof.
  unfold count. induction 1 as [|e l He _ IH]; cbn; [reflexivity|].
  now rewrite He.
Qed.

Section Quiet.
Variable p : event -> bool.

Lemma quiet_ret {A} (a : A) : quiet p (ret a).
Proof. intros s. exists []. cbn. now rewrite app_nil_r. Qed.

Lemma quiet_raise {A} (e : pyexn) : quiet p (@raise A e).
Proof. intros s. exists []. cbn. now rewrite app_nil_r. Qed.

Lemma quiet_lift {A} (r : result A) : quiet p (lift r).
Proof. intros s. exists []. cbn. now rewrite app_nil_r. Qed.

Lemma quiet_get_user_items : quiet p get_user_items.
Proof. intros s. exists []. cbn. now rewrite app_nil_r. Qed.

Lemma quiet_put_user_items (u : registry) : quiet p (put_user_items u).
Proof. intros s. exists []. cbn. now rewrite app_nil_r. Qed.

Lemma quiet_emit (e : event) : p e = false -> quiet p (emit e).
Proof. intros H s. exists [e]. cbn. split; [reflexivity|]. now constructor. Qed.

Lemma quiet_bind {A B} (m : M A) (k : A -> M B) :
  quiet p m -> (forall a, quiet p (k a)) -> quiet p (bind m k).
Proof.
  intros Hm Hk s. unfold bind. destruct (Hm s) as (evs & Ht & Hall).
  destruct (m s) as [[a|e] s1]; cbn [snd] in *.
  - destruct (Hk a s1) as (evs' & Ht' & Hall').
    exists (evs ++ evs')%list. rewrite Ht', Ht, app_assoc.
    split; [reflexivity|]. apply Forall_app. auto.
  - exists evs. auto.
Qed.

Lemma quiet_try {A} (c : pyexn -> bool) (body : M A) (h : pyexn -> M A) :
  quiet p body -> (forall e, quiet p (h e)) -> quiet p (try_except c body h).
Proof.
  intros Hm Hh s. unfold try_except. destruct (Hm s) as (evs & Ht & Hall).
  destruct (body s) as [[a|e] s1]; cbn [snd] in *; [exists evs; auto|].
  destruct (c e); [|exists evs; auto].
  destruct (Hh e s1) as (evs' & Ht' & Hall').
  exists (evs ++ evs')%list. rewrite Ht', Ht, app_assoc.
  split; [reflexivity|]. apply Forall_app. auto.
Qed.

Lemma quiet_for_each {A} (l : list A) (body : A -> M unit) :
  (forall a, quiet p (body a)) -> quiet p (for_each l body).
Proof.
  intros Hb. induction l as [|a l IH]; cbn [for_each].
  - apply quiet_ret.
  - apply quiet_bind; auto.
Qed.

Lemma quiet_items_of (user_id : Z) : quiet p (items_of user_id).
Proof.
  unfold items_of. apply quiet_bind; [apply quiet_get_user_items|].
  intros ?. apply quiet_lift.
Qed.

Lemma quiet_del_item (user_id : Z) (item_id : string) :
  quiet p (del_item user_id item_id).
Proof.
  unfold del_item. apply quiet_bind; [apply quiet_items_of|]. intros ?.
  apply quiet_bind; [apply quiet_lift|]. intros ?.
  apply quiet_bind; [apply quiet_get_user_items|]. intros ?.
  apply quiet_put_user_items.
Qed.

Lemma quiet_set_item (user_id : Z) (item_id : string) (price : float) :
  quiet p (set_item user_id item_id price).
Proof.
  unfold set_item. apply quiet_bind; [apply quiet_items_of|]. intros ?.
  apply quiet_bind; [apply quiet_get_user_items|]. intros ?.
  apply quiet_put_user_items.
Qed.

(** [p] selects only what goes to a chat. *)
Hypothesis chat_only :
  forall e, p e = true -> is_reply e = true \/ is_notice e = true.

Lemma quiet_make_request (w : World) (method endpoint : string)
      (ps : option params) (data : option json) (retry_count : nat) :
  quiet p (_make_request w method endpoint ps data retry_count).
Proof.
  intros s.
  destruct (_make_request w method endpoint ps data retry_count s)
    as [r s'] eqn:E.
  destruct (make_request_frame w method endpoint ps data _ retry_count s r s'
              (le_n _) E) as (_ & _ & (evs & Ht & Hall & _) & _).
  exists evs. split; [exact Ht|].
  eapply Forall_impl; [|exact Hall].
  intros e He. destruct (p e) eqn:Hp; [|reflexivity].
  destruct (chat_only e Hp) as [H|H]; destruct e; try discriminate H;
    cbn in He; contradiction.
Qed.

Lemma quiet_log_error (r : log_record) : quiet p (log_error r).
Proof.
  apply quiet_emit. destruct (p (LogError r)) eqn:Hp; [|reflexivity].
  destruct (chat_only _ Hp); discriminate.
Qed.

Lemma quiet_search_entries (w : World) (items : list json) :
  quiet p (search_entries w items).
Proof.
  induction items as [|item r IH]; cbn [search_entries].
  - apply quiet_ret.
  - apply quiet_bind.
    + unfold search_entry.
      repeat (apply quiet_bind; [apply quiet_lift|intros ?]). apply quiet_ret.
    + intros e. apply quiet_bind; [assumption|]. intros es. apply quiet_ret.
Qed.

End Quiet.

Lemma reply_chat_only (e : event) :
  is_reply e = true -> is_reply e = true \/ is_notice e = true.
Proof. auto. Qed.

Lemma notice_chat_only (e : event) :
  is_notice e = true -> is_reply e = true \/ is_notice e = true.
Proof. auto. Qed.

Lemma replies_reply_text (m : message) : replies_when_done (reply_text m).
Proof.
  intros s. exists [ReplyText m]. cbn. repeat split. repeat constructor.
Qed.

Lemma replies_bind {A B} (m : M A) (k : A -> M B) :
  quiet is_reply m -> quiet is_notice m ->
  (forall a, replies_when_done (k a)) ->
  replies_when_done (bind m k).
Proof.
  intros Hr Hn Hk s. unfold bind.
  destruct (Hr s) as (evs & Ht & Hall). destruct (Hn s) as (evs0 & Ht0 & Hall0).
  rewrite Ht in Ht0. apply app_inv_head in Ht0. subst evs0.
  destruct (m s) as [[a|e] s1]; cbn [fst snd] in *.
  - destruct (Hk a s1) as (evs' & Ht' & Hall' & Hc).
    exists (evs ++ evs')%list. rewrite Ht', Ht, app_assoc.
    split; [reflexivity|]. split; [apply Forall_app; auto|].
    now rewrite count_app, (count_none _ _ Hall).
  - exists evs. split; [auto|]. split; [auto|]. now apply count_none.
Qed.

Lemma replies_lift_bind {A B} (r : result A) (k : A -> M B) :
  (forall a, replies_when_done (k a)) -> replies_when_done (bind (lift r) k).
Proof. intros. apply replies_bind; auto using quiet_lift. Qed.

(** A [try] whose body replies last and whose handler logs and replies. *)
Lemma answers_try (body : M unit) (r : pyexn -> log_record) (m : message) :
  replies_when_done body ->
  answers (try_except any_exception body
             (fun e => log_error (r e) ;;; reply_text m)).
Proof.
  intros Hb s. unfold try_except.
  destruct (Hb s) as (evs & Ht & Hall & Hc).
  destruct (body s) as [[[]|e] s1]; cbn [fst snd] in *.
  - split; [reflexivity|]. exists evs. auto.
  - cbn. split; [reflexivity|].
    exists (evs ++ [LogError (r e); ReplyText m])%list.
    rewrite Ht, <- !app_assoc. split; [reflexivity|]. split.
    + apply Forall_app. split; [assumption | repeat constructor].
    + rewrite count_app, Hc. reflexivity.
Qed.

Lemma answers_reply_text (m : message) : answers (reply_text m).
Proof.
  intros s. split; [reflexivity|]. exists [ReplyText m]. cbn.
  repeat split. repeat constructor.
Qed.

Lemma answers_remove_by_number (user_id : Z) (text : string) :
  answers (remove_by_number user_id text).
Proof.
  unfold remove_by_number. apply answers_try.
  apply replies_lift_bind. intros n.
  apply replies_bind; [apply quiet_items_of | apply quiet_items_of |].
  intros items.
  match goal with |- replies_when_done (if ?b then _ else _) => destruct b end;
    [|apply replies_reply_text].
  apply replies_lift_bind. intros entry.
  apply replies_bind; [apply quiet_del_item | apply quiet_del_item |].
  intros _. apply replies_reply_text.
Qed.

Lemma replies_lookup (name : option string) (fetch : string -> M json)
      (k : json -> M unit) :
  (forall c, quiet is_reply (fetch c)) ->
  (forall c, quiet is_notice (fetch c)) ->
  (forall id, replies_when_done (k id)) ->
  replies_when_done
    (bind (match name with
           | Some c =>
               if negb (String.eqb c "") then
                 entries <- fetch c ;;
                 found <- lift (iter entries) ;;
                 lift (first_id found c)
               else ret JNull
           | None => ret JNull
           end) k).
Proof.
  intros Hr Hn Hk.
  assert (Hq : forall q, (forall c, quiet q (fetch c)) ->
                         quiet q (match name with
                                  | Some c =>
                                      if negb (String.eqb c "") then
                                        entries <- fetch c ;;
                                        found <- lift (iter entries) ;;
                                        lift (first_id found c)
                                      else ret JNull
                                  | None => ret JNull
                                  end)).
  { intros q Hf. destruct name as [c|]; [|apply quiet_ret].
    destruct (negb (String.eqb c "")); [|apply quiet_ret].
    apply quiet_bind; [apply Hf|]. intros ?.
    apply quiet_bind; [apply quiet_lift|]. intros ?. apply quiet_lift. }
  apply replies_bind; auto.
Qed.

Lemma answers_search_items (w : World) (query : string)
      (category location : option string) (price_from price_to : option Z) :
  answers (Bot.search_items w query category location price_from price_to).
Proof.
  unfold Bot.search_items. apply answers_try.
  apply (replies_lookup category (fun _ => get_categories w)).
  { intros _. apply quiet_make_request, reply_chat_only. }
  { intros _. apply quiet_make_request, notice_chat_only. }
  intros category_id.
  apply (replies_lookup location (get_locations w)).
  { intros l. apply quiet_make_request, reply_chat_only. }
  { intros l. apply quiet_make_request, notice_chat_only. }
  intros location_id.
  apply replies_bind;
    [apply quiet_make_request, reply_chat_only
    |apply quiet_make_request, notice_chat_only|].
  intros results. apply replies_lift_bind. intros found.
  destruct (negb (truthy found)); [apply replies_reply_text|].
  apply replies_lift_bind. intros first.
  apply replies_bind;
    [apply quiet_search_entries | apply quiet_search_entries |].
  intros entries. apply replies_reply_text.
Qed.

Lemma replies_answers (m : M unit) : answers m -> replies_when_done m.
Proof.
  intros H s. destruct (H s) as (Hr & evs & Ht & Hall & Hc).
  exists evs. rewrite Hr. auto.
Qed.

Lemma answers_search_by_text (w : World) (text : string) :
  answers (search_by_text w text).
Proof.
  unfold search_by_text. apply answers_try.
  apply replies_lift_bind. intros q.
  assert (Hint : forall p l i, quiet p (int_param l i)).
  { intros p l i. unfold int_param. destruct (nth_error l i); [|apply quiet_ret].
    apply quiet_bind; [apply quiet_lift|]. intros ?. apply quiet_ret. }
  apply replies_bind; [apply Hint | apply Hint |]. intros pf.
  apply replies_bind; [apply Hint | apply Hint |]. intros pt.
  apply replies_answers, answers_search_items.
Qed.

Lemma answers_fetch_and_add (w : World) (user_id : Z) (text : string) :
  answers (fetch_and_add w user_id text).
Proof.
  unfold fetch_and_add. apply answers_try.
  apply replies_bind;
    [apply quiet_make_request, reply_chat_only
    |apply quiet_make_request, notice_chat_only|].
  intros item_details.
  destruct (truthy item_details); [|apply replies_reply_text].
  apply replies_lift_bind. intros price.
  apply replies_bind; [apply quiet_set_item | apply quiet_set_item |].
  intros _. apply replies_reply_text.
Qed.

Lemma add_item_with_user (w : World) (user_id : Z) (text : string)
      (s : state) :
  exists items,
    dict_get Z.eqb user_id (user_items (with_user user_id s)) = Some items /\
    add_item w user_id text s
    = (if (MAX_ITEMS_PER_USER <=? List.length items)%nat
       then reply_text (MsgLimit MAX_ITEMS_PER_USER)
       else fetch_and_add w user_id text) (with_user user_id s).
Proof.
  unfold with_user, add_item, items_of, bind, get_user_items, put_user_items,
    lift, ret, dict_mem.
  destruct (dict_get Z.eqb user_id (user_items s)) as [d|] eqn:Hd;
    cbn [negb user_items].
  - rewrite Hd. cbn [or_raise]. exists d. auto.
  - rewrite (dict_get_set_same _ _ _ z_eqb_eq). cbn [or_raise].
    exists []. auto.
Qed.

Lemma answers_add_item (w : World) (user_id : Z) (text : string) :
  answers (add_item w user_id text).
Proof.
  intros s.
  destruct (add_item_with_user w user_id text s) as (items & _ & ->).
  assert (Ht : trace (with_user user_id s) = trace s).
  { unfold with_user. now destruct (dict_mem Z.eqb user_id (user_items s)). }
  rewrite <- Ht.
  destruct (MAX_ITEMS_PER_USER <=? List.length items)%nat;
    [apply answers_reply_text | apply answers_fetch_and_add].
Qed.

Lemma answers_list_items (user_id : Z) : answers (list_items user_id).
Proof.
  intros s. unfold list_items, has_no_items, items_of, bind, get_user_items, lift.
  destruct (dict_get Z.eqb user_id (user_items s)) as [[|e d]|] eqn:Hd;
    rewrite ?Hd; cbn [or_raise]; apply answers_reply_text.
Qed.

Lemma answers_remove_item (user_id : Z) : answers (remove_item user_id).
Proof.
  intros s. unfold remove_item, has_no_items, items_of, bind, get_user_items,
              lift.
  destruct (dict_get Z.eqb user_id (user_items s)) as [[|e d]|] eqn:Hd;
    rewrite ?Hd; cbn [or_raise]; apply answers_reply_text.
Qed.

(** What [handle_message] does with a text, branch by branch. *)
Lemma handle_message_branches (w : World) (user_id : Z) (text : string)
      (s : state) :
  if ignored user_id text (user_items s)
  then handle_message w user_id text s = (Ok tt, s)
  else exists m, answers m /\ handle_message w user_id text s = m s.
Proof.
  unfold ignored, handle_message.
  destruct (isdigit text).
  - unfold bind, get_user_items.
    destruct (has_no_items user_id (user_items s)); cbn [negb];
      [reflexivity|].
    eexists. split; [apply (answers_remove_by_number user_id text)|reflexivity].
  - destruct (contains_char "|" text); cbn [negb andb].
    + eexists. split; [apply (answers_search_by_text w text)|reflexivity].
    + destruct (re_match_digits text); cbn [negb]; [|reflexivity].
      eexists. split; [apply (answers_add_item w user_id text)|reflexivity].
Qed.

(** *** The poll cycle *)

Lemma request_event_cycle (users : list Z) (method url : string)
      (ps : option params) (data : option json) (evs : list event) :
  Forall (request_event method url ps data) evs ->
  Forall (cycle_event users) evs /\ count is_notice evs = 0.
Proof.
  intros H. split.
  - eapply Forall_impl; [|exact H].
    intros [| |z|[]| |] He; cbn in *; auto; contradiction.
  - apply count_none. eapply Forall_impl; [|exact H].
    intros [| |z|[]| |] He; cbn in *; auto; contradiction.
Qed.

(** One pass of the inner loop: between one and [MAX_RETRIES] requests,
    at most one message, and that one to the user of the item. *)
Lemma check_item_effect (w : World) (user_id : Z) (item_id : string)
      (last_price : float) (s : state) :
  exists evs,
    trace (snd (check_item w user_id item_id last_price s))
    = (trace s ++ evs)%list /\
    Forall (cycle_event [user_id]) evs /\
    1 <= attempts evs <= MAX_RETRIES /\
    count is_notice evs <= 1.
Proof.
  destruct (check_item w user_id item_id last_price s) as [r s'] eqn:H.
  cbn [snd].
  unfold check_item, try_except in H. unfold bind at 1 in H.
  pose proof (make_request_polls w "GET" ("/items/" ++ item_id) None None s)
    as (Hu & evs0 & Ht0 & Hall0 & Ha).
  fold (get_item_details w item_id) in Hu, Ht0.
  destruct (get_item_details w item_id s) as [rd s1].
  cbn [snd] in Hu, Ht0.
  destruct (request_event_cycle [user_id] _ _ _ _ _ Hall0) as (Hc0 & Hn0).
  clear Hall0.
  unfold check_failed, check_details, compare_price, del_item, set_item,
    send_message, items_of, dict_del in H.
  unfold_run H.
  repeat first
    [ progress cbn [any_exception or_raise api user_items trace fst snd negb] in H
    | destruct_run H ].
  all: injection H as <- <-; cbn [trace]; rewrite Ht0, <- ?app_assoc.
  all: eexists; (split; [reflexivity|]).
  all: rewrite ?app_nil_r; cbn [app].
  all: split;
    [first [assumption
           |apply Forall_app; split; [assumption|]; repeat constructor] |].
  all: rewrite ?attempts_app, ?count_app, ?Hn0; cbn; split; lia.
Qed.

Lemma check_loop_effect (w : World) (user_id : Z) :
  forall (rest : dict string float) (s : state),
    fst (for_each rest (fun e => check_item w user_id (fst e) (snd e)) s)
    = Ok tt /\
    exists evs,
      trace (snd (for_each rest
                    (fun e => check_item w user_id (fst e) (snd e)) s))
      = (trace s ++ evs)%list /\
      Forall (cycle_event [user_id]) evs /\
      List.length rest <= attempts evs <= MAX_RETRIES * List.length rest /\
      count is_notice evs <= List.length rest.
Proof.
  induction rest as [|[k lp] rest IH]; intros s; cbn [for_each fst snd].
  - split; [reflexivity|]. exists []. rewrite app_nil_r. cbn.
    repeat split; auto.
  - unfold bind.
    destruct (check_item_registry w user_id k lp s) as (Hok & _).
    destruct (check_item_effect w user_id k lp s) as (evs & Ht & Hall & Ha & Hn).
    destruct (check_item w user_id k lp s) as [r s1].
    cbn [fst snd] in *. subst r.
    destruct (IH s1) as (Hok' & evs' & Ht' & Hall' & Ha' & Hn').
    split; [exact Hok'|].
    exists (evs ++ evs')%list. rewrite Ht', Ht, app_assoc.
    split; [reflexivity|]. split; [apply Forall_app; auto|].
    rewrite attempts_app, count_app. cbn [List.length].
    unfold MAX_RETRIES in *. lia.
Qed.

(** A pass over one user leaves the dicts of the other users as they are
    and keeps every user registered. *)
Lemma check_item_other (w : World) (user_id other : Z) (item_id : string)
      (last_price : float) (v : option (dict string float)) :
  other <> user_id ->
  keeps (fun u => dict_get Z.eqb other u = v)
        (check_item w user_id item_id last_price).
Proof.
  intros Hne s H.
  destruct (check_item_registry w user_id item_id last_price s)
    as (_ & [Hu | [(d & _ & _ & Hu) | (d & p & _ & Hu)]]);
    cbv zeta in Hu; rewrite Hu; auto;
    now rewrite (dict_get_set_other _ _ _ z_eqb_eq _ _ _ _ Hne).
Qed.

Lemma check_item_member (w : World) (user_id k : Z) (item_id : string)
      (last_price : float) :
  keeps (fun u => dict_mem Z.eqb k u = true)
        (check_item w user_id item_id last_price).
Proof.
  intros s H.
  destruct (check_item_registry w user_id item_id last_price s)
    as (_ & [Hu | [(d & _ & _ & Hu) | (d & p & _ & Hu)]]);
    cbv zeta in Hu; rewrite Hu; auto; unfold dict_mem in *.
  all: destruct (Z.eq_dec k user_id) as [->|Hne];
    [now rewrite (dict_get_set_same _ _ _ z_eqb_eq)
    |now rewrite (dict_get_set_other _ _ _ z_eqb_eq _ _ _ _ Hne)].
Qed.

Lemma keeps_items_of (P : registry -> Prop) (user_id : Z) :
  keeps P (items_of user_id).
Proof.
  unfold items_of. apply keeps_bind; [apply keeps_get_user_items|].
  intros ?. apply keeps_lift.
Qed.

Lemma check_user_other (w : World) (user_id other : Z)
      (v : option (dict string float)) :
  other <> user_id ->
  keeps (fun u => dict_get Z.eqb other u = v) (check_user w user_id).
Proof.
  intros Hne. unfold check_user. apply keeps_bind; [apply keeps_items_of|].
  intros items. apply keeps_for_each. intros e. now apply check_item_other.
Qed.

Lemma check_user_member (w : World) (user_id k : Z) :
  keeps (fun u => dict_mem Z.eqb k u = true) (check_user w user_id).
Proof.
  unfold check_user. apply keeps_bind; [apply keeps_items_of|].
  intros items. apply keeps_for_each. intros e. apply check_item_member.
Qed.

Lemma check_user_effect (w : World) (user_id : Z) (s : state) :
  dict_mem Z.eqb user_id (user_items s) = true ->
  fst (check_user w user_id s) = Ok tt /\
  exists evs,
    trace (snd (check_user w user_id s)) = (trace s ++ evs)%list /\
    Forall (cycle_event [user_id]) evs /\
    count_of user_id (user_items s) <= attempts evs
    <= MAX_RETRIES * count_of user_id (user_items s) /\
    count is_notice evs <= count_of user_id (user_items s).
Proof.
  unfold dict_mem, count_of, check_user, items_of.
  unfold bind at 1 3. unfold bind at 1 2, get_user_items, lift.
  destruct (dict_get Z.eqb user_id (user_items s)) as [d|]; [|discriminate].
  intros _. cbn [or_raise]. apply check_loop_effect.
Qed.

Lemma cycle_event_mono (users users' : list Z) (e : event) :
  incl users users' -> cycle_event users e -> cycle_event users' e.
Proof. intros H. destruct e; cbn; auto. Qed.

(** The outer loop, over users that are registered and pairwise
    different. *)
Lemma check_users_effect (w : World) :
  forall (users : list Z) (s : state),
    (forall k, In k users -> dict_mem Z.eqb k (user_items s) = true) ->
    fst (for_each users (check_user w) s) = Ok tt /\
    (NoDup users ->
     exists evs,
       trace (snd (for_each users (check_user w) s)) = (trace s ++ evs)%list /\
       Forall (cycle_event users) evs /\
       list_sum (map (fun k => count_of k (user_items s)) users)
       <= attempts evs
       <= MAX_RETRIES
          * list_sum (map (fun k => count_of k (user_items s)) users) /\
       count is_notice evs
       <= list_sum (map (fun k => count_of k (user_items s)) users)).
Proof.
  induction users as [|k users IH]; intros s Hmem; cbn [for_each].
  - split; [reflexivity|]. intros _. exists []. rewrite app_nil_r. cbn.
    repeat split; auto.
  - unfold bind.
    destruct (check_user_effect w k s (Hmem k (or_introl eq_refl)))
      as (Hok & evs & Ht & Hall & Ha & Hn).
    assert (Hmem' : forall k', In k' users ->
                dict_mem Z.eqb k' (user_items (snd (check_user w k s))) = true).
    { intros k' Hk'. apply (check_user_member w k k' s).
      apply Hmem. now right. }
    assert (Hsame : forall k', k' <> k ->
                count_of k' (user_items (snd (check_user w k s)))
                = count_of k' (user_items s)).
    { intros k' Hne. unfold count_of.
      now rewrite (check_user_other w k k' _ Hne s eq_refl). }
    destruct (check_user w k s) as [r s1]. cbn [fst snd] in *. subst r.
    destruct (IH s1 Hmem') as (Hok' & Hrest).
    split; [exact Hok'|]. intros Hnd.
    inversion Hnd as [|? ? Hk Hnd']; subst.
    destruct (Hrest Hnd') as (evs' & Ht' & Hall' & Ha' & Hn').
    assert (Hsum : map (fun k' => count_of k' (user_items s1)) users
                   = map (fun k' => count_of k' (user_items s)) users).
    { apply map_ext_in. intros k' Hk'. apply Hsame. intros ->. contradiction. }
    rewrite Hsum in Ha', Hn'.
    exists (evs ++ evs')%list. rewrite Ht', Ht, app_assoc.
    split; [reflexivity|]. split.
    + apply Forall_app. split.
      * eapply Forall_impl; [|exact Hall]. intros e.
        apply cycle_event_mono. intros x [<-|[]]. now left.
      * eapply Forall_impl; [|exact Hall']. intros e.
        apply cycle_event_mono. intros x Hx. now right.
    + rewrite attempts_app, count_app. cbn [map].
      unfold MAX_RETRIES, list_sum in *. cbn [fold_right]. lia.
Qed.

Lemma tracked_by_user (u : registry) :
  NoDup (dict_keys u) ->
  list_sum (map (fun k => count_of k u) (dict_keys u)) = tracked u.
Proof.
  unfold tracked, dict_keys. rewrite map_map.
  intros Hnd. f_equal. apply map_ext_in. intros [k d] Hin. cbn [fst snd].
  unfold count_of.
  induction u as [|[k' d'] u IH]; [contradiction|].
  cbn [map fst] in Hnd. inversion Hnd as [|? ? Hk Hnd']; subst.
  cbn [dict_get]. destruct Hin as [[= -> ->]|Hin].
  - now rewrite Z.eqb_refl.
  - destruct (Z.eqb_spec k k') as [->|_]; [|now apply IH].
    exfalso. apply Hk. apply in_map_iff. exists (k', d). auto.
Qed.

(** The registry keeps one entry per user under every update. *)
Lemma unique_users_set (user_id : Z) (d : dict string float) (u : registry) :
  unique_users u -> unique_users (dict_set Z.eqb user_id d u).
Proof. apply (dict_set_nodup _ _ _ z_eqb_eq). Qed.

Lemma unique_del_item (user_id : Z) (item_id : string) :
  keeps unique_users (del_item user_id item_id).
Proof.
  unfold del_item. apply keeps_bind; [apply keeps_items_of|]. intros d.
  apply keeps_bind; [apply keeps_lift|]. intros d'.
  intros s H. cbn. now apply unique_users_set.
Qed.

Lemma unique_set_item (user_id : Z) (item_id : string) (price : float) :
  keeps unique_users (set_item user_id item_id price).
Proof.
  unfold set_item. apply keeps_bind; [apply keeps_items_of|]. intros d.
  intros s H. cbn. now apply unique_users_set.
Qed.

Lemma unique_check_prices (w : World) : keeps unique_users (check_prices w).
Proof.
  unfold check_prices. apply keeps_bind; [apply keeps_get_user_items|].
  intros u. apply keeps_for_each. intros user_id.
  unfold check_user. apply keeps_bind; [apply keeps_items_of|].
  intros items. apply keeps_for_each. intros e s H.
  destruct (check_item_registry w user_id (fst e) (snd e) s)
    as (_ & [Hu | [(d & _ & _ & Hu) | (d & p & _ & Hu)]]);
    cbv zeta in Hu; rewrite Hu; auto; now apply unique_users_set.
Qed.

Lemma unique_with_user (user_id : Z) (s : state) :
  unique_users (user_items s) ->
  unique_users (user_items (with_user user_id s)).
Proof.
  unfold with_user. destruct (dict_mem Z.eqb user_id (user_items s)); auto.
  cbn [user_items]. apply unique_users_set.
Qed.

Lemma unique_fetch_and_add (w : World) (user_id : Z) (text : string) :
  keeps unique_users (fetch_and_add w user_id text).
Proof.
  unfold fetch_and_add. apply keeps_try.
  - apply keeps_bind; [apply keeps_make_request|]. intros item_details.
    destruct (truthy item_details); [|apply keeps_emit].
    apply keeps_bind; [apply keeps_lift|]. intros price.
    apply keeps_bind; [apply unique_set_item|]. intros _. apply keeps_emit.
  - intros e. apply keeps_bind; [apply keeps_emit|]. intros _. apply keeps_emit.
Qed.

Lemma unique_handle_message (w : World) (user_id : Z) (text : string) :
  keeps unique_users (handle_message w user_id text).
Proof.
  unfold handle_message.
  destruct (isdigit text).
  { apply keeps_bind; [apply keeps_get_user_items|]. intros u.
    destruct (negb (has_no_items user_id u)); [|apply keeps_ret].
    intros s H.
    destruct (remove_by_number_registry user_id text s)
      as [Hu | (d & k & _ & Hu)]; cbv zeta in Hu; rewrite Hu; auto.
    now apply unique_users_set. }
  destruct (contains_char "|" text); [apply keeps_search_by_text|].
  destruct (re_match_digits text); [|apply keeps_ret].
  intros s H.
  destruct (add_item_with_user w user_id text s) as (items & _ & ->).
  apply (unique_with_user user_id) in H.
  destruct (MAX_ITEMS_PER_USER <=? List.length items)%nat;
    [exact H | now apply unique_fetch_and_add].
Qed.

Lemma unique_dispatch (w : World) (upd : update) :
  keeps unique_users (dispatch w upd).
Proof.
  destruct upd; cbn [dispatch].
  - apply keeps_emit.
  - apply keeps_emit.
  - apply keeps_emit.
  - apply keeps_list_items.
  - apply keeps_remove_item.
  - apply unique_handle_message.
  - apply unique_check_prices.
Qed.

Lemma run_unique_users (w : World) (us : list update) :
  forall s,
    unique_users (user_items s) -> unique_users (user_items (run w us s)).
Proof.
  induction us as [|upd us IH]; intros s H; cbn [run]; [exact H|].
  apply IH. now apply unique_dispatch.
Qed.

Lemma quiet_check_prices (w : World) : quiet is_reply (check_prices w).
Proof.
  unfold check_prices.
  apply quiet_bind; [apply quiet_get_user_items|]. intros u.
  apply quiet_for_each. intros user_id. unfold check_user.
  apply quiet_bind; [apply quiet_items_of|]. intros items.
  apply quiet_for_each. intros e. unfold check_item. apply quiet_try.
  - apply quiet_bind; [apply quiet_make_request, reply_chat_only|].
    intros item_details. unfold check_details.
    destruct (negb (truthy item_details)).
    + apply quiet_bind; [apply quiet_del_item|]. intros _.
      now apply quiet_emit.
    + apply quiet_bind; [apply quiet_lift|]. intros current_price.
      unfold compare_price.
      destruct (negb _); [|apply quiet_ret].
      apply quiet_bind; [apply quiet_lift|]. intros q. cbv zeta.
      match goal with |- quiet _ (if ?b then _ else _) => destruct b end;
        [|apply quiet_ret].
      apply quiet_bind; [apply quiet_lift|]. intros title.
      apply quiet_bind; [now apply quiet_emit|]. intros _.
      apply quiet_set_item.
  - intros x. now apply quiet_emit.
Qed.


(** X11.  Every command is answered by exactly one reply, and so is every
    text message that [handle_message] does not ignore; an ignored text (a
    number from a user without items, or a text that is no number, has no
    "|" and is no item id) changes nothing at all.  None of them sends a
    message to another chat.  A poll cycle replies to nobody. *)
Theorem one_reply_per_update :
  forall (w : World) (upd : update) (s : state),
    (exists evs,
        trace (snd (dispatch w upd s)) = (trace s ++ evs)%list /\
        count is_reply evs = expected_replies upd (user_items s) /\
        (upd <> Job -> count is_notice evs = 0)) /\
    (forall user_id text,
        upd = Text user_id text ->
        ignored user_id text (user_items s) = true ->
        dispatch w upd s = (Ok tt, s)).
Proof.
  intros w upd s.
  assert (Hans : forall m : M unit,
             answers m ->
             exists evs,
               trace (snd (m s)) = (trace s ++ evs)%list /\
               count is_reply evs = 1 /\ count is_notice evs = 0).
  { intros m Hm. destruct (Hm s) as (_ & evs & Ht & Hall & Hc).
    exists evs. split; [exact Ht|]. split; [exact Hc|]. now apply count_none. }
  split.
  - destruct upd as [| | |user_id|user_id|user_id text|];
      cbn [dispatch expected_replies].
    + destruct (Hans _ (answers_reply_text MsgStart)) as (evs & ? & ? & ?).
      exists evs. auto.
    + destruct (Hans _ (answers_reply_text MsgHelp)) as (evs & ? & ? & ?).
      exists evs. auto.
    + destruct (Hans _ (answers_reply_text MsgSearchHelp)) as (evs & ? & ? & ?).
      exists evs. auto.
    + destruct (Hans _ (answers_list_items user_id)) as (evs & ? & ? & ?).
      exists evs. auto.
    + destruct (Hans _ (answers_remove_item user_id)) as (evs & ? & ? & ?).
      exists evs. auto.
    + pose proof (handle_message_branches w user_id text s) as H.
      destruct (ignored user_id text (user_items s)).
      * rewrite H. exists []. cbn. rewrite app_nil_r. auto.
      * destruct H as (m & Hm & ->).
        destruct (Hans _ Hm) as (evs & ? & ? & ?). exists evs. auto.
    + destruct (quiet_check_prices w s) as (evs & Ht & Hall).
      exists evs. split; [exact Ht|]. split; [now apply count_none|].
      congruence.
  - intros user_id text -> Hign. cbn [dispatch].
    pose proof (handle_message_branches w user_id text s) as H.
    now rewrite Hign in H.
Qed.


(** X13.  In every state the application reaches from its start, the
    messages a poll cycle sends go to users of the registry only, and
    there are at most as many of them as there are tracked items: one
    item gives at most one message per cycle, to the user who tracks it. *)
Theorem poll_cycle_notifies_trackers :
  forall (w : World) (env_access_token env_client_id env_client_secret : json)
         (us : list update),
    let s := run w us (initial env_access_token env_client_id env_client_secret) in
    exists evs,
      trace (snd (check_prices w s)) = (trace s ++ evs)%list /\
      Forall (cycle_event (dict_keys (user_items s))) evs /\
      count is_notice evs <= tracked (user_items s).
Proof.
  intros w e1 e2 e3 us s.
  assert (Hnd : unique_users (user_items s)).
  { apply run_unique_users. constructor. }
  unfold check_prices, bind, get_user_items.
  destruct (check_users_effect w (dict_keys (user_items s)) s) as (_ & H).
  { intros k. apply (dict_mem_keys _ _ _ z_eqb_eq). }
  destruct (H Hnd) as (evs & Ht & Hall & _ & Hn).
  rewrite (tracked_by_user _ Hnd) in Hn.
  exists evs. auto.
Qed.

(** *** Price changes and removals *)

(** X14.  A change of at least [PRICE_CHANGE_THRESHOLD] percent of the
    stored price, upwards or downwards, is announced and stored: the user
    of the item gets one message with the direction ("increased" exactly
    when the new price is above the stored one), the absolute change, the
    stored and the new price and the title of the detail (or its default),
    and the new price replaces the stored one.  The other items of the
    user keep their prices. *)
Theorem price_change_is_announced_and_stored :
  forall (w : World) (user_id : Z) (item_id : string)
         (last_price current_price q : float) (s s1 : state)
         (item_details title : json),
    stored_price user_id item_id s = Some last_price ->
    get_item_details w item_id s = (Ok item_details, s1) ->
    truthy item_details = true ->
    price_of w item_details = Ok current_price ->
    (current_price =? last_price)%float = false ->
    float_div (current_price - last_price) last_price = Ok q ->
    (float_of_Z PRICE_CHANGE_THRESHOLD <=? abs (q * float_of_Z 100))%float
    = true ->
    json_get item_details "title" (JStr "Не указано") = Ok title ->
    exists s2,
      check_item w user_id item_id last_price s = (Ok tt, s2) /\
      trace s2
      = (trace s1
         ++ [SendMessage user_id
               (MsgPriceChanged item_id title
                  (if (last_price <? current_price)%float
                   then Increased else Decreased)
                  (abs (q * float_of_Z 100)) last_price current_price)])%list /\
      stored_price user_id item_id s2 = Some current_price /\
      forall other,
        other <> item_id ->
        stored_price user_id other s2 = stored_price user_id other s.
Proof.
  intros w user_id item_id last cur q s s1 details title
         Hstored Hfetch Htruthy Hprice Hne Hq Habove Htitle.
  destruct (get_item_details_frame w item_id s s1 _ Hfetch) as (Hu & _).
  rewrite (check_item_fetched w user_id item_id last s s1 details Hfetch).
  unfold try_except, check_details, compare_price, bind, lift.
  rewrite Htruthy, Hprice, Hne. cbn [negb]. rewrite Hq, Habove, Htitle.
  unfold send_message, set_item, items_of, bind, emit, get_user_items,
    put_user_items, lift.
  cbn [user_items api trace]. rewrite Hu.
  unfold stored_price in *.
  destruct (dict_get Z.eqb user_id (user_items s)) as [d|] eqn:Hd;
    [|discriminate].
  cbn [or_raise]. eexists. split; [reflexivity|].
  split; [reflexivity|]. cbn [user_items].
  rewrite (dict_get_set_same _ _ _ z_eqb_eq). split.
  - apply (dict_get_set_same _ _ _ string_eqb_eq).
  - intros other Hother.
    apply (dict_get_set_other _ _ _ string_eqb_eq _ _ _ _ Hother).
Qed.

(** X15.  A number sent by a user who tracks items is a position in the
    list that /remove shows, counted from 1.  When [int] reads the text as
    [n] and the list has an [n]-th entry, that entry is deleted and named
    in the reply, and the dicts of the other users stay; when [n] is 0 or
    beyond the list, the reply is "wrong number" and nothing changes.  A
    text that [isdigit] accepts and [int] refuses (a superscript digit) is
    answered with the error message, the [ValueError] being logged. *)
Theorem number_removes_listed_position :
  forall (w : World) (user_id : Z) (text : string) (s : state)
         (items : dict string float),
    isdigit text = true ->
    dict_get Z.eqb user_id (user_items s) = Some items ->
    items <> [] ->
    remove_item user_id s
    = (Ok tt, add_event (ReplyText (MsgChooseRemoval items)) s) /\
    (forall n item_id price,
        py_int text = Some n -> (1 <= n)%Z ->
        nth_error items (Z.to_nat (n - 1)) = Some (item_id, price) ->
        handle_message w user_id text s
        = (Ok tt,
           mkState (api s)
                   (dict_set Z.eqb user_id
                             (dict_remove String.eqb item_id items)
                             (user_items s))
                   (trace s ++ [ReplyText (MsgRemoved item_id)])%list)) /\
    (forall n,
        py_int text = Some n ->
        (n < 1 \/ Z.of_nat (List.length items) < n)%Z ->
        handle_message w user_id text s
        = (Ok tt, add_event (ReplyText MsgBadIndex) s)) /\
    (py_int text = None ->
     handle_message w user_id text s
     = (Ok tt, add_event (ReplyText MsgRemoveError)
                 (add_event (LogError (LogRemoveError ValueError)) s))).
Proof.
  intros w user_id text s items Hdig Hitems Hne.
  assert (Hhas : has_no_items user_id (user_items s) = false).
  { unfold has_no_items. rewrite Hitems. destruct items; congruence. }
  destruct (digits_are_intercepted w user_id text s Hdig) as (_ & ->).
  rewrite Hhas. split; [|split; [|split]].
  - unfold remove_item, items_of, reply_text, bind, get_user_items, emit, lift.
    rewrite Hhas, Hitems. reflexivity.
  - intros n item_id price Hn Hpos Hnth.
    assert (Hlt : Z.to_nat (n - 1) < List.length items)
      by (apply nth_error_Some; congruence).
    unfold remove_by_number, try_except, del_item, items_of, reply_text, bind,
      get_user_items, put_user_items, emit, lift.
    rewrite Hn, Hitems. cbn [or_raise].
    replace ((0 <=? n - 1)%Z) with true by lia.
    replace ((n - 1 <? Z.of_nat (List.length items))%Z) with true by lia.
    cbn [andb]. rewrite Hnth. cbn [or_raise fst]. rewrite Hitems.
    cbn [or_raise]. unfold dict_del.
    assert (Hmem : dict_mem String.eqb item_id items = true).
    { apply (dict_mem_keys _ _ _ string_eqb_eq). unfold dict_keys.
      apply in_map_iff. exists (item_id, price). split; [reflexivity|].
      eapply nth_error_In. exact Hnth. }
    rewrite Hmem. reflexivity.
  - intros n Hn Hout.
    unfold remove_by_number, try_except, items_of, reply_text, bind,
      get_user_items, emit, lift.
    rewrite Hn, Hitems. cbn [or_raise].
    replace ((0 <=? n - 1)%Z && (n - 1 <? Z.of_nat (List.length items))%Z)
      with false by lia.
    reflexivity.
  - intros Hn.
    unfold remove_by_number, try_except, log_error, reply_text, bind, emit, lift.
    rewrite Hn. reflexivity.
Qed.

(** *** Search by text *)

Lemma split_without_separator (sep : ascii) (f : string) :
  contains_char sep f = false -> split sep f = [f].
Proof.
  induction f as [|c r IH]; cbn [contains_char split]; [reflexivity|].
  intros H. apply orb_false_iff in H as [Hc Hr].
  rewrite Hc, (IH Hr). reflexivity.
Qed.

Lemma split_at_separator (sep : ascii) (f rest : string) :
  contains_char sep f = false ->
  split sep (f ++ String sep rest) = f :: split sep rest.
Proof.
  induction f as [|c r IH]; cbn [contains_char split String.append].
  - intros _. now rewrite Ascii.eqb_refl.
  - intros H. apply orb_false_iff in H as [Hc Hr].
    rewrite Hc, (IH Hr). reflexivity.
Qed.

Lemma split_join_bar (fields : list string) :
  fields <> [] ->
  Forall (fun f => contains_char "|" f = false) fields ->
  split "|" (join_bar fields) = fields.
Proof.
  induction fields as [|f r IH]; [congruence|].
  intros _ Hall. inversion Hall as [|? ? Hf Hr]; subst.
  destruct r as [|g r]; cbn [join_bar].
  - now apply split_without_separator.
  - rewrite (split_at_separator _ _ _ Hf). f_equal.
    apply IH; [discriminate | assumption].
Qed.

Lemma contains_char_append (x : ascii) (a b : string) :
  contains_char x (a ++ b) = contains_char x a || contains_char x b.
Proof.
  induction a as [|c r IH]; cbn [contains_char String.append]; [reflexivity|].
  now rewrite IH, orb_assoc.
Qed.

Lemma join_bar_contains (fields : list string) :
  2 <= List.length fields -> contains_char "|" (join_bar fields) = true.
Proof.
  destruct fields as [|f [|g r]]; cbn [List.length]; try lia.
  intros _. cbn [join_bar]. rewrite contains_char_append.
  cbn [contains_char]. rewrite Ascii.eqb_refl. apply orb_true_r.
Qed.

Lemma bar_is_no_digit (text : string) :
  contains_char "|" text = true -> isdigit text = false.
Proof.
  intros H.
  assert (Hall : all_chars is_digit_char text = false).
  { induction text as [|c r IH]; cbn [contains_char all_chars] in *;
      [discriminate|].
    destruct (Ascii.eqb_spec c "|") as [->|_]; [reflexivity|].
    rewrite (IH H). apply andb_false_r. }
  destruct text; [reflexivity | exact Hall].
Qed.

Lemma try_returns {A} (c : pyexn -> bool) (body : M A) (h : pyexn -> M A)
      (s : state) (a : A) :
  fst (body s) = Ok a -> try_except c body h s = body s.
Proof.
  unfold try_except. destruct (body s) as [[a'|e] s1]; cbn [fst];
    [reflexivity | discriminate].
Qed.

(** X16.  The search format of /search is read as documented.  A text
    made of two or more fields separated by "|" goes to the search branch;
    the fields are stripped of surrounding blanks; the first is the query,
    the second and third the names of the category and of the location,
    the fourth and fifth the price bounds, read by [int]; fields beyond the
    fifth are not looked at.  When a price field is present and is no
    integer (an empty one too), the answer is the format error, the
    [ValueError] is logged and no request is made. *)
Theorem search_text_is_split_into_fields :
  forall (w : World) (user_id : Z) (fields : list string) (s : state),
    2 <= List.length fields ->
    Forall (fun f => contains_char "|" f = false) fields ->
    let text := join_bar fields in
    let field i := option_map strip (nth_error fields i) in
    handle_message w user_id text s = search_by_text w text s /\
    (forall price_from price_to,
        price_field fields 3 = Some price_from ->
        price_field fields 4 = Some price_to ->
        search_by_text w text s
        = Bot.search_items w (strip (hd "" fields)) (field 1) (field 2)
                           price_from price_to s) /\
    (price_field fields 3 = None \/
     (price_field fields 3 <> None /\ price_field fields 4 = None) ->
     search_by_text w text s
     = (Ok tt, add_event (ReplyText MsgSearchFormatError)
                 (add_event (LogError (LogSearchQueryError ValueError)) s))).
Proof.
  intros w user_id fields s Hlen Hall. cbv zeta.
  assert (Hne : fields <> []) by (destruct fields; cbn in *; [lia|discriminate]).
  pose proof (join_bar_contains fields Hlen) as Hbar.
  assert (H0 : nth_error (map strip fields) 0 = Some (strip (hd "" fields)))
    by (destruct fields; [congruence|reflexivity]).
  pose proof (nth_error_map strip 1 fields) as H1.
  pose proof (nth_error_map strip 2 fields) as H2.
  pose proof (nth_error_map strip 3 fields) as H3.
  pose proof (nth_error_map strip 4 fields) as H4.
  unfold price_field, search_by_text.
  rewrite (split_join_bar fields Hne Hall).
  split; [|split].
  - unfold handle_message. rewrite (bar_is_no_digit _ Hbar), Hbar.
    unfold search_by_text. now rewrite (split_join_bar fields Hne Hall).
  - intros pf pt Hpf Hpt.
    assert (Hbody :
              (search_query <- lift (or_raise IndexError
                                       (nth_error (map strip fields) 0)) ;;
               price_from <- int_param (map strip fields) 3 ;;
               price_to <- int_param (map strip fields) 4 ;;
               Bot.search_items w search_query
                 (nth_error (map strip fields) 1)
                 (nth_error (map strip fields) 2) price_from price_to) s
              = Bot.search_items w (strip (hd "" fields))
                  (option_map strip (nth_error fields 1))
                  (option_map strip (nth_error fields 2)) pf pt s).
    { unfold int_param. rewrite H0, H1, H2, H3, H4.
      destruct (nth_error fields 3) as [f3|]; cbn [option_map] in *.
      - destruct (py_int (strip f3)) as [z3|]; [|discriminate].
        injection Hpf as <-.
        destruct (nth_error fields 4) as [f4|]; cbn [option_map] in *.
        + destruct (py_int (strip f4)) as [z4|]; [|discriminate].
          injection Hpt as <-. reflexivity.
        + injection Hpt as <-. reflexivity.
      - injection Hpf as <-.
        destruct (nth_error fields 4) as [f4|]; cbn [option_map] in *.
        + destruct (py_int (strip f4)) as [z4|]; [|discriminate].
          injection Hpt as <-. reflexivity.
        + injection Hpt as <-. reflexivity. }
    cbv zeta. rewrite try_returns with (a := tt); rewrite Hbody;
      [reflexivity | apply answers_search_items].
  - intros Hbad.
    unfold try_except, int_param, bind, lift, ret, log_error, reply_text, emit,
      add_event.
    rewrite H0, H3, H4. cbn [or_raise].
    destruct (nth_error fields 3) as [f3|]; cbn [option_map] in *.
    + destruct (py_int (strip f3)) as [z3|]; cbn [or_raise option_map] in *.
      * destruct Hbad as [Hbad | [_ Hbad]]; [discriminate|].
        destruct (nth_error fields 4) as [f4|]; cbn [option_map] in *;
          [|discriminate].
        destruct (py_int (strip f4)); [discriminate|]. reflexivity.
      * reflexivity.
    + destruct Hbad as [Hbad | [_ Hbad]]; [discriminate|].
      destruct (nth_error fields 4) as [f4|]; cbn [option_map] in *;
        [|discriminate].
      destruct (py_int (strip f4)); [discriminate|]. reflexivity.
Qed.

(** *** The search handler *)

Lemma try_bind_run {A B} (c : pyexn -> bool) (m m' : M A) (k : A -> M B)
      (h : pyexn -> M B) (s s1 : state) (a : A) :
  m s = (Ok a, s1) -> m' s1 = (Ok a, s1) ->
  try_except c (bind m k) h s = try_except c (bind m' k) h s1.
Proof. intros H H'. unfold try_except, bind. now rewrite H, H'. Qed.

Lemma first_id_unmatched (name : string) (entries : list json) :
  Forall (named_otherwise name) entries -> first_id entries name = Ok JNull.
Proof.
  induction 1 as [|e r (n & Hn & Hne) _ IH]; cbn [first_id]; [reflexivity|].
  rewrite Hn. cbn [lower_of].
  destruct (String.eqb_spec (lower n) (lower name)); [contradiction|exact IH].
Qed.

Lemma first_id_matched (name n : string) (before after : list json)
      (e : json) :
  Forall (named_otherwise name) before ->
  subscript e "name" = Ok (JStr n) -> lower n = lower name ->
  first_id (before ++ e :: after) name = subscript e "id".
Proof.
  intros Hb Hn Heq.
  induction Hb as [|e' r (n' & Hn' & Hne) _ IH]; cbn [first_id app].
  - rewrite Hn. cbn [lower_of]. now rewrite Heq, String.eqb_refl.
  - rewrite Hn'. cbn [lower_of].
    destruct (String.eqb_spec (lower n') (lower name)); [contradiction|exact IH].
Qed.

Lemma category_lookup_run (w : World) (category : string) (s s1 : state)
      (entries : list json) (id : json) :
  category <> "" ->
  get_categories w s = (Ok (JArr entries), s1) ->
  first_id entries category = Ok id ->
  (if negb (String.eqb category "") then
     categories <- get_categories w ;;
     found <- lift (iter categories) ;;
     lift (first_id found category)
   else ret JNull) s
  = (Ok id, s1).
Proof.
  intros Hne Hcat Hid.
  destruct (String.eqb_spec category ""); [contradiction|]. cbn [negb].
  unfold bind at 1. rewrite Hcat. unfold bind, lift. cbn [iter].
  now rewrite Hid.
Qed.

Lemma extends_after {A B} (c : pyexn -> bool) (m : M A) (k : A -> M B)
      (h : pyexn -> M B) (s : state) :
  (forall a, quiet (fun _ => false) (k a)) ->
  (forall e, quiet (fun _ => false) (h e)) ->
  exists evs,
    trace (snd (try_except c (bind m k) h s)) = (trace (snd (m s)) ++ evs)%list.
Proof.
  intros Hk Hh. unfold try_except, bind.
  destruct (m s) as [[a|e] s2]; cbn [snd].
  - destruct (Hk a s2) as (evs & Ht & _).
    destruct (k a s2) as [[b|e] s3]; cbn [snd] in *.
    + exists evs. exact Ht.
    + destruct (c e).
      * destruct (Hh e s3) as (evs' & Ht' & _).
        exists (evs ++ evs')%list. now rewrite Ht', Ht, app_assoc.
      * exists evs. exact Ht.
  - destruct (c e).
    + destruct (Hh e s2) as (evs' & Ht' & _). exists evs'. exact Ht'.
    + exists []. now rewrite app_nil_r.
Qed.

(** X17.  The category of a search is looked up by name among the
    categories the server lists, letter case apart.  A name that matches
    none of them does not fail the search: it runs as a search without
    category.  Otherwise the first entry that matches gives its ['id'] to
    the search request. *)
Theorem category_is_matched_by_name :
  forall (w : World) (query category : string) (price_from price_to : option Z)
         (s s1 : state) (entries : list json),
    category <> "" ->
    get_categories w s = (Ok (JArr entries), s1) ->
    (forall location,
        Forall (named_otherwise category) entries ->
        Bot.search_items w query (Some category) location price_from price_to s
        = Bot.search_items w query None location price_from price_to s1) /\
    (forall before e after n id,
        entries = (before ++ e :: after)%list ->
        Forall (named_otherwise category) before ->
        subscript e "name" = Ok (JStr n) -> lower n = lower category ->
        subscript e "id" = Ok id ->
        exists hs rest,
          trace (snd (Bot.search_items w query (Some category) None
                                       price_from price_to s))
          = (trace s1
             ++ HttpRequest "GET" (base_url (api s) ++ "/items")
                  (Some (search_params id JNull (Some query)
                           price_from price_to
                           default_sort_by default_page default_per_page))
                  None hs
             :: rest)%list).
Proof.
  intros w query category pf pt s s1 entries Hne Hcat. split.
  - intros location Hall. unfold Bot.search_items.
    apply try_bind_run with (a := JNull); [|reflexivity].
    apply (category_lookup_run w category s s1 entries JNull Hne Hcat).
    now apply first_id_unmatched.
  - intros before e after n id -> Hb Hn Heq Hid.
    unfold Bot.search_items.
    rewrite try_bind_run with (a := id) (s1 := s1) (m' := lift (Ok id)).
    2: { apply (category_lookup_run w category s s1 _ id Hne Hcat).
         now rewrite (first_id_matched category n before after e Hb Hn Heq). }
    2: reflexivity.
    assert (Hb1 : base_url (api s1) = base_url (api s)).
    { unfold get_categories in Hcat.
      now destruct (make_request_frame w _ _ _ _ _ 0 s _ _ (le_n _) Hcat)
        as (_ & ? & _). }
    match goal with
    | |- context [try_except ?c (bind (lift (Ok id)) ?k) ?h s1] =>
        change (try_except c (bind (lift (Ok id)) k) h s1)
          with (try_except c (k id) h s1)
    end.
    cbv beta.
    match goal with
    | |- context [try_except ?c (bind (ret JNull) ?k) ?h s1] =>
        change (try_except c (bind (ret JNull) k) h s1)
          with (try_except c (k JNull) h s1)
    end.
    cbv beta.
    match goal with
    | |- context [try_except ?c (bind ?m ?k) ?h s1] =>
        destruct (extends_after c m k h s1) as (evs & ->)
    end.
    + intros results. apply quiet_bind; [apply quiet_lift|]. intros found.
      destruct (negb (truthy found)); [now apply quiet_emit|].
      apply quiet_bind; [apply quiet_lift|]. intros first.
      apply quiet_bind; [apply quiet_search_entries|]. intros es.
      now apply quiet_emit.
    + intros x. apply quiet_bind; [now apply quiet_emit|]. intros _.
      now apply quiet_emit.
    + unfold AvitoAPI.search_items.
      match goal with
      | |- context [snd ?run] => destruct run as [r s2] eqn:E
      end.
      destruct (make_request_frame w _ _ _ _ _ 0 s1 r s2 (le_n _) E)
        as (_ & _ & (evs0 & Ht & _ & _ & Hfirst) & _).
      destruct (Hfirst ltac:(unfold MAX_RETRIES; lia)) as (hs & rest & ->).
      cbn [snd]. rewrite Ht, Hb1, <- app_assoc. cbn [app].
      eexists _, _. reflexivity.
Qed.

Lemma search_entries_run (w : World) (items : list json)
      (entries : list (json * float * json * json)) (s : state) :
  Forall2 (fun item e => forall s', search_entry w item s' = (Ok e, s'))
          items entries ->
  search_entries w items s = (Ok entries, s).
Proof.
  induction 1 as [|item e items entries He _ IH]; cbn [search_entries];
    [reflexivity|].
  unfold bind at 1. rewrite He. unfold bind at 1. rewrite IH. reflexivity.
Qed.

(** X18.  What the reply to a search shows.  When the answer of the server
    has no ['items'], or an empty list, the reply is "nothing found".
    Otherwise the reply lists the first five entries of ['items'], in
    their order, and no more; the entries after the fifth are not read. *)
Theorem search_reply_shows_first_five :
  forall (w : World) (query : string) (price_from price_to : option Z)
         (s s1 : state) (results found : json),
    AvitoAPI.search_items w JNull JNull (Some query) price_from price_to
                          default_sort_by default_page default_per_page s
    = (Ok results, s1) ->
    json_get results "items" JNull = Ok found ->
    (truthy found = false ->
     Bot.search_items w query None None price_from price_to s
     = (Ok tt, add_event (ReplyText MsgNothingFound) s1)) /\
    (forall l entries,
        found = JArr l -> l <> [] ->
        Forall2 (fun item e => forall s', search_entry w item s' = (Ok e, s'))
                (firstn 5 l) entries ->
        Bot.search_items w query None None price_from price_to s
        = (Ok tt, add_event (ReplyText (MsgSearchResults entries)) s1) /\
        List.length entries = Nat.min 5 (List.length l)).
Proof.
  intros w query pf pt s s1 results found Hsearch Hfound.
  assert (Hrun : forall tail : json -> M unit,
             try_except any_exception
               (category_id <- ret JNull ;;
                location_id <- ret JNull ;;
                results <- AvitoAPI.search_items w category_id location_id
                             (Some query) pf pt
                             default_sort_by default_page default_per_page ;;
                found <- lift (json_get results "items" JNull) ;;
                tail found)
               (fun e => log_error (LogSearchError e) ;;;
                         reply_text MsgSearchError) s
             = try_except any_exception (tail found)
                 (fun e => log_error (LogSearchError e) ;;;
                           reply_text MsgSearchError) s1).
  { intros tail. unfold try_except, bind, ret, lift.
    rewrite Hsearch, Hfound. reflexivity. }
  split.
  - intros Hfalsy. unfold Bot.search_items. rewrite Hrun, Hfalsy. reflexivity.
  - intros l entries -> Hne Hall. split.
    + unfold Bot.search_items. rewrite Hrun.
      assert (Htruthy : truthy (JArr l) = true) by (destruct l; cbn; congruence).
      rewrite Htruthy. cbn [negb slice5].
      unfold try_except, bind, lift.
      rewrite (search_entries_run w _ entries s1 Hall). reflexivity.
    + rewrite <- (Forall2_length Hall). apply length_firstn.
Qed.

(** *** Adding an item *)

(** X19.  An add that does not find a price stores nothing.  For a text
    that reaches the add branch and a user below the limit: when the
    request for the detail raises (exhausted retries, an API error, ...)
    or the price of the detail cannot be read as a float, the exception
    is logged and the reply is the error message; when the detail is
    empty, the reply is "not found".  In each case every price stored for
    the user is what it was. *)
Theorem failed_add_stores_nothing :
  forall (w : World) (user_id : Z) (text : string) (s s1 : state)
         (r : result json),
    reaches_add text = true ->
    count_of user_id (user_items s) < MAX_ITEMS_PER_USER ->
    get_item_details w text (with_user user_id s) = (r, s1) ->
    let failed e :=
      add_event (ReplyText MsgAddError)
                (add_event (LogError (LogAddError e)) s1) in
    (forall e,
        r = Raise e -> handle_message w user_id text s = (Ok tt, failed e)) /\
    (forall item_details,
        r = Ok item_details -> truthy item_details = false ->
        handle_message w user_id text s
        = (Ok tt, add_event (ReplyText MsgNotFound) s1)) /\
    (forall item_details e,
        r = Ok item_details -> truthy item_details = true ->
        price_of w item_details = Raise e ->
        handle_message w user_id text s = (Ok tt, failed e)) /\
    (forall item_id,
        stored_price user_id item_id s1 = stored_price user_id item_id s).
Proof.
  intros w user_id text s s1 r Hadd Hlt Hfetch. cbv zeta.
  rewrite (handle_message_add w user_id text Hadd).
  destruct (add_item_below_capacity w user_id text s Hlt) as (d & Hd & _ & ->).
  destruct (get_item_details_frame w text _ s1 _ Hfetch) as (Hu & _).
  unfold fetch_and_add, try_except.
  split; [|split; [|split]].
  - intros e ->. unfold bind at 1. rewrite Hfetch. reflexivity.
  - intros details -> Hfalsy. unfold bind at 1. rewrite Hfetch, Hfalsy.
    reflexivity.
  - intros details e -> Htruthy Hprice. unfold bind at 1.
    rewrite Hfetch, Htruthy.
    unfold bind at 1, lift at 1. rewrite Hprice. reflexivity.
  - intros item_id.
    rewrite (stored_price_frame user_id item_id _ s1 Hu).
    apply stored_price_with_user.
Qed.

Lemma digits_then_end_shape (text : string) :
  digits_then_end text = true ->
  all_chars is_decimal_char text = true \/
  exists digits,
    all_chars is_decimal_char digits = true /\
    text = digits ++ String newline "".
Proof.
  induction text as [|c r IH]; cbn [digits_then_end all_chars]; [auto|].
  destruct (is_decimal_char c) eqn:Hc.
  - intros H. destruct (IH H) as [Hall | (d & Hd & ->)]; [now left|].
    right. exists (String c d). cbn [all_chars String.append].
    now rewrite Hc, Hd.
  - intros H. apply andb_true_iff in H as [Hnl He].
    apply Ascii.eqb_eq in Hnl. apply String.eqb_eq in He. subst.
    right. exists "". split; reflexivity.
Qed.

Lemma digits_newline_shape (digits : string) :
  all_chars is_decimal_char digits = true ->
  all_chars is_digit_char (digits ++ String newline "") = false /\
  contains_char "|" (digits ++ String newline "") = false /\
  digits_then_end (digits ++ String newline "") = true.
Proof.
  induction digits as [|c r IH];
    cbn [all_chars contains_char digits_then_end String.append].
  - intros _. repeat split; reflexivity.
  - intros H. apply andb_true_iff in H as [Hc Hr].
    destruct (IH Hr) as (H1 & H2 & H3). rewrite H1, H2, H3, Hc.
    split; [apply andb_false_r|]. split; [|reflexivity].
    destruct (Ascii.eqb_spec c "|") as [->|_]; [discriminate Hc|reflexivity].
Qed.

(** X20.  The texts that [handle_message] takes to the branch that adds an
    item are exactly the non-empty runs of decimal digits followed by one
    newline: the test [isdigit] of the first branch, which ends in
    [return], takes every text of digits alone.  A text that does not
    reach the branch adds nothing: no user tracks more items after it. *)
Theorem add_branch_needs_trailing_newline :
  forall (text : string),
    (reaches_add text = true <->
     exists digits,
       digits <> "" /\ all_chars is_decimal_char digits = true /\
       text = digits ++ String newline "") /\
    (forall w user_id,
        reaches_add text = true ->
        handle_message w user_id text = add_item w user_id text) /\
    (forall w user_id s user,
        reaches_add text = false -> well_formed (user_items s) ->
        count_of user (user_items (snd (handle_message w user_id text s)))
        <= count_of user (user_items s)).
Proof.
  intros text. split; [split|split].
  - unfold reaches_add. intros H.
    apply andb_true_iff in H as [H Hre]. apply andb_true_iff in H as [Hd _].
    apply negb_true_iff in Hd.
    unfold re_match_digits in Hre.
    destruct text as [|c r]; [discriminate|].
    apply andb_true_iff in Hre as [Hc Hend].
    destruct (digits_then_end_shape _ Hend) as [Hall | (d & Hall & Heq)].
    + rewrite (decimal_text_isdigit (String c r)) in Hd;
        [discriminate | discriminate | exact Hall].
    + exists d. split; [|split; assumption].
      intros ->. cbn in Heq. injection Heq as -> _. discriminate Hc.
  - intros (d & Hne & Hall & ->).
    destruct (digits_newline_shape d Hall) as (H1 & H2 & H3).
    unfold reaches_add, isdigit, re_match_digits. rewrite H2.
    destruct d as [|c r]; [congruence|].
    cbn [String.append] in *. rewrite H1, H3.
    cbn [all_chars] in Hall. apply andb_true_iff in Hall as [-> _].
    reflexivity.
  - intros w user_id. apply handle_message_add.
  - intros w user_id s user Hnot Hwf.
    destruct (dispatch_counts w (Text user_id text) s Hwf) as [_ H].
    cbn [dispatch adds_for] in H.
    destruct (H user) as [Hle | (Hadds & _)]; [exact Hle|].
    rewrite Hnot, andb_false_r in Hadds. discriminate.
Qed.

(** *** The parameters of a search *)

(** X21.  The query parameters of a search: ['page'], ['per_page'] and
    ['sort_by'] are always sent; each of the five filters is sent exactly
    when its argument is truthy, with the argument as value.  So a filter
    left at [None] is omitted, and so are a category or location id of 0,
    an empty query and a price bound of 0.  No other key is sent. *)
Theorem filters_are_sent_when_truthy :
  forall (category_id location_id : json) (search_query : option string)
         (price_from price_to : option Z) (sort_by : string)
         (page per_page : Z),
    let qs := search_params category_id location_id search_query
                            price_from price_to sort_by page per_page in
    let bound (o : option Z) :=
      match o with
      | Some z => if (z =? 0)%Z then None else Some (JInt z)
      | None => None
      end in
    dict_get String.eqb "page" qs = Some (JInt page) /\
    dict_get String.eqb "per_page" qs = Some (JInt per_page) /\
    dict_get String.eqb "sort_by" qs = Some (JStr sort_by) /\
    dict_get String.eqb "category_id" qs
    = (if truthy category_id then Some category_id else None) /\
    dict_get String.eqb "location_id" qs
    = (if truthy location_id then Some location_id else None) /\
    dict_get String.eqb "query" qs
    = match search_query with
      | Some q => if String.eqb q "" then None else Some (JStr q)
      | None => None
      end /\
    dict_get String.eqb "price_from" qs = bound price_from /\
    dict_get String.eqb "price_to" qs = bound price_to /\
    incl (dict_keys qs)
         ["page"; "per_page"; "sort_by"; "category_id"; "location_id";
          "query"; "price_from"; "price_to"].
Proof.
  intros category_id location_id search_query price_from price_to sort_by
         page per_page.
  cbv zeta. unfold search_params, set_if, is_some_true, of_option.
  destruct (truthy category_id), (truthy location_id),
    search_query as [q|], price_from as [pf|], price_to as [pt|];
    try destruct (String.eqb q ""); try destruct (pf =? 0)%Z;
    try destruct (pt =? 0)%Z; cbn [negb].
  all: repeat split; try reflexivity.
  all: intros k Hk; cbn in Hk |- *; tauto.
Qed.

(** *** Back-off *)

Lemma slept_app (a b : list event) : slept (a ++ b) = (slept a + slept b)%Z.
Proof.
  induction a as [|e a IH]; cbn [app slept]; [reflexivity|].
  destruct e; rewrite IH; lia.
Qed.

Section Backoff.
Variable w : World.
Variables method endpoint : string.
Variable ps : option params.
Variable data : option json.

Lemma make_request_sleeps :
  forall k retry_count s,
    MAX_RETRIES - retry_count <= k ->
    exists evs,
      trace (snd (_make_request w method endpoint ps data retry_count s))
      = (trace s ++ evs)%list /\
      (0 <= slept evs <= RETRY_DELAY * Z.of_nat (MAX_RETRIES - retry_count))%Z.
Proof.
  induction k as [|k IH]; intros rc s Hk;
    destruct (_make_request w method endpoint ps data rc s) as [r s'] eqn:H;
    rewrite make_request_eq in H;
    destruct (Nat.leb_spec MAX_RETRIES rc) as [Hle|Hlt]; try lia.
  1,2: injection H as <- <-; exists []; rewrite app_nil_r; cbn [snd slept];
       split; [reflexivity | unfold RETRY_DELAY; lia].
  assert (Hrec : forall s1, exists r2 s2 evs,
             _make_request w method endpoint ps data (rc + 1) s1 = (r2, s2) /\
             trace s2 = (trace s1 ++ evs)%list /\
             (0 <= slept evs
              <= RETRY_DELAY * Z.of_nat (MAX_RETRIES - (rc + 1)))%Z /\
             (forall x, r2 <> Raise (ClientError x))).
  { intros s1.
    destruct (IH (rc + 1) s1 ltac:(lia)) as (evs & Ht & Hs).
    destruct (_make_request w method endpoint ps data (rc + 1) s1)
      as [r2 s2] eqn:E.
    destruct (make_request_frame w method endpoint ps data _ _ _ _ _
                (le_n _) E) as (_ & _ & _ & Hnc).
    exists r2, s2, evs. auto. }
  clear IH.
  unfold bind at 1 in H.
  destruct (get_session_run s) as (session & a' & E & Hb & _ & _).
  rewrite E in H. clear E.
  unfold_run H.
  repeat first
    [ match type of H with
      | context [refresh_token w ?s1] =>
          let E := fresh "E" in
          destruct (refresh_token_run w s1) as (? & ? & ? & E & ? & ?);
          rewrite E in H; clear E
      | context [_make_request w method endpoint ps data (rc + 1) ?s1] =>
          let E := fresh "E" in
          destruct (Hrec s1) as (? & ? & ? & E & ? & ? & ?);
          rewrite E in H; clear E
      end
    | progress cbn [is_client_error api user_items trace fst snd] in H
    | destruct_run H ];
    cbn [api user_items trace fst snd] in *.
  all: injection H as <- <-.
  all: cbn [api user_items trace snd] in *.
  all: try match goal with
           | Hc : is_client_error ?e = true,
             Hn : forall x, Raise ?e <> Raise (ClientError x) |- _ =>
               destruct e; try discriminate; exfalso; eapply Hn; reflexivity
           end.
  all: repeat match goal with
              | Ht : trace _ = _ |- _ => rewrite Ht; clear Ht
              end.
  all: rewrite <- ?app_assoc; eexists; (split; [reflexivity|]).
  all: cbn [app slept]; rewrite ?slept_app; cbn [slept].
  all: replace (MAX_RETRIES - rc) with (S (MAX_RETRIES - (rc + 1))) by lia.
  all: unfold RETRY_DELAY in *; lia.
Qed.

End Backoff.

(** X22.  The back-off of one call is bounded: the sleeps of a call of
    [_make_request] add up to at most [RETRY_DELAY] seconds for each
    attempt that is left, 15 seconds for a call that starts at 0. *)
Theorem backoff_is_bounded :
  forall (w : World) (method endpoint : string) (ps : option params)
         (data : option json) (retry_count : nat) (s : state),
    exists evs,
      trace (snd (_make_request w method endpoint ps data retry_count s))
      = (trace s ++ evs)%list /\
      (0 <= slept evs <= RETRY_DELAY * Z.of_nat (MAX_RETRIES - retry_count))%Z /\
      (RETRY_DELAY * Z.of_nat (MAX_RETRIES - 0) = 15)%Z.
Proof.
  intros w method endpoint ps data rc s.
  destruct (make_request_sleeps w method endpoint ps data _ rc s (le_n _))
    as (evs & Ht & Hs).
  exists evs. repeat split; auto; apply Hs.
Qed.

(** *** What /list shows after an add *)

Lemma list_items_shows (user_id : Z) (s : state) (items : dict string float) :
  dict_get Z.eqb user_id (user_items s) = Some items -> items <> [] ->
  list_items user_id s = (Ok tt, add_event (ReplyText (MsgList items)) s).
Proof.
  intros H Hne.
  unfold list_items, has_no_items, items_of, reply_text, bind, emit,
    get_user_items, lift.
  rewrite H. destruct items; [congruence|]. cbv beta iota.
  rewrite H. reflexivity.
Qed.

(** X23.  An item that is added goes to the end of the user's list, and an
    id that is already tracked is not listed twice.  For a text that
    reaches the add branch, a user below the limit and a detail with a
    readable price: the user's dict becomes the old one with the price set
    under the text; if the id was not tracked, /list then shows the old
    entries in their order followed by the new one; if it was, the list
    keeps its length and its order and the entry shows the new price. *)
Theorem added_item_is_listed_last :
  forall (w : World) (user_id : Z) (text : string) (s s1 : state)
         (item_details : json) (price : float),
    reaches_add text = true ->
    count_of user_id (user_items s) < MAX_ITEMS_PER_USER ->
    get_item_details w text (with_user user_id s) = (Ok item_details, s1) ->
    truthy item_details = true ->
    price_of w item_details = Ok price ->
    let items := items_or_empty user_id (user_items s) in
    let s2 := snd (handle_message w user_id text s) in
    dict_get Z.eqb user_id (user_items s2)
    = Some (dict_set String.eqb text price items) /\
    (dict_mem String.eqb text items = false ->
     list_items user_id s2
     = (Ok tt, add_event (ReplyText (MsgList (items ++ [(text, price)])%list))
                         s2)) /\
    (dict_mem String.eqb text items = true ->
     dict_keys (dict_set String.eqb text price items) = dict_keys items /\
     list_items user_id s2
     = (Ok tt, add_event (ReplyText (MsgList (dict_set String.eqb text price
                                                       items))) s2)).
Proof.
  intros w user_id text s s1 details price Hadd Hlt Hfetch Htruthy Hprice.
  cbv zeta.
  rewrite (handle_message_add w user_id text Hadd).
  destruct (add_item_below_capacity w user_id text s Hlt) as (d & Hd & _ & ->).
  assert (Hitems : items_or_empty user_id (user_items s) = d).
  { unfold items_or_empty, with_user, dict_mem in *.
    destruct (dict_get Z.eqb user_id (user_items s)) as [d0|] eqn:E.
    - rewrite E in Hd. congruence.
    - cbn [user_items] in Hd.
      rewrite (dict_get_set_same _ _ _ z_eqb_eq) in Hd. congruence. }
  rewrite Hitems.
  destruct (get_item_details_frame w text _ s1 _ Hfetch) as (Hu & _).
  assert (Hrun : fetch_and_add w user_id text (with_user user_id s)
                 = (Ok tt,
                    mkState (api s1)
                      (dict_set Z.eqb user_id
                         (dict_set String.eqb text price d) (user_items s1))
                      (trace s1 ++ [ReplyText (MsgAdded price
                                                 (CHECK_INTERVAL / 60))])%list)).
  { unfold fetch_and_add, try_except, bind at 1. rewrite Hfetch, Htruthy.
    unfold bind at 1, lift at 1. rewrite Hprice.
    unfold set_item, reply_text, items_of, bind, emit, get_user_items,
      put_user_items, lift.
    cbn [user_items api trace]. rewrite Hu, Hd. reflexivity. }
  rewrite Hrun. cbn [snd user_items].
  assert (Hget : dict_get Z.eqb user_id
                   (dict_set Z.eqb user_id (dict_set String.eqb text price d)
                             (user_items s1))
                 = Some (dict_set String.eqb text price d))
    by apply (dict_get_set_same _ _ _ z_eqb_eq).
  split; [exact Hget|]. split.
  - intros Hnew.
    assert (Hset : dict_set String.eqb text price d = (d ++ [(text, price)])%list).
    { clear -Hnew. unfold dict_mem in Hnew.
      induction d as [|[k v] d IH]; cbn [dict_set dict_get app] in *;
        [reflexivity|].
      destruct (String.eqb text k); [discriminate|]. now rewrite IH. }
    rewrite Hset in *.
    apply list_items_shows; [exact Hget|]. destruct d; discriminate.
  - intros Hold. split.
    + now apply dict_set_keys_mem.
    + apply list_items_shows; [exact Hget|].
      destruct d as [|[k v] d]; [discriminate|].
      cbn [dict_set]. destruct (String.eqb text k); discriminate.
Qed.

(** *** Instances of the further properties *)

(** X1 at the token endpoint of [token_world]. *)
Lemma refresh_token_stores_token_and_expiry_witness :
  refresh_token token_world started
  = (Ok tt,
     mkState (with_token (JStr "fresh") (Some (0%Z, JInt 3600)) (api started))
             [] [token_post]).
Proof.
  apply (refresh_token_stores_token_and_expiry token_world started
           (mkResponse 200 (Decoded (JObj [("access_token", JStr "fresh");
                                           ("expires_in", JInt 3600)])))
           [("access_token", JStr "fresh"); ("expires_in", JInt 3600)]
           (JStr "fresh") 3600).
  - reflexivity.
  - reflexivity.
  - reflexivity.
  - reflexivity.
  - right. split; [reflexivity|]. split; discriminate.
Defined.

(** X2 at a token endpoint that answers 403. *)
Lemma refresh_token_failures_witness :
  refresh_token refusing_world started
  = (Raise RefreshFailed, add_event token_post started).
Proof.
  destruct (refresh_token_failures refusing_world started
              (mkResponse 403 (Decoded (JObj []))) eq_refl) as (H & _).
  apply H. discriminate.
Defined.

(** X4 at a listing priced 100: one request, the detail returned. *)
Lemma first_answer_ends_chain_witness :
  get_item_details (priced_world 100) "42" started
  = (Ok (JObj [("title", JStr "lamp"); ("price", JInt 100)]),
     add_event (item_request "42" stale_headers) opened).
Proof.
  destruct (first_answer_ends_chain (priced_world 100) "GET" "/items/42"
              None None 0 started opened first_session) as (H & _).
  - unfold MAX_RETRIES. lia.
  - reflexivity.
  - apply (H (mkResponse 200 (Decoded (JObj [("title", JStr "lamp");
                                             ("price", JInt 100)])))).
    + reflexivity.
    + reflexivity.
    + reflexivity.
Defined.

(** X5 at a server that answers 401 and refuses to renew the token. *)
Lemma failed_refresh_ends_chain_witness :
  get_item_details refusing_world "42" started
  = (Raise RefreshFailed,
     add_event token_post (add_event (item_request "42" stale_headers) opened)).
Proof.
  destruct (failed_refresh_ends_chain refusing_world "GET" "/items/42"
              None None 0 started opened first_session
              (mkResponse 401 (Decoded (JObj [])))) as (H & _).
  - unfold MAX_RETRIES. lia.
  - reflexivity.
  - reflexivity.
  - reflexivity.
  - apply (H (mkResponse 403 (Decoded (JObj [])))).
    + reflexivity.
    + discriminate.
Defined.

(** X6 at a server that answers 503 to everything. *)
Lemma token_is_renewed_only_on_401_witness :
  access_token (api (snd (get_item_details failing_world "42" started)))
  = JStr "stale".
Proof.
  destruct (token_is_renewed_only_on_401 failing_world) with
    (method := "GET") (endpoint := "/items/42") (ps := @None params)
    (data := @None json) (retry_count := 0) (s := started) as (H & _).
  - intros n m u p d h r [= <-]. discriminate.
  - exact H.
Defined.

(** X14 for user 7 and item "42", stored at 100 and now priced 50. *)
Lemma price_change_is_announced_and_stored_witness :
  exists s2,
    check_item (priced_world 50) 7 "42" 100 (tracking 100) = (Ok tt, s2) /\
    trace s2
    = (trace (fetched (priced_world 50) "42" (tracking 100))
       ++ [SendMessage 7 (MsgPriceChanged "42" (JStr "lamp") Decreased
                                          50 100 50)])%list /\
    stored_price 7 "42" s2 = Some 50%float.
Proof.
  destruct (price_change_is_announced_and_stored (priced_world 50) 7 "42"
              100 50 (-0.5) (tracking 100)
              (fetched (priced_world 50) "42" (tracking 100))
              (JObj [("title", JStr "lamp"); ("price", JInt 50)])
              (JStr "lamp"))
    as (s2 & H1 & H2 & H3 & _).
  - reflexivity.
  - vm_compute. reflexivity.
  - reflexivity.
  - vm_compute. reflexivity.
  - reflexivity.
  - vm_compute. reflexivity.
  - vm_compute. reflexivity.
  - reflexivity.
  - exists s2. split; [exact H1|]. split; [|exact H3].
    rewrite H2. vm_compute. reflexivity.
Defined.

(** X15 for user 7 tracking "42": the text "1" removes it, the text "2"
    is answered "wrong number". *)
Lemma number_removes_listed_position_witness :
  remove_item 7 (tracking 100)
  = (Ok tt, add_event (ReplyText (MsgChooseRemoval [("42", 100%float)]))
                      (tracking 100)) /\
  handle_message (priced_world 100) 7 "1" (tracking 100)
  = (Ok tt, mkState (api started) [(7%Z, [])] [ReplyText (MsgRemoved "42")]) /\
  handle_message (priced_world 100) 7 "2" (tracking 100)
  = (Ok tt, add_event (ReplyText MsgBadIndex) (tracking 100)).
Proof.
  destruct (number_removes_listed_position (priced_world 100) 7 "1"
              (tracking 100) [("42", 100%float)])
    as (Hlist & Hremove & _).
  - reflexivity.
  - reflexivity.
  - discriminate.
  - split; [exact Hlist|]. split.
    + apply (Hremove 1%Z "42" 100%float); [reflexivity | lia | reflexivity].
    + destruct (number_removes_listed_position (priced_world 100) 7 "2"
                  (tracking 100) [("42", 100%float)])
        as (_ & _ & Hbad & _).
      * reflexivity.
      * reflexivity.
      * discriminate.
      * apply (Hbad 2%Z); [reflexivity | right; cbn; lia].
Defined.

(** X16 for the text "lamp | | | 0 | 900": the category and the location
    are empty, the bounds are 0 and 900. *)
Lemma search_text_is_split_into_fields_witness :
  join_bar ["lamp "; " "; " "; " 0 "; " 900"] = "lamp | | | 0 | 900" /\
  handle_message (priced_world 100) 7 "lamp | | | 0 | 900" started
  = Bot.search_items (priced_world 100) "lamp" (Some "") (Some "")
                     (Some 0%Z) (Some 900%Z) started.
Proof.
  split; [reflexivity|].
  destruct (search_text_is_split_into_fields (priced_world 100) 7
              ["lamp "; " "; " "; " 0 "; " 900"] started)
    as (Hbranch & Hparsed & _).
  - cbn. lia.
  - repeat constructor.
  - change (join_bar ["lamp "; " "; " "; " 0 "; " 900"])
      with "lamp | | | 0 | 900" in *.
    rewrite Hbranch. apply (Hparsed (Some 0%Z) (Some 900%Z)); reflexivity.
Defined.

(** X17 at the catalog: "boats" is no category, and the search runs
    without one; "lamps" is the category "Lamps", with id 2. *)
Lemma category_is_matched_by_name_witness :
  Bot.search_items catalog_world "lamp" (Some "boats") None None None started
  = Bot.search_items catalog_world "lamp" None None None None listed /\
  exists hs rest,
    trace (snd (Bot.search_items catalog_world "lamp" (Some "lamps") None
                                 None None started))
    = (trace listed ++ lamp_search [("category_id", JInt 2)] hs :: rest)%list.
Proof.
  split.
  - destruct (category_is_matched_by_name catalog_world "lamp" "boats"
                None None started listed catalog) as (H & _).
    + discriminate.
    + vm_compute. reflexivity.
    + apply H. repeat constructor.
      * exists "Cars". split; [reflexivity | discriminate].
      * exists "Lamps". split; [reflexivity | discriminate].
  - destruct (category_is_matched_by_name catalog_world "lamp" "lamps"
                None None started listed catalog) as (_ & H).
    + discriminate.
    + vm_compute. reflexivity.
    + apply (H [JObj [("id", JInt 1); ("name", JStr "Cars")]]
               (JObj [("id", JInt 2); ("name", JStr "Lamps")]) []
               "Lamps" (JInt 2)).
      * reflexivity.
      * repeat constructor. exists "Cars". split; [reflexivity | discriminate].
      * reflexivity.
      * reflexivity.
      * reflexivity.
Defined.

(** X18 at the catalog: six listings are found, five are shown. *)
Lemma search_reply_shows_first_five_witness :
  Bot.search_items catalog_world "lamp" None None None None started
  = (Ok tt, add_event (ReplyText (MsgSearchResults
                                    (map shown [1; 2; 3; 4; 5]%Z)))
                      searched) /\
  List.length (map shown [1; 2; 3; 4; 5]%Z) = Nat.min 5 6.
Proof.
  destruct (search_reply_shows_first_five catalog_world "lamp" None None
              started searched
              (JObj [("items", JArr (map lamp [1; 2; 3; 4; 5; 6]%Z))])
              (JArr (map lamp [1; 2; 3; 4; 5; 6]%Z))) as (_ & H).
  - vm_compute. reflexivity.
  - reflexivity.
  - apply (H (map lamp [1; 2; 3; 4; 5; 6]%Z) (map shown [1; 2; 3; 4; 5]%Z)).
    + reflexivity.
    + discriminate.
    + repeat constructor; intros s'; vm_compute; reflexivity.
Defined.

(** X19 at a server that answers with an empty object: "not found", and
    nothing is stored. *)
Lemma failed_add_stores_nothing_witness :
  handle_message empty_world 7 digits_newline (tracking 100)
  = (Ok tt, add_event (ReplyText MsgNotFound)
              (fetched empty_world digits_newline (tracking 100))) /\
  stored_price 7 "42" (fetched empty_world digits_newline (tracking 100))
  = Some 100%float.
Proof.
  destruct (failed_add_stores_nothing empty_world 7 digits_newline
              (tracking 100)
              (fetched empty_world digits_newline (tracking 100))
              (Ok (JObj []))) as (_ & Hnone & _ & Hkept).
  - reflexivity.
  - cbn. unfold MAX_ITEMS_PER_USER. lia.
  - vm_compute. reflexivity.
  - split.
    + apply (Hnone (JObj [])); reflexivity.
    + rewrite Hkept. reflexivity.
Defined.

(** X23 for user 7 tracking "42": the item added by "12\n" is listed
    after it. *)
Lemma added_item_is_listed_last_witness :
  list_items 7 (snd (handle_message (priced_world 100) 7 digits_newline
                                    (tracking 100)))
  = (Ok tt,
     add_event (ReplyText (MsgList [("42", 100%float);
                                    (digits_newline, 100%float)]))
               (snd (handle_message (priced_world 100) 7 digits_newline
                                    (tracking 100)))).
Proof.
  destruct (added_item_is_listed_last (priced_world 100) 7 digits_newline
              (tracking 100)
              (fetched (priced_world 100) digits_newline
                       (with_user 7 (tracking 100)))
              (JObj [("title", JStr "lamp"); ("price", JInt 100)]) 100)
    as (_ & H & _).
  - reflexivity.
  - cbn. unfold MAX_ITEMS_PER_USER. lia.
  - vm_compute. reflexivity.
  - reflexivity.
  - vm_compute. reflexivity.
  - apply H. reflexivity.
Defined.
